(** * The transaction execution core of ethereumjs-vm

    A shallow embedding of [lib/runTx.js], [lib/runCall.js] and the state
    manager, together with the properties of the transaction executor, the
    call executor and the state manager that the specification states.

    Conventions of the embedding.
    - A [bn.js] number is a [Z]; its arithmetic is exact.  A [Buffer] that
      holds a quantity (nonce, balance, gas) is identified with the number it
      encodes; [bnToBuffer] is the passage [new Buffer(bn.toArray())], which
      writes the bytes of the magnitude.
    - An address or a hash is the number its bytes encode ([N]).
    - Accounts are values: what the cache hands out is a copy, and a local
      assignment such as [account.balance = ...] reaches the store only
      through a later [put].
    - The callback chains ([async.series]) are straight-line code in a state
      and error monad over the record [VM], which holds what the JavaScript
      reaches through [self]: the cache, the outer trie and the registry of
      storage tries ([self.cache] and [self.stateManager.cache] are one
      object, as are [self.trie] and [self.stateManager.trie]).
    - The record also carries [log], a ghost trace of the transactional
      operations (checkpoint, commit, revert, flush, clear), so that "this
      operation was never called" can be stated.
    - The interpreter, the hash, the address derivation, the fee constant,
      the bloom filter and the listeners of the two events are parameters
      ([Interp], [Hooks]).  So is the method [self.runCall] that
      [lib/runTx.js] calls: the VM object is assembled outside these files.
    - Left out, as no property below reads them: the storage side of the
      state manager ([putContractStorage], the history tree,
      [getBlockHashByNumber]) and the second, half-refactored copy of
      [runTx]. *)

From Stdlib Require Import ZArith Lia.
From stdpp Require Import base option list gmap.

Local Open Scope Z_scope.

(** ** Data model *)

Definition Address := N.
Definition Hash := N.
Definition Bytes := list Byte.byte.

(** [ethUtil.SHA3_NULL]: the hash of the empty byte string. *)
Definition SHA3_NULL : Hash :=
  0xc5d2460186f7233c927e7db2dcc703c0e500b653ca82273b7bfad8045d85a470%N.

(** [ethUtil.SHA3_RLP]: the root of the empty trie. *)
Definition SHA3_RLP : Hash :=
  0x56e81f171bcc55a6ff8345e692c0f86e5b48e01b996cadc001622fb5e363b421%N.

Record Account := mkAccount {
  nonce : Z;
  balance : Z;
  stateRoot : Hash;
  codeHash : Hash
}.

#[export] Instance Account_eq_dec : EqDecision Account.
Proof. solve_decision. Defined.

(** [new Account()]: what empty bytes deserialise to. *)
Definition newAccount : Account := mkAccount 0 0 SHA3_RLP SHA3_NULL.

Definition setBalance (a : Account) (b : Z) : Account :=
  mkAccount (nonce a) b (stateRoot a) (codeHash a).

Definition setNonce (a : Account) (n : Z) : Account :=
  mkAccount n (balance a) (stateRoot a) (codeHash a).

Definition setCodeHash (a : Account) (h : Hash) : Account :=
  mkAccount (nonce a) (balance a) (stateRoot a) h.

(** [new Buffer(bn.toArray())]: [toArray] emits the bytes of the magnitude. *)
Definition bnToBuffer (z : Z) : Z := Z.abs z.

(** [Account.prototype.isPrecompiled] of ethereumjs-account: the address,
    unpadded, is one byte between 1 and 4. *)
Definition isPrecompiled (address : Address) : bool :=
  (N.ltb 0 address && N.ltb address 5)%N.

(** [Account.prototype.isContract(address)] of ethereumjs-account. *)
Definition isContract (a : Account) (address : Address) : bool :=
  negb (N.eqb (codeHash a) SHA3_NULL) || isPrecompiled address.

(** ** The account cache *)

Module Cache.

(** Modelled from the spec: [lib/cache.js] is not among the sources.  An
    entry is [{ account, dirty, deleted, warm }] (section 3). *)
Record entry := Entry {
  account : Account;
  dirty : bool;
  deleted : bool;
  warm : bool
}.

(** Modelled from the spec: the cache of [lib/cache.js], a table of entries
    and a stack of snapshots of that table (section 4.1). *)
Record t := Make {
  table : gmap Address entry;
  checkpoints : list (gmap Address entry)
}.

Definition empty : t := Make ∅ [].

(** Modelled from the spec: [cache.get] of [lib/cache.js]; [None] is the
    miss on an address that is neither warmed nor loaded.  An entry marked
    deleted holds no account. *)
Definition get (a : Address) (c : t) : option Account :=
  match table c !! a with
  | Some e => if deleted e then None else Some (account e)
  | None => None
  end.

(** Modelled from the spec: [cache.put(addr, acct, warm?)] of
    [lib/cache.js]; an entry put as warm is clean, any other put makes it
    dirty. *)
Definition put (a : Address) (acct : Account) (fromTrie : bool) (c : t) : t :=
  Make (<[a := Entry acct (negb fromTrie) false fromTrie]> (table c))
       (checkpoints c).

(** Modelled from the spec: [cache.del] of [lib/cache.js] marks the entry
    deleted; flush then removes the key from the trie. *)
Definition del (a : Address) (c : t) : t :=
  let acct := match table c !! a with
              | Some e => account e
              | None => newAccount
              end in
  Make (<[a := Entry acct true true false]> (table c)) (checkpoints c).

(** Modelled from the spec: [cache.getOrLoad] of [lib/cache.js]; on a miss
    the account is read from the trie ([fromStore], empty bytes giving a
    fresh account) and kept as a clean entry. *)
Definition getOrLoad (a : Address) (fromStore : option Account) (c : t)
  : Account * t :=
  match table c !! a with
  | Some e => (if deleted e then newAccount else account e, c)
  | None =>
      let acct := default newAccount fromStore in
      (acct, put a acct true c)
  end.

(** Modelled from the spec: [checkpoint] pushes a snapshot of the table. *)
Definition checkpoint (c : t) : t :=
  Make (table c) (table c :: checkpoints c).

(** Modelled from the spec: [commit] pops the snapshot and discards it. *)
Definition commit (c : t) : t :=
  Make (table c) (tail (checkpoints c)).

(** Modelled from the spec: [revert] pops the snapshot and restores it. *)
Definition revert (c : t) : t :=
  match checkpoints c with
  | s :: rest => Make s rest
  | [] => c
  end.

(** Modelled from the spec: [clear] empties the table. *)
Definition clear (c : t) : t := Make ∅ (checkpoints c).

(** Modelled from the spec: what [flush] leaves in the trie at one key: a
    dirty entry is written, or removed when it is marked deleted; a clean
    entry is never written. *)
Definition flushEntry (e : option entry) (old : option Account)
  : option Account :=
  match e with
  | Some e =>
      if dirty e then (if deleted e then None else Some (account e))
      else old
  | None => old
  end.

Definition clean (e : entry) : entry :=
  Entry (account e) false (deleted e) (warm e).

(** Modelled from the spec: the table after [flush]: nothing is dirty. *)
Definition flushed (c : t) : t := Make (clean <$> table c) (checkpoints c).

End Cache.

(** ** The outer trie *)

Module Trie.

(** The authenticated key-value store (merkle-patricia-tree), by its
    contract in section 6: [get], [put], [delete], [checkpoint], [commit],
    [revert].  The root authenticates the content, so the content stands
    for the root.  [raw] is the auxiliary region that holds code blobs
    under their hash ([getRaw], [putRaw]). *)
Record t := Make {
  store : gmap Address Account;
  checkpoints : list (gmap Address Account);
  raw : gmap Hash Bytes
}.

Definition empty : t := Make ∅ [] ∅.

Definition root (tr : t) : gmap Address Account := store tr.

Definition get (a : Address) (tr : t) : option Account := store tr !! a.

Definition put (a : Address) (acct : Account) (tr : t) : t :=
  Make (<[a := acct]> (store tr)) (checkpoints tr) (raw tr).

Definition del (a : Address) (tr : t) : t :=
  Make (delete a (store tr)) (checkpoints tr) (raw tr).

Definition checkpoint (tr : t) : t :=
  Make (store tr) (store tr :: checkpoints tr) (raw tr).

Definition commit (tr : t) : t :=
  Make (store tr) (tail (checkpoints tr)) (raw tr).

Definition revert (tr : t) : t :=
  match checkpoints tr with
  | s :: rest => Make s rest (raw tr)
  | [] => tr
  end.

Definition putRaw (h : Hash) (code : Bytes) (tr : t) : t :=
  Make (store tr) (checkpoints tr) (<[h := code]> (raw tr)).

Definition getRaw (h : Hash) (tr : t) : option Bytes := raw tr !! h.

End Trie.

(** ** The machine state and its monad *)

Inductive Event :=
| EvCacheCheckpoint
| EvCacheCommit
| EvCacheRevert
| EvTrieCheckpoint
| EvTrieCommit
| EvTrieRevert
| EvCacheFlush
| EvCacheClear.

#[export] Instance Event_eq_dec : EqDecision Event.
Proof. solve_decision. Defined.

Record VM := mkVM {
  cache : Cache.t;
  trie : Trie.t;
  storageTries : gmap Address Hash;
  log : list Event
}.

Inductive Error :=
| ErrTxGasExceedsBlock   (* 'tx has a higher gas limit than the block' *)
| ErrInsufficientFunds   (* "sender doesn't have enough funds to send tx" *)
| ErrBadNonce            (* "the tx doesn't have the correct nonce" *)
| ErrCacheMiss           (* [cache.get] on an address that is not cached *)
| ErrTypeError           (* a property read on [undefined] *)
| ErrHook (code : N)     (* the error a beforeTx or afterTx listener passes *)
| ErrFrame.              (* the frame executor raised an exception *)

#[export] Instance Error_eq_dec : EqDecision Error.
Proof. solve_decision. Defined.

Inductive Res (A : Type) :=
| Ok (a : A)
| Fail (e : Error).
Arguments Ok {A} a.
Arguments Fail {A} e.

Definition M (A : Type) : Type := VM -> Res A * VM.

Definition ret {A} (a : A) : M A := fun vm => (Ok a, vm).

Definition fail {A} (e : Error) : M A := fun vm => (Fail e, vm).

Definition bind {A B} (m : M A) (k : A -> M B) : M B :=
  fun vm =>
    match m vm with
    | (Ok a, vm') => k a vm'
    | (Fail e, vm') => (Fail e, vm')
    end.

Notation "'do' x <- m ; k" := (bind m (fun x => k))
  (at level 10, x name, m at level 100, k at level 200).
Notation "'do' ' pat <- m ; k" :=
  (bind m (fun x => match x with pat => k end))
  (at level 10, pat pattern, m at level 100, k at level 200).
Notation "'run' m ; k" := (bind m (fun _ => k))
  (at level 10, m at level 100, k at level 200).

Definition modify (f : VM -> VM) : M unit := fun vm => (Ok tt, f vm).

Definition gets {A} (f : VM -> A) : M A := fun vm => (Ok (f vm), vm).

Definition withCache (f : Cache.t -> Cache.t) (vm : VM) : VM :=
  mkVM (f (cache vm)) (trie vm) (storageTries vm) (log vm).

Definition withTrie (f : Trie.t -> Trie.t) (vm : VM) : VM :=
  mkVM (cache vm) (f (trie vm)) (storageTries vm) (log vm).

Definition emit (ev : Event) (vm : VM) : VM :=
  mkVM (cache vm) (trie vm) (storageTries vm) (log vm ++ [ev]).

(** [self.cache.*] and [self.trie.*] as the call sites use them. *)
Definition cachePut (a : Address) (acct : Account) : M unit :=
  modify (withCache (Cache.put a acct false)).

Definition cacheDel (a : Address) : M unit :=
  modify (withCache (Cache.del a)).

Definition cacheGet (a : Address) : M Account :=
  fun vm =>
    match Cache.get a (cache vm) with
    | Some acct => (Ok acct, vm)
    | None => (Fail ErrCacheMiss, vm)
    end.

Definition cacheCheckpoint : M unit :=
  modify (fun vm => emit EvCacheCheckpoint (withCache Cache.checkpoint vm)).

Definition cacheCommit : M unit :=
  modify (fun vm => emit EvCacheCommit (withCache Cache.commit vm)).

Definition cacheRevert : M unit :=
  modify (fun vm => emit EvCacheRevert (withCache Cache.revert vm)).

Definition trieCheckpoint : M unit :=
  modify (fun vm => emit EvTrieCheckpoint (withTrie Trie.checkpoint vm)).

Definition trieCommit : M unit :=
  modify (fun vm => emit EvTrieCommit (withTrie Trie.commit vm)).

Definition trieRevert : M unit :=
  modify (fun vm => emit EvTrieRevert (withTrie Trie.revert vm)).

(** Modelled from the spec: [cache.flush] of [lib/cache.js] walks the dirty
    entries: a deleted one is removed from the trie, any other is written. *)
Definition cacheFlush : M unit :=
  modify (fun vm =>
    mkVM (Cache.flushed (cache vm))
         (Trie.Make (merge Cache.flushEntry (Cache.table (cache vm))
                                            (Trie.store (trie vm)))
                    (Trie.checkpoints (trie vm)) (Trie.raw (trie vm)))
         (storageTries vm)
         (log vm ++ [EvCacheFlush])).

Definition cacheClear : M unit :=
  modify (fun vm => emit EvCacheClear (withCache Cache.clear vm)).

(** ** What the core receives from its collaborators *)

Record BlockHeader := mkHeader {
  coinbase : Address;
  gasLimit : Z;
  number : Z;
  timestamp : Z;
  difficulty : Z
}.

(** What [code] holds: bytecode, or the native routine that
    [self._precomiled] keeps for a precompiled address. *)
Inductive Code :=
| Bytecode (b : Bytes)
| Native (address : Address).

(** A log is [[address, topics, data]]. *)
Record LogEntry := mkLog {
  logAddress : N;
  logTopics : list N;
  logData : Bytes
}.

(** The options [runCode] of [lib/runCall.js] hands to the interpreter. *)
Record RunCodeOpts := mkRunCodeOpts {
  rc_code : Code;
  rc_data : option Bytes;
  rc_gasLimit : Z;
  rc_gasPrice : Z;
  rc_account : Account;
  rc_address : Address;
  rc_origin : option Address;
  rc_caller : Address;
  rc_value : Z;
  rc_block : option BlockHeader;
  rc_depth : option Z;
  rc_suicides : option (list Address)
}.

(** What the interpreter calls back with (section 6).  [r_balanceIs00] is
    the one thing [lib/runCall.js] reads of the bytes of
    [results.account.balance] rather than of the number they stand for:
    whether they are the one byte [00].  A zero balance held as the empty
    buffer, as in a fresh account, is not. *)
Record RunResults := mkRunResults {
  r_account : Account;
  r_gasUsed : Z;
  r_gasRefund : option Z;
  r_return : Bytes;
  r_logs : option (list LogEntry);
  r_suicides : option (list Address);
  r_exceptionError : option N;
  r_exception : option Z;
  r_balanceIs00 : bool
}.

(** The [vm] record of a frame's results: [vmResults], which is [{}] when no
    code ran, so every field may be undefined. *)
Record VmResults := mkVmResults {
  vm_account : option Account;
  vm_gasUsed : option Z;
  vm_gasRefund : option Z;
  vm_return : option Bytes;
  vm_logs : option (list LogEntry);
  vm_suicides : option (list Address);
  vm_exceptionError : option N;
  vm_exception : option Z
}.

Definition emptyVmResults : VmResults :=
  mkVmResults None None None None None None None None.

Definition vmOfRun (r : RunResults) : VmResults :=
  mkVmResults (Some (r_account r)) (Some (r_gasUsed r)) (r_gasRefund r)
              (Some (r_return r)) (r_logs r) (r_suicides r)
              (r_exceptionError r) (r_exception r).

(** The collaborators of the call executor: the hash and the address
    derivation of ethereumjs-util, the fee constant of ethereum-common, and
    the two interpreters [self.runCode] and [self.runJIT]. *)
Record Interp := mkInterp {
  sha3 : Bytes -> Hash;
  generateAddress : Address -> Z -> Address;
  createDataGas : Z;
  self_runCode : RunCodeOpts -> VM -> RunResults * VM;
  self_runJIT : RunCodeOpts -> VM -> RunResults * VM
}.

(** ** The state manager *)

Module StateManager.

Definition getAccount (address : Address) : M Account :=
  fun vm =>
    let '(acct, c) :=
      Cache.getOrLoad address (Trie.get address (trie vm)) (cache vm) in
    (Ok acct, withCache (fun _ => c) vm).

Definition putAccount (address : Address) (account : Account) : M unit :=
  run cachePut address account;
  modify (withTrie (Trie.put address account)).

Definition getAccountBalance (address : Address) : M Z :=
  do account <- getAccount address;
  ret (balance account).

(** The parameter [account] is shadowed by the account the callback of
    [getAccount] receives: it is never read. *)
Definition putAccountBalance (address : Address) (account : Account)
           (balance : Z) : M unit :=
  do account <- getAccount address;
  putAccount address (setBalance account balance).

(** [account.setCode(trie, value)] of ethereumjs-account: the blob goes to
    the code region under its hash, which becomes the account's
    [codeHash]. *)
Definition setCode (I : Interp) (account : Account) (value : Bytes)
  : M Account :=
  let h := sha3 I value in
  run modify (withTrie (Trie.putRaw h value));
  ret (setCodeHash account h).

(** [account.getCode(trie)] of ethereumjs-account; an account without code
    yields the empty buffer. *)
Definition getCode (account : Account) : M Bytes :=
  if N.eqb (codeHash account) SHA3_NULL then ret []
  else gets (fun vm => default [] (Trie.getRaw (codeHash account) (trie vm))).

Definition putContractCode (I : Interp) (address : Address)
           (account : Account) (value : Bytes) : M unit :=
  do account <- setCode I account value;
  putAccount address account.

Definition getContractCode (account : Account) : M Bytes := getCode account.

(** Every storage trie is committed and leaves the registry. *)
Definition commitContracts : M unit :=
  modify (fun vm => mkVM (cache vm) (trie vm) ∅ (log vm)).

Definition revertContracts : M unit :=
  modify (fun vm => mkVM (cache vm) (trie vm) ∅ (log vm)).

Definition warmOne (acnt : Address) : M unit :=
  modify (fun vm =>
    let val := default newAccount (Trie.get acnt (trie vm)) in
    withCache (Cache.put acnt val true) vm).

Fixpoint eachSeries {A} (f : A -> M unit) (l : list A) : M unit :=
  match l with
  | [] => ret tt
  | x :: l' => run f x; eachSeries f l'
  end.

(** [addresses] is a set of hex strings; the empty string ([None]) is
    skipped. *)
Definition warmCache (addresses : list (option Address)) : M unit :=
  eachSeries warmOne (omap id addresses).

Definition getContractCodeByAddress (address : Address) : M Bytes :=
  do account <- getAccount address;
  getContractCode account.

(** [cacheFlush], then the root of the trie (its content stands for it). *)
Definition getStateRoot : M (gmap Address Account) :=
  run cacheFlush;
  gets (fun vm => Trie.root (trie vm)).

End StateManager.

(** ** The call executor: [lib/runCall.js] *)

Record CallOpts := mkCallOpts {
  o_account : option Account;
  o_block : option BlockHeader;
  o_caller : Address;
  o_code : option Code;
  o_data : option Bytes;
  o_gasLimit : Z;
  o_gasPrice : Z;
  o_origin : option Address;
  o_to : option Address;
  o_value : option Z;
  o_compiled : bool;
  o_depth : option Z;
  o_suicides : option (list Address)
}.

Record CallResults := mkCallResults {
  cr_gasUsed : Z;
  cr_fromAccount : Account;
  cr_toAccount : Account;
  cr_createdAddress : option Address;
  cr_vm : VmResults
}.

Module RunCall.
Section WithInterp.

Variable I : Interp.

Definition calculateFromAccountBalance (caller : Address)
           (account : Account) (txValue : Z) : M Account :=
  let newBalance := bnToBuffer (balance account - txValue) in
  let account := setBalance account newBalance in
  run StateManager.putAccountBalance caller account newBalance;
  ret account.

(** Yields [toAddress], [createdAddress], [toAccount], [code] and
    [txData] as the stage leaves them. *)
Definition loadToAccount (caller : Address) (account : Account)
           (toAddress : option Address) (code : option Code)
           (txData : option Bytes)
  : M (Address * option Address * Account * option Code * option Bytes) :=
  match toAddress with
  | None =>
      let created := generateAddress I caller (nonce account) in
      ret (created, Some created, newAccount, Bytecode <$> txData, None)
  | Some toAddress =>
      do toAccount <- StateManager.getAccount toAddress;
      ret (toAddress, None, toAccount, code, txData)
  end.

Definition calculateToAccountBalance (toAddress : Address)
           (toAccount : Account) (txValue : Z) : M Account :=
  let newBalance := bnToBuffer (balance toAccount + txValue) in
  let toAccount := setBalance toAccount newBalance in
  run StateManager.putAccountBalance toAddress toAccount newBalance;
  ret toAccount.

(** Yields [code] and [isCompiled].  Code read from the account is taken as
    bytecode: the compiled mark [getCode] may report is off. *)
Definition loadCode (toAddress : Address) (toAccount : Account)
           (code : option Code) (isCompiled : bool)
  : M (option Code * bool) :=
  if bool_decide (is_Some code) || negb (isContract toAccount toAddress)
  then ret (code, isCompiled)
  else if isPrecompiled toAddress
  then ret (Some (Native toAddress), true)
  else
    do c <- StateManager.getCode toAccount;
    ret (Some (Bytecode c), false).

(** The callback of the interpreter.  Yields [account], and [results] with
    [gasUsed] and [return] as the creation branch leaves them. *)
Definition parseRunResult (caller : Address) (account : Account)
           (txValue : Z) (gasLimit : Z) (createdAddress : option Address)
           (results : RunResults) : M (Account * RunResults) :=
  let toAccount := r_account results in
  do results <-
    match createdAddress with
    | Some created =>
        run (if bool_decide (is_Some (r_exceptionError results))
                && r_balanceIs00 results
             then cacheDel created else ret tt);
        let returnFee :=
          r_gasUsed results
          + Z.of_nat (length (r_return results)) * createDataGas I in
        if Z.leb returnFee gasLimit
        then ret (mkRunResults (r_account results) returnFee
                    (r_gasRefund results) (r_return results)
                    (r_logs results) (r_suicides results)
                    (r_exceptionError results) (r_exception results)
                    (r_balanceIs00 results))
        else ret (mkRunResults (r_account results) (r_gasUsed results)
                    (r_gasRefund results) []
                    (r_logs results) (r_suicides results)
                    (r_exceptionError results) (r_exception results)
                    (r_balanceIs00 results))
    | None => ret results
    end;
  match r_exceptionError results with
  | Some _ =>
      let account :=
        setBalance account (bnToBuffer (balance account + txValue)) in
      run cacheRevert;
      run cachePut caller account;
      run trieRevert;
      ret (account, results)
  | None =>
      run cacheCommit;
      run trieCommit;
      ret (account, results)
  end.

(** Yields [account], [toAccount], [vmResults] and [gasUsed]. *)
Definition runCode (opts : CallOpts) (caller : Address) (account : Account)
           (txValue : Z) (toAddress : Address)
           (createdAddress : option Address) (toAccount : Account)
           (code : option Code) (txData : option Bytes) (isCompiled : bool)
  : M (Account * Account * VmResults * Z) :=
  run cacheCheckpoint;
  run trieCheckpoint;
  match code with
  | None =>
      run cacheCommit;
      ret (account, toAccount, emptyVmResults, 0)
  | Some code =>
      let runCodeOpts :=
        mkRunCodeOpts code txData (o_gasLimit opts) (o_gasPrice opts)
                      toAccount toAddress (o_origin opts) caller txValue
                      (o_block opts) (o_depth opts) (o_suicides opts) in
      let codeRunner := if isCompiled then self_runJIT I else self_runCode I in
      do results <- (fun vm => let '(r, vm') := codeRunner runCodeOpts vm in
                               (Ok r, vm'));
      do '(account, results) <-
        parseRunResult caller account txValue (o_gasLimit opts)
                       createdAddress results;
      ret (account, r_account results, vmOfRun results, r_gasUsed results)
  end.

Definition saveCode (createdAddress : option Address)
           (vmResults : VmResults) (toAccount : Account) : M Account :=
  match vm_exceptionError vmResults, createdAddress with
  | None, Some _ =>
      match vm_return vmResults with
      | None => fail ErrTypeError
      | Some [] => ret toAccount
      | Some code => StateManager.setCode I toAccount code
      end
  | _, _ => ret toAccount
  end.

Definition parseCallResult (account : Account) (toAddress : Address)
           (createdAddress : option Address) (toAccount : Account)
           (vmResults : VmResults) (gasUsed : Z) : M CallResults :=
  run (match vm_exceptionError vmResults with
       | None => cachePut toAddress toAccount
       | Some _ => ret tt
       end);
  let vm :=
    mkVmResults (vm_account vmResults) (vm_gasUsed vmResults)
                (vm_gasRefund vmResults) (vm_return vmResults)
                (vm_logs vmResults) (vm_suicides vmResults)
                (vm_exceptionError vmResults)
                (Some (default 1 (vm_exception vmResults))) in
  ret (mkCallResults gasUsed account toAccount createdAddress vm).

Definition runCall (opts : CallOpts) : M CallResults :=
  let txValue := default 0 (o_value opts) in
  let caller := o_caller opts in
  match o_account opts with
  | None => fail ErrTypeError
  | Some account =>
      do account <- calculateFromAccountBalance caller account txValue;
      do '(toAddress, createdAddress, toAccount, code, txData) <-
        loadToAccount caller account (o_to opts) (o_code opts) (o_data opts);
      do toAccount <- calculateToAccountBalance toAddress toAccount txValue;
      do '(code, isCompiled) <-
        loadCode toAddress toAccount code (o_compiled opts);
      do '(account, toAccount, vmResults, gasUsed) <-
        runCode opts caller account txValue toAddress createdAddress
                toAccount code txData isCompiled;
      do toAccount <- saveCode createdAddress vmResults toAccount;
      parseCallResult account toAddress createdAddress toAccount vmResults
                      gasUsed
  end.

End WithInterp.
End RunCall.

(** ** The transaction executor: [lib/runTx.js] *)

Record Tx := mkTx {
  tx_nonce : Z;
  tx_gasPrice : Z;
  tx_gasLimit : Z;
  tx_to : option Address;      (* [None]: the empty buffer, a creation *)
  tx_value : Z;
  tx_data : Bytes;
  tx_from : Address
}.

Record TxOpts := mkTxOpts {
  opt_tx : Tx;
  opt_block : option BlockHeader;
  opt_skipNonce : bool;
  opt_populateCache : option bool
}.

Record TxResults := mkTxResults {
  res_gasUsed : Z;
  res_amountSpent : Z;
  res_bloom : Z;
  res_fromAccount : Account;
  res_toAccount : Account;
  res_createdAddress : option Address;
  res_vm : VmResults
}.

(** The collaborators of the transaction executor: the bloom filter of
    [lib/bloom.js], the listeners of the two events, the intrinsic gas of
    ethereumjs-tx, and the method [self.runCall] of the VM object, which is
    bound outside the files at hand ([None]: it raised an exception). *)
Record Hooks := mkHooks {
  bloomAdd : Z -> N -> Z;
  beforeTx : Tx -> option N;
  afterTx : TxResults -> option N;
  getBaseFee : Tx -> Z;
  self_runCall : CallOpts -> VM -> option CallResults * VM
}.

(** [tx.getUpfrontCost()] of ethereumjs-tx. *)
Definition getUpfrontCost (tx : Tx) : Z :=
  tx_gasLimit tx * tx_gasPrice tx + tx_value tx.

(** [new Block()] with [header.gasLimit = '0xfffffffffffff']. *)
Definition defaultBlock : BlockHeader := mkHeader 0%N 0xfffffffffffff 0 0 0.

(** [accounts.add(x)] on a [Set], kept in insertion order. *)
Definition setAdd {A} `{EqDecision A} (s : list A) (x : A) : list A :=
  if decide (x ∈ s) then s else s ++ [x].

Module RunTx.
Section WithHooks.

Variable H : Hooks.

Definition txLogsBloom (logs : option (list LogEntry)) : Z :=
  match logs with
  | Some logs =>
      fold_left (fun bloom l =>
                   fold_left (bloomAdd H) (logTopics l)
                             (bloomAdd H bloom (logAddress l)))
                logs 0
  | None => 0
  end.

Definition populateCache (opts : TxOpts) (block : BlockHeader) : M unit :=
  let tx := opt_tx opts in
  let accounts :=
    setAdd (setAdd (setAdd [] (Some (tx_from tx))) (tx_to tx))
           (Some (coinbase block)) in
  match opt_populateCache opts with
  | Some false => ret tt
  | _ => StateManager.warmCache accounts
  end.

Definition runTxHook (tx : Tx) : M unit :=
  match beforeTx H tx with
  | Some e => fail (ErrHook e)
  | None => ret tt
  end.

Definition runAfterTxHook (results : TxResults) : M unit :=
  match afterTx H results with
  | Some e => fail (ErrHook e)
  | None => ret tt
  end.

(** Lines 133 to 143: the total gas used, less the refund. *)
Definition refundGas (gasUsed : Z) (basefee : Z) (gasRefund : option Z) : Z :=
  let gasUsed := gasUsed + basefee in
  match gasRefund with
  | Some gasRefund =>
      if Z.ltb gasRefund (Z.quot gasUsed 2)
      then gasUsed - gasRefund
      else gasUsed - Z.quot gasUsed 2
  | None => gasUsed
  end.

Definition parseResults (tx : Tx) (block : BlockHeader) (basefee : Z)
           (_results : CallResults) : M TxResults :=
  let vm := cr_vm _results in
  let bloom := txLogsBloom (vm_logs vm) in
  do fromAccount <- cacheGet (tx_from tx);
  let gasUsed := refundGas (cr_gasUsed _results) basefee (vm_gasRefund vm) in
  let amountSpent := gasUsed * tx_gasPrice tx in
  let fromAccount :=
    setBalance fromAccount
      (bnToBuffer ((tx_gasLimit tx - gasUsed) * tx_gasPrice tx
                   + balance fromAccount)) in
  run cachePut (tx_from tx) fromAccount;
  do minerAccount <- cacheGet (coinbase block);
  let minerAccount :=
    setBalance minerAccount
      (bnToBuffer (balance minerAccount + amountSpent)) in
  run cachePut (coinbase block) minerAccount;
  let suicides := default [] (vm_suicides vm) in
  run StateManager.eachSeries cacheDel suicides;
  ret (mkTxResults gasUsed amountSpent bloom
         (cr_fromAccount _results) (cr_toAccount _results)
         (cr_createdAddress _results)
         (mkVmResults (vm_account vm) (vm_gasUsed vm) (vm_gasRefund vm)
                      (vm_return vm) (vm_logs vm) (Some suicides)
                      (vm_exceptionError vm) (vm_exception vm))).

(** The options [runCall] builds for the frame: no [account], no [code]. *)
Definition callOptions (tx : Tx) (block : BlockHeader) (gasLimit : Z)
  : CallOpts :=
  mkCallOpts None (Some block) (tx_from tx) None (Some (tx_data tx))
             gasLimit (tx_gasPrice tx) None (tx_to tx)
             (Some (tx_value tx)) false None None.

(** The stage [runCall] of [lib/runTx.js]: validation, nonce, pre-charge,
    the frame, and its callback [parseResults]. *)
Definition runCall (opts : TxOpts) (block : BlockHeader) : M TxResults :=
  let tx := opt_tx opts in
  do fromAccount <- cacheGet (tx_from tx);
  if Z.ltb (balance fromAccount) (getUpfrontCost tx)
  then fail ErrInsufficientFunds
  else if negb (opt_skipNonce opts)
          && negb (Z.eqb (nonce fromAccount) (tx_nonce tx))
  then fail ErrBadNonce
  else
    let fromAccount := setNonce fromAccount (nonce fromAccount + 1) in
    let basefee := getBaseFee H tx in
    let gasLimit := tx_gasLimit tx - basefee in
    let fromAccount :=
      setBalance fromAccount
        (bnToBuffer (balance fromAccount
                     - tx_gasLimit tx * tx_gasPrice tx)) in
    run cachePut (tx_from tx) fromAccount;
    do _results <-
      (fun vm =>
         match self_runCall H (callOptions tx block gasLimit) vm with
         | (Some r, vm') => (Ok r, vm')
         | (None, vm') => (Fail ErrFrame, vm')
         end);
    parseResults tx block basefee _results.

Definition saveTries : M unit := StateManager.commitContracts.

Definition runTx (opts : TxOpts) : M TxResults :=
  let block := default defaultBlock (opt_block opts) in
  let tx := opt_tx opts in
  if Z.ltb (gasLimit block) (tx_gasLimit tx)
  then fail ErrTxGasExceedsBlock
  else
    let populate := default true (opt_populateCache opts) in
    run populateCache opts block;
    run runTxHook tx;
    do results <- runCall opts block;
    run saveTries;
    run runAfterTxHook results;
    run cacheFlush;
    run (if populate then cacheClear else ret tt);
    ret results.

End WithHooks.
End RunTx.

(** [lib/runCall.js] as a frame executor for [lib/runTx.js]. *)
Definition frameOfRunCall (I : Interp) (opts : CallOpts) (vm : VM)
  : option CallResults * VM :=
  match RunCall.runCall I opts vm with
  | (Ok r, vm') => (Some r, vm')
  | (Fail _, vm') => (None, vm')
  end.

(** * Properties *)

(** ** Auxiliary definitions *)

(** The account the state manager reads at an address: the live cache entry,
    or else what the trie holds, or else a fresh account. *)
Definition accountAt (address : Address) (vm : VM) : Account :=
  fst (Cache.getOrLoad address (Trie.get address (trie vm)) (cache vm)).

(** [vm'] is [vm] after [putAccount address new] (and reads of [address]):
    a dirty cache entry and the trie both hold [new], nothing else moved. *)
Definition stored (address : Address) (new : Account) (vm vm' : VM) : Prop :=
  Cache.table (cache vm') !! address = Some (Cache.Entry new true false false)
  /\ (forall a, a <> address ->
        Cache.table (cache vm') !! a = Cache.table (cache vm) !! a)
  /\ Cache.checkpoints (cache vm') = Cache.checkpoints (cache vm)
  /\ Trie.store (trie vm') = <[address := new]> (Trie.store (trie vm))
  /\ Trie.checkpoints (trie vm') = Trie.checkpoints (trie vm)
  /\ Trie.raw (trie vm') = Trie.raw (trie vm)
  /\ log vm' = log vm
  /\ storageTries vm' = storageTries vm.

(** The interpreter a frame dispatches to. *)
Definition codeRunner (I : Interp) (isCompiled : bool)
  : RunCodeOpts -> VM -> RunResults * VM :=
  if isCompiled then self_runJIT I else self_runCode I.

(** The block a transaction runs against. *)
Definition blockOf (opts : TxOpts) : BlockHeader :=
  default defaultBlock (opt_block opts).

(** The state in which the sender is validated: the cache warmed. *)
Definition warmed (opts : TxOpts) (vm : VM) : VM :=
  snd (RunTx.populateCache opts (blockOf opts) vm).

(** A frame executor never changes the nonce the cache holds for the caller. *)
Definition keepsCallerNonce
           (frame : CallOpts -> VM -> option CallResults * VM) : Prop :=
  forall o vm r vm',
    frame o vm = (Some r, vm') ->
    nonce <$> Cache.get (o_caller o) (cache vm')
    = nonce <$> Cache.get (o_caller o) (cache vm).

(** The state the interpreter starts from: both checkpoints taken. *)
Definition beforeInterp (vm : VM) : VM :=
  emit EvTrieCheckpoint
    (withTrie Trie.checkpoint
       (emit EvCacheCheckpoint (withCache Cache.checkpoint vm))).

(** What a frame asks of the interpreter: the stages of [lib/runCall.js] up
    to the call [codeRunner.call(self, runCodeOpts, parseRunResult)], which
    yield the interpreter chosen ([isCompiled]), the created address, the
    options handed over and the machine the interpreter starts on, with both
    checkpoints just taken.  [None] when [opts.account] is missing or the
    frame has no code to run. *)
Definition interpreterInput (I : Interp) (opts : CallOpts) (vm : VM)
  : option (bool * option Address * RunCodeOpts * VM) :=
  let txValue := default 0 (o_value opts) in
  let caller := o_caller opts in
  match o_account opts with
  | None => None
  | Some account =>
      match
        (do account <-
           RunCall.calculateFromAccountBalance caller account txValue;
         do '(toAddress, createdAddress, toAccount, code, txData) <-
           RunCall.loadToAccount I caller account (o_to opts) (o_code opts)
                                 (o_data opts);
         do toAccount <-
           RunCall.calculateToAccountBalance toAddress toAccount txValue;
         do '(code, isCompiled) <-
           RunCall.loadCode toAddress toAccount code (o_compiled opts);
         ret (toAddress, createdAddress, toAccount, code, txData,
              isCompiled)) vm
      with
      | (Ok (toAddress, createdAddress, toAccount, Some code, txData,
             isCompiled), vm3) =>
          Some (isCompiled, createdAddress,
                mkRunCodeOpts code txData (o_gasLimit opts) (o_gasPrice opts)
                              toAccount toAddress (o_origin opts) caller
                              txValue (o_block opts) (o_depth opts)
                              (o_suicides opts),
                beforeInterp vm3)
      | _ => None
      end
  end.

(** A frame executor for [lib/runTx.js] that reads the caller's account in
    the cache, hands it over as [opts.account], and runs [lib/runCall.js].
    The transaction executor of [unnamed/part_000] hands the account over
    in this way ([account: fromAccount], line 102); [lib/runTx.js] leaves
    the field out. *)
Definition frameWithCallerAccount (I : Interp) (o : CallOpts) (vm : VM)
  : option CallResults * VM :=
  frameOfRunCall I
    (mkCallOpts (Cache.get (o_caller o) (cache vm)) (o_block o) (o_caller o)
                (o_code o) (o_data o) (o_gasLimit o) (o_gasPrice o)
                (o_origin o) (o_to o) (o_value o) (o_compiled o) (o_depth o)
                (o_suicides o))
    vm.

(** An interpreter leaves alone the nonce the cache holds for the caller,
    and the nonce of the account it runs, when that is the caller's. *)
Definition interpKeepsNonce (I : Interp) : Prop :=
  (forall c o vm rr vm',
     codeRunner I c o vm = (rr, vm') ->
     nonce <$> Cache.get (rc_caller o) (cache vm')
     = nonce <$> Cache.get (rc_caller o) (cache vm)
     /\ (rc_address o = rc_caller o ->
         nonce (r_account rr) = nonce (rc_account o)))
  /\ forall a n, generateAddress I a n <> a.

(** ** A concrete machine for the examples *)

Module Example.

Definition hash (b : Bytes) : Hash :=
  match b with
  | [] => SHA3_NULL
  | _ => (N.of_nat (length b) + 1)%N
  end.

Definition address (caller : Address) (n : Z) : Address :=
  (caller * 256 + Z.to_N n + 16)%N.

(** Halts at once: no gas used, nothing returned, nothing touched. *)
Definition halting (o : RunCodeOpts) (vm : VM) : RunResults * VM :=
  (mkRunResults (rc_account o) 0 None [] None None None None false, vm).

(** Returns ten bytes of runtime code for 1000 gas, and reports a refund
    of as much. *)
Definition deploying (o : RunCodeOpts) (vm : VM) : RunResults * VM :=
  (mkRunResults (rc_account o) 1000 (Some 1000)
                (replicate 10 Byte.x60) None None None None false, vm).

(** Faults: all the gas is used, nothing is returned, nothing touched. *)
Definition faulting (o : RunCodeOpts) (vm : VM) : RunResults * VM :=
  (mkRunResults (rc_account o) (rc_gasLimit o) None [] None None
                (Some 1%N) (Some 0) false, vm).

Definition interp : Interp := mkInterp hash address 200 deploying halting.

Definition faulty : Interp := mkInterp hash address 200 faulting faulting.

Definition hooks (I : Interp) : Hooks :=
  mkHooks (fun bloom x => Z.lor bloom (Z.of_N x)) (fun _ => None)
          (fun _ => None) (fun _ => 21000) (frameWithCallerAccount I).

Definition A : Address := 0xA0%N.
Definition B : Address := 0xB0%N.
Definition C : Address := 0xC0%N.

Definition eoa (n b : Z) : Account := mkAccount n b SHA3_RLP SHA3_NULL.

(** [B] is a contract whose code is the single byte [fe]. *)
Definition contract (b : Z) : Account :=
  mkAccount 0 b SHA3_RLP (hash [Byte.xfe]).

(** Scenario 1 of the specification: [A] holds a million, [B] and the
    coinbase [C] nothing; nothing is cached. *)
Definition world : VM :=
  mkVM Cache.empty
       (Trie.Make {[ A := eoa 0 1000000; B := eoa 0 0; C := eoa 0 0 ]} [] ∅)
       ∅ [].

Definition block : BlockHeader := mkHeader C 3000000 1 0 0.

Definition transfer : Tx := mkTx 0 1 21000 (Some B) 1000 [] A.

Definition transferOpts : TxOpts := mkTxOpts transfer (Some block) false None.

(** Scenario 2: the same transaction under nonce 5. *)
Definition badNonceOpts : TxOpts :=
  mkTxOpts (mkTx 5 1 21000 (Some B) 1000 [] A) (Some block) false None.

(** A transaction with the wrong nonce from a sender that cannot pay. *)
Definition poorBadNonceOpts : TxOpts :=
  mkTxOpts (mkTx 5 1 21000 (Some A) 0 [] B) (Some block) false None.

(** Scenario 4: a creation whose init code returns ten bytes. *)
Definition creation : Tx := mkTx 0 1 100000 None 0 [Byte.x60] A.

(** A machine where [A] and the contract [B] are cached and stored. *)
Definition worldWithContract : VM :=
  mkVM (Cache.Make
          {[ A := Cache.Entry (eoa 1 100) false false true;
             B := Cache.Entry (contract 5) false false true ]} [])
       (Trie.Make {[ A := eoa 1 100; B := contract 5 ]} []
                  {[ hash [Byte.xfe] := [Byte.xfe] ]})
       ∅ [].

(** A call frame from [A] that sends 10 to the contract [B]. *)
Definition callWithValue : CallOpts :=
  mkCallOpts (Some (eoa 1 100)) (Some block) A None None 50000 1 None
             (Some B) (Some 10) false None None.

(** A call frame from [A] that sends 10 to the plain account [C]. *)
Definition plainTransfer : CallOpts :=
  mkCallOpts (Some (eoa 1 100)) (Some block) A None None 50000 1 None
             (Some C) (Some 10) false None None.

(** A call frame from [A] to [C] without a value. *)
Definition emptyCall : CallOpts :=
  mkCallOpts (Some (eoa 1 100)) (Some block) A None None 50000 1 None
             (Some C) None false None None.

(** A creation frame from [A] without value. *)
Definition createFrame : CallOpts :=
  mkCallOpts (Some (eoa 1 100)) (Some block) A None (Some [Byte.x60])
             50000 1 None None (Some 0) false None None.

(** The address [createFrame] creates. *)
Definition created : Address := address A 1.

(** What scenario 1 yields. *)
Definition transferResults : TxResults :=
  mkTxResults 21000 21000 0 (eoa 1 978000) (eoa 0 1000) None
    (mkVmResults None None None None None (Some []) None (Some 1)).

(** The results of a frame that used 3000 gas and reports a refund of 1000. *)
Definition frameWithRefund : CallResults :=
  mkCallResults 3000 (eoa 1 979000) (eoa 0 0) None
    (mkVmResults (Some (eoa 0 0)) (Some 3000) (Some 1000) (Some [])
                 None None None (Some 1)).

(** A transaction that sends 1000 to a contract, on a machine where [B] is
    that contract. *)
Definition callTx : Tx := mkTx 0 1 50000 (Some B) 1000 [] A.

Definition callTxOpts : TxOpts := mkTxOpts callTx (Some block) false None.

Definition worldWithContractStored : VM :=
  mkVM Cache.empty
       (Trie.Make {[ A := eoa 0 1000000; B := contract 0; C := eoa 0 0 ]} []
                  {[ hash [Byte.xfe] := [Byte.xfe] ]})
       ∅ [].

(** Scenario 6: the same frame reporting a refund of all it used. *)
Definition frameWithFullRefund : CallResults :=
  mkCallResults 3001 (eoa 1 979000) (eoa 0 0) None
    (mkVmResults (Some (eoa 0 0)) (Some 3001) (Some 24001) (Some [])
                 None None None (Some 1)).

End Example.

(** An interpreter that always reports an exception, and hands back the
    two checkpoint stacks as it found them. *)
Definition alwaysFaults (I : Interp) : Prop :=
  forall c o vm,
    is_Some (r_exceptionError (fst (codeRunner I c o vm)))
    /\ Cache.checkpoints (cache (snd (codeRunner I c o vm)))
       = Cache.checkpoints (cache vm)
    /\ Trie.checkpoints (trie (snd (codeRunner I c o vm)))
       = Trie.checkpoints (trie vm).

(** An interpreter hands back the two checkpoint stacks as it found them:
    the checkpoints it takes itself are nested and released. *)
Definition keepsCheckpoints (I : Interp) : Prop :=
  forall c o vm,
    Cache.checkpoints (cache (snd (codeRunner I c o vm)))
    = Cache.checkpoints (cache vm)
    /\ Trie.checkpoints (trie (snd (codeRunner I c o vm)))
       = Trie.checkpoints (trie vm).

(** The frame has code to run: a creation with data, or a call with code
    handed in or to a contract. *)
Definition runsCode (opts : CallOpts) (vm : VM) : Prop :=
  match o_to opts with
  | None => is_Some (o_data opts)
  | Some to =>
      is_Some (o_code opts) \/ isContract (accountAt to vm) to = true
  end.

(** No entry of the cache is dirty. *)
Definition allClean (c : Cache.t) : Prop :=
  forall a e, Cache.table c !! a = Some e -> Cache.dirty e = false.

(** The same collaborators with another [self.runCode], or another
    [self.runJIT]. *)
Definition withRunCode (I : Interp)
           (rc : RunCodeOpts -> VM -> RunResults * VM) : Interp :=
  mkInterp (sha3 I) (generateAddress I) (createDataGas I) rc (self_runJIT I).

Definition withRunJIT (I : Interp)
           (rj : RunCodeOpts -> VM -> RunResults * VM) : Interp :=
  mkInterp (sha3 I) (generateAddress I) (createDataGas I) (self_runCode I) rj.

(** What a log puts into the bloom: its address, then its topics. *)
Definition logItems (l : LogEntry) : list N := logAddress l :: logTopics l.

(** The sender as [runCall] of [lib/runTx.js] puts it before the frame:
    the nonce bumped, the gas paid up front. *)
Definition precharged (tx : Tx) (sender : Account) : Account :=
  setBalance (setNonce sender (nonce sender + 1))
             (bnToBuffer (balance sender - tx_gasLimit tx * tx_gasPrice tx)).

Module Example2.

(** Faults like [Example.faulting], after writing an account into the cache
    and into the trie and deleting the account it runs. *)
Definition scribbling (o : RunCodeOpts) (vm : VM) : RunResults * VM :=
  (mkRunResults (rc_account o) (rc_gasLimit o) None [] None None
                (Some 2%N) (Some 0) false,
   withTrie (Trie.put 0x99%N (Example.eoa 7 7))
     (withCache (fun c => Cache.del (rc_address o)
                            (Cache.put 0x99%N (Example.eoa 7 7) false c)) vm)).

Definition scribbler : Interp :=
  mkInterp Example.hash Example.address 200 scribbling scribbling.

(** Halts at once and reports that the account it ran destroyed itself. *)
Definition destructing (o : RunCodeOpts) (vm : VM) : RunResults * VM :=
  (mkRunResults (rc_account o) 0 None [] None (Some [rc_address o]) None None
                false,
   vm).

Definition destructor : Interp :=
  mkInterp Example.hash Example.address 200 destructing destructing.

(** The machine of [Example.worldWithContract] with a pending change of
    [A]'s balance in the cache. *)
Definition worldWithPending : VM :=
  mkVM (Cache.Make
          {[ Example.A := Cache.Entry (Example.eoa 1 42) true false false ]} [])
       (Trie.Make {[ Example.A := Example.eoa 1 100 ]} [] ∅)
       ∅ [].

(** A call from [A] to the precompiled address 2. *)
Definition precompileCall : CallOpts :=
  mkCallOpts (Some (Example.eoa 1 100)) (Some Example.block) Example.A None
             None 50000 1 None (Some 2%N) (Some 0) false None None.

(** A call from [A] to itself that sends 40. *)
Definition selfCall : CallOpts :=
  mkCallOpts (Some (Example.eoa 1 100)) (Some Example.block) Example.A None
             None 50000 1 None (Some Example.A) (Some 40) false None None.



(** Hooks whose [self.runCall] is [lib/runCall.js] as it is written, run on
    the options [lib/runTx.js] builds. *)
Definition literalHooks : Hooks :=
  mkHooks (fun bloom x => Z.lor bloom (Z.of_N x)) (fun _ => None)
          (fun _ => None) (fun _ => 21000) (frameOfRunCall Example.interp).

(** Hooks whose listener of beforeTx raises the error 7. *)
Definition vetoHooks : Hooks :=
  mkHooks (fun bloom x => Z.lor bloom (Z.of_N x)) (fun _ => Some 7%N)
          (fun _ => None) (fun _ => 21000)
          (frameWithCallerAccount Example.interp).

(** Hooks whose listener of afterTx raises the error 9. *)
Definition auditHooks : Hooks :=
  mkHooks (fun bloom x => Z.lor bloom (Z.of_N x)) (fun _ => None)
          (fun _ => Some 9%N) (fun _ => 21000)
          (frameWithCallerAccount Example.interp).

(** Two lists of logs that differ in the data of the logs only. *)
Definition logs1 : list LogEntry :=
  [mkLog 1%N [2%N; 4%N] [Byte.x01]; mkLog 8%N [] []].

Definition logs2 : list LogEntry :=
  [mkLog 1%N [2%N; 4%N] []; mkLog 8%N [] [Byte.xff; Byte.xff]].

End Example2.

(** ** The monad *)

Lemma bind_ok {A B} (m : M A) (k : A -> M B) vm a vm1 :
  m vm = (Ok a, vm1) -> bind m k vm = k a vm1.
Proof. intros E. unfold bind. now rewrite E. Qed.

Lemma bind_fail {A B} (m : M A) (k : A -> M B) vm e vm1 :
  m vm = (Fail e, vm1) -> bind m k vm = (Fail e, vm1).
Proof. intros E. unfold bind. now rewrite E. Qed.

Lemma bind_inv_ok {A B} (m : M A) (k : A -> M B) vm b vm' :
  bind m k vm = (Ok b, vm') ->
  exists a vm1, m vm = (Ok a, vm1) /\ k a vm1 = (Ok b, vm').
Proof.
  unfold bind. destruct (m vm) as [[a|e] vm1]; intros E.
  - eauto.
  - discriminate.
Qed.

Lemma cacheGet_some a acct vm :
  Cache.get a (cache vm) = Some acct -> cacheGet a vm = (Ok acct, vm).
Proof. intros E. unfold cacheGet. now rewrite E. Qed.

Lemma cacheGet_none a vm :
  Cache.get a (cache vm) = None -> cacheGet a vm = (Fail ErrCacheMiss, vm).
Proof. intros E. unfold cacheGet. now rewrite E. Qed.

Lemma cacheGet_inv a acct vm vm' :
  cacheGet a vm = (Ok acct, vm') ->
  vm' = vm /\ Cache.get a (cache vm) = Some acct.
Proof.
  unfold cacheGet. destruct (Cache.get a (cache vm)); intros E;
    inversion E; subst; auto.
Qed.

(** ** The cache *)

Lemma get_put_eq a acct w c : Cache.get a (Cache.put a acct w c) = Some acct.
Proof. unfold Cache.get, Cache.put. simpl. now rewrite lookup_insert_eq. Qed.

Lemma get_put_ne a b acct w c :
  a <> b -> Cache.get b (Cache.put a acct w c) = Cache.get b c.
Proof.
  intros N. unfold Cache.get, Cache.put. simpl. now rewrite lookup_insert_ne.
Qed.

Lemma eachSeries_cacheDel l : forall vm,
  exists vm',
    StateManager.eachSeries cacheDel l vm = (Ok tt, vm')
    /\ trie vm' = trie vm /\ log vm' = log vm
    /\ storageTries vm' = storageTries vm
    /\ Cache.checkpoints (cache vm') = Cache.checkpoints (cache vm)
    /\ (forall a, a ∉ l ->
          Cache.table (cache vm') !! a = Cache.table (cache vm) !! a).
Proof.
  induction l as [|x l IH]; intros vm; simpl.
  - exists vm. repeat split; auto.
  - destruct (IH (withCache (Cache.del x) vm))
      as (vm' & E & Ht & Hl & Hs & Hc & Hk).
    exists vm'.
    rewrite (bind_ok (cacheDel x) _ vm tt (withCache (Cache.del x) vm) eq_refl).
    simpl in *. repeat split; auto.
    intros a Ha. apply not_elem_of_cons in Ha as [Hne Hnl].
    rewrite (Hk a Hnl). now rewrite lookup_insert_ne.
Qed.

Lemma eachSeries_warmOne l : forall vm,
  exists vm',
    StateManager.eachSeries StateManager.warmOne l vm = (Ok tt, vm')
    /\ trie vm' = trie vm /\ log vm' = log vm
    /\ storageTries vm' = storageTries vm
    /\ Cache.checkpoints (cache vm') = Cache.checkpoints (cache vm)
    /\ (forall a, a ∈ l ->
          Cache.get a (cache vm')
          = Some (default newAccount (Trie.get a (trie vm))))
    /\ (forall a, a ∉ l ->
          Cache.table (cache vm') !! a = Cache.table (cache vm) !! a).
Proof.
  induction l as [|x l IH]; intros vm; simpl.
  - exists vm. repeat split; auto. intros a Ha. inversion Ha.
  - set (vm1 := withCache (Cache.put x (default newAccount
                                          (Trie.get x (trie vm))) true) vm).
    destruct (IH vm1) as (vm' & E & Ht & Hl & Hs & Hc & Hin & Hout).
    exists vm'. rewrite (bind_ok (StateManager.warmOne x) _ vm tt vm1 eq_refl).
    repeat split; auto.
    + intros a Ha. destruct (decide (a ∈ l)) as [Hl'|Hl'].
      * now apply Hin.
      * apply elem_of_cons in Ha as [->|Ha]; [|contradiction].
        unfold Cache.get. rewrite (Hout x Hl'). unfold vm1. simpl.
        now rewrite lookup_insert_eq.
    + intros a Ha. apply not_elem_of_cons in Ha as [Hne Hnl].
      rewrite (Hout a Hnl). unfold vm1. simpl.
      now rewrite lookup_insert_ne.
Qed.

Lemma elem_of_setAdd {A} `{EqDecision A} (s : list A) (x y : A) :
  y ∈ setAdd s x <-> y ∈ s \/ y = x.
Proof.
  unfold setAdd. case_decide.
  - split; [auto|]. intros [?| ->]; auto.
  - rewrite elem_of_app, list_elem_of_singleton. tauto.
Qed.

Lemma populateCache_spec opts block vm :
  exists vm1,
    RunTx.populateCache opts block vm = (Ok tt, vm1)
    /\ trie vm1 = trie vm /\ log vm1 = log vm
    /\ (opt_populateCache opts = Some false -> vm1 = vm)
    /\ (opt_populateCache opts <> Some false ->
        Cache.get (tx_from (opt_tx opts)) (cache vm1)
        = Some (default newAccount
                  (Trie.get (tx_from (opt_tx opts)) (trie vm)))).
Proof.
  unfold RunTx.populateCache, StateManager.warmCache.
  match goal with |- context [StateManager.eachSeries _ ?l] =>
    destruct (eachSeries_warmOne l vm) as (vm1 & E & Ht & Hl & _ & _ & Hin & _);
    assert (tx_from (opt_tx opts) ∈ l) as Hfrom
  end.
  { apply list_elem_of_omap. exists (Some (tx_from (opt_tx opts))).
    split; [|reflexivity].
    apply elem_of_setAdd. left. apply elem_of_setAdd. left.
    apply elem_of_setAdd. now right. }
  destruct (opt_populateCache opts) as [[|]|].
  - exists vm1. repeat split; auto. discriminate.
  - exists vm. repeat split; auto. congruence.
  - exists vm1. repeat split; auto. discriminate.
Qed.

(** ** The transaction executor *)

Section TxExecutor.
Variable H : Hooks.

Lemma parseResults_ok tx block basefee fr vm fa :
  Cache.get (tx_from tx) (cache vm) = Some fa ->
  is_Some (Cache.get (coinbase block) (cache vm)) ->
  let gasUsed :=
    RunTx.refundGas (cr_gasUsed fr) basefee (vm_gasRefund (cr_vm fr)) in
  exists res vm',
    RunTx.parseResults H tx block basefee fr vm = (Ok res, vm')
    /\ res_gasUsed res = gasUsed
    /\ res_amountSpent res = gasUsed * tx_gasPrice tx
    /\ vm_suicides (res_vm res)
       = Some (default [] (vm_suicides (cr_vm fr)))
    /\ trie vm' = trie vm /\ log vm' = log vm
    /\ (tx_from tx ∉ default [] (vm_suicides (cr_vm fr)) ->
        exists acct,
          Cache.table (cache vm') !! tx_from tx
          = Some (Cache.Entry acct true false false)
          /\ nonce acct = nonce fa).
Proof.
  intros Ef [ma0 Em0] gasUsed. unfold RunTx.parseResults.
  rewrite (bind_ok _ _ vm fa vm (cacheGet_some _ _ _ Ef)).
  erewrite bind_ok by reflexivity.
  fold gasUsed.
  set (fa' := setBalance fa _).
  set (vm1 := withCache (Cache.put (tx_from tx) fa' false) vm).
  assert (exists ma, Cache.get (coinbase block) (cache vm1) = Some ma
                     /\ (coinbase block = tx_from tx -> ma = fa'))
    as (ma & Em & Hma).
  { unfold vm1. simpl. destruct (decide (tx_from tx = coinbase block)) as [E|N].
    - rewrite <- E, get_put_eq. eauto.
    - rewrite get_put_ne by auto. exists ma0. split; auto. congruence. }
  rewrite (bind_ok _ _ vm1 ma vm1 (cacheGet_some _ _ _ Em)).
  erewrite bind_ok by reflexivity.
  set (ma' := setBalance ma _).
  set (vm2 := withCache (Cache.put (coinbase block) ma' false) vm1).
  destruct (eachSeries_cacheDel (default [] (vm_suicides (cr_vm fr))) vm2)
    as (vm' & E & Ht & Hl & _ & _ & Hk).
  rewrite (bind_ok _ _ _ _ _ E). unfold ret.
  eexists _, vm'. split; [reflexivity|]. simpl.
  repeat split; auto.
  intros Hs. rewrite (Hk _ Hs). unfold vm2, vm1. simpl.
  destruct (decide (coinbase block = tx_from tx)) as [Ec|Nc].
  - rewrite Ec, lookup_insert_eq. eexists; split; [reflexivity|].
    unfold ma'. simpl. now rewrite (Hma Ec).
  - rewrite lookup_insert_ne, lookup_insert_eq by auto.
    eexists; split; reflexivity.
Qed.

End TxExecutor.

Section TxTheorems.
Variable H : Hooks.

Lemma parseResults_cases tx block basefee fr vm :
  (exists vm', RunTx.parseResults H tx block basefee fr vm
               = (Fail ErrCacheMiss, vm'))
  \/ (exists res vm', RunTx.parseResults H tx block basefee fr vm
                      = (Ok res, vm')).
Proof.
  destruct (Cache.get (tx_from tx) (cache vm)) as [fa|] eqn:Ef.
  2:{ left. eexists. apply bind_fail. now apply cacheGet_none. }
  set (g := RunTx.refundGas (cr_gasUsed fr) basefee
                            (vm_gasRefund (cr_vm fr))).
  set (fa' := setBalance fa (bnToBuffer ((tx_gasLimit tx - g) * tx_gasPrice tx
                                         + balance fa))).
  set (vm1 := withCache (Cache.put (tx_from tx) fa' false) vm).
  destruct (Cache.get (coinbase block) (cache vm1)) as [ma|] eqn:Em.
  - right.
    assert (is_Some (Cache.get (coinbase block) (cache vm))) as Hm.
    { unfold vm1 in Em. simpl in Em.
      destruct (decide (tx_from tx = coinbase block)) as [E|N].
      + rewrite <- E, Ef. eauto.
      + rewrite get_put_ne in Em by auto. eauto. }
    destruct (parseResults_ok H tx block basefee fr vm fa Ef Hm)
      as (res & vm' & E & _). eauto.
  - left. unfold RunTx.parseResults.
    rewrite (bind_ok _ _ vm fa vm (cacheGet_some _ _ _ Ef)).
    erewrite bind_ok by reflexivity.
    eexists. apply bind_fail. apply cacheGet_none. exact Em.
Qed.

Lemma runCall_stage_not_guard opts block vm :
  fst (RunTx.runCall H opts block vm) <> Fail ErrTxGasExceedsBlock.
Proof.
  unfold RunTx.runCall.
  destruct (Cache.get (tx_from (opt_tx opts)) (cache vm)) as [fa|] eqn:Ef.
  2:{ erewrite bind_fail by (now apply cacheGet_none). discriminate. }
  rewrite (bind_ok _ _ vm fa vm (cacheGet_some _ _ _ Ef)).
  destruct (Z.ltb _ _); [discriminate|].
  destruct (_ && _); [discriminate|].
  erewrite bind_ok by reflexivity.
  unfold bind at 1.
  destruct (self_runCall H _ _) as [[r|] vm1]; [|discriminate].
  match goal with |- context [RunTx.parseResults H ?a ?b ?c ?d ?e] =>
    destruct (parseResults_cases a b c d e) as [(v & E)|(res & v & E)] end;
    rewrite E; discriminate.
Qed.

(** C7. [runTx] fails with the gas-exceeds-block error exactly when the
    gas limit of the transaction is strictly above that of the block: a
    transaction at the block's limit passes the guard, one at the limit
    plus one is rejected; a rejection leaves the machine as it was, so
    no later stage ran. *)
Theorem gas_guard_iff (opts : TxOpts) (vm : VM) :
  (fst (RunTx.runTx H opts vm) = Fail ErrTxGasExceedsBlock
   <-> gasLimit (blockOf opts) < tx_gasLimit (opt_tx opts))
  /\ (gasLimit (blockOf opts) < tx_gasLimit (opt_tx opts) ->
      RunTx.runTx H opts vm = (Fail ErrTxGasExceedsBlock, vm))
  /\ (tx_gasLimit (opt_tx opts) = gasLimit (blockOf opts) ->
      fst (RunTx.runTx H opts vm) <> Fail ErrTxGasExceedsBlock)
  /\ (tx_gasLimit (opt_tx opts) = gasLimit (blockOf opts) + 1 ->
      RunTx.runTx H opts vm = (Fail ErrTxGasExceedsBlock, vm)).
Proof.
  assert (gasLimit (blockOf opts) < tx_gasLimit (opt_tx opts) ->
          RunTx.runTx H opts vm = (Fail ErrTxGasExceedsBlock, vm)) as Hrej.
  { intros Hlt. unfold RunTx.runTx. fold (blockOf opts).
    apply Z.ltb_lt in Hlt. rewrite Hlt. reflexivity. }
  assert (tx_gasLimit (opt_tx opts) <= gasLimit (blockOf opts) ->
          fst (RunTx.runTx H opts vm) <> Fail ErrTxGasExceedsBlock) as Hacc.
  { intros Hle. unfold RunTx.runTx. fold (blockOf opts).
    apply Z.ltb_ge in Hle. rewrite Hle.
    destruct (populateCache_spec opts (blockOf opts) vm) as (vm1 & E & _).
    rewrite (bind_ok _ _ _ _ _ E).
    unfold RunTx.runTxHook.
    destruct (beforeTx H (opt_tx opts)); [discriminate|].
    rewrite (bind_ok (ret tt) _ vm1 tt vm1 eq_refl).
    pose proof (runCall_stage_not_guard opts (blockOf opts) vm1) as Hs.
    unfold bind at 1.
    destruct (RunTx.runCall H opts (blockOf opts) vm1) as [[res|e] vm2];
      simpl in *; [|congruence].
    erewrite bind_ok by reflexivity.
    unfold RunTx.runAfterTxHook.
    destruct (afterTx H res); [discriminate|].
    erewrite bind_ok by reflexivity.
    erewrite bind_ok by reflexivity.
    destruct (default true (opt_populateCache opts)); discriminate. }
  repeat split.
  - intros E. destruct (Z.lt_ge_cases (gasLimit (blockOf opts))
                                      (tx_gasLimit (opt_tx opts))); auto.
    exfalso. now apply Hacc.
  - intros Hlt. now rewrite Hrej.
  - exact Hrej.
  - intros E. apply Hacc. lia.
  - intros E. apply Hrej. lia.
Qed.

(** C1. When the frame completes with results that report a refund [r],
    the executor's total is the frame's [gasUsed] plus the base fee, and
    what it then takes off is exactly [min r (total / 2)], which is at most
    half of the gas used. *)
Theorem refund_is_min_of_half
        (tx : Tx) (block : BlockHeader) (basefee : Z) (fr : CallResults)
        (r : Z) (vm : VM) :
  vm_gasRefund (cr_vm fr) = Some r ->
  0 <= cr_gasUsed fr + basefee ->
  is_Some (Cache.get (tx_from tx) (cache vm)) ->
  is_Some (Cache.get (coinbase block) (cache vm)) ->
  let total := cr_gasUsed fr + basefee in
  exists res vm',
    RunTx.parseResults H tx block basefee fr vm = (Ok res, vm')
    /\ res_gasUsed res = total - Z.min r (total / 2)
    /\ Z.min r (total / 2) <= total / 2
    /\ res_amountSpent res = res_gasUsed res * tx_gasPrice tx.
Proof.
  intros Hr Hpos [fa Hf] Hm total.
  destruct (parseResults_ok H tx block basefee fr vm fa Hf Hm)
    as (res & vm' & E & Hg & Ha & _).
  exists res, vm'. split; [exact E|].
  assert (res_gasUsed res = total - Z.min r (total / 2)) as Hgas.
  { rewrite Hg. unfold RunTx.refundGas. rewrite Hr. fold total.
    rewrite Z.quot_div_nonneg by (unfold total; lia).
    destruct (Z.ltb_spec r (total / 2)); lia. }
  repeat split.
  - exact Hgas.
  - lia.
  - now rewrite Ha, Hg.
Qed.

Lemma runCall_stage_inv opts block vm res vm2 :
  RunTx.runCall H opts block vm = (Ok res, vm2) ->
  let tx := opt_tx opts in
  let basefee := getBaseFee H tx in
  exists fa fr vmF,
    Cache.get (tx_from tx) (cache vm) = Some fa
    /\ getUpfrontCost tx <= balance fa
    /\ (opt_skipNonce opts = false -> nonce fa = tx_nonce tx)
    /\ self_runCall H (RunTx.callOptions tx block (tx_gasLimit tx - basefee))
          (withCache
             (Cache.put (tx_from tx)
                (setBalance (setNonce fa (nonce fa + 1))
                   (bnToBuffer (balance fa
                                - tx_gasLimit tx * tx_gasPrice tx)))
                false) vm)
        = (Some fr, vmF)
    /\ RunTx.parseResults H tx block basefee fr vmF = (Ok res, vm2).
Proof.
  intros E tx basefee. unfold RunTx.runCall in E. fold tx in E.
  apply bind_inv_ok in E as (fa & vm0 & Eg & E).
  apply cacheGet_inv in Eg as [-> Ef].
  destruct (Z.ltb_spec (balance fa) (getUpfrontCost tx)) as [|Hb];
    [discriminate|].
  destruct (opt_skipNonce opts) eqn:Es; simpl in E.
  - apply bind_inv_ok in E as ([] & vm1 & Ep & E).
    inversion Ep; subst vm1; clear Ep.
    apply bind_inv_ok in E as (fr & vmF & Efr & E).
    destruct (self_runCall H _ _) as [[fr'|] vmF'] eqn:Es'; [|discriminate].
    inversion Efr; subst fr' vmF'; clear Efr.
    exists fa, fr, vmF. repeat split; auto. discriminate.
  - destruct (Z.eqb_spec (nonce fa) (tx_nonce tx)) as [Hn|];
      [|discriminate]. simpl in E.
    apply bind_inv_ok in E as ([] & vm1 & Ep & E).
    inversion Ep; subst vm1; clear Ep.
    apply bind_inv_ok in E as (fr & vmF & Efr & E).
    destruct (self_runCall H _ _) as [[fr'|] vmF'] eqn:Es'; [|discriminate].
    inversion Efr; subst fr' vmF'; clear Efr.
    exists fa, fr, vmF. repeat split; auto.
Qed.

Lemma runTx_inv opts vm res vm' :
  RunTx.runTx H opts vm = (Ok res, vm') ->
  tx_gasLimit (opt_tx opts) <= gasLimit (blockOf opts)
  /\ beforeTx H (opt_tx opts) = None
  /\ exists vm2,
       RunTx.runCall H opts (blockOf opts) (warmed opts vm) = (Ok res, vm2)
       /\ Trie.store (trie vm')
          = merge Cache.flushEntry (Cache.table (cache vm2))
                  (Trie.store (trie vm2)).
Proof.
  unfold RunTx.runTx. fold (blockOf opts). intros E.
  destruct (Z.ltb_spec (gasLimit (blockOf opts)) (tx_gasLimit (opt_tx opts)))
    as [|Hle]; [discriminate|].
  split; [exact Hle|].
  unfold warmed.
  destruct (populateCache_spec opts (blockOf opts) vm) as (vm1 & Ep & _).
  rewrite Ep. simpl.
  rewrite (bind_ok _ _ _ _ _ Ep) in E.
  unfold RunTx.runTxHook in E.
  destruct (beforeTx H (opt_tx opts)); [discriminate|].
  split; [reflexivity|].
  rewrite (bind_ok (ret tt) _ vm1 tt vm1 eq_refl) in E.
  apply bind_inv_ok in E as (res' & vm2 & Er & E).
  erewrite bind_ok in E by reflexivity.
  unfold RunTx.runAfterTxHook in E.
  destruct (afterTx H res'); [discriminate|].
  erewrite bind_ok in E by reflexivity.
  erewrite bind_ok in E by reflexivity.
  exists vm2.
  destruct (default true (opt_populateCache opts));
    erewrite bind_ok in E by reflexivity;
    inversion E; subst; split; auto.
Qed.

(** The gas a completed transaction reports is the frame's, plus the base
    fee, less the refund. *)
Lemma runTx_gas_used opts vm res vm' :
  RunTx.runTx H opts vm = (Ok res, vm') ->
  exists fr vmP vmF,
    self_runCall H
      (RunTx.callOptions (opt_tx opts) (blockOf opts)
         (tx_gasLimit (opt_tx opts) - getBaseFee H (opt_tx opts))) vmP
    = (Some fr, vmF)
    /\ res_gasUsed res
       = RunTx.refundGas (cr_gasUsed fr) (getBaseFee H (opt_tx opts))
                         (vm_gasRefund (cr_vm fr)).
Proof.
  intros E. apply runTx_inv in E as (_ & _ & vm2 & Er & _).
  apply runCall_stage_inv in Er as (fa & fr & vmF & _ & _ & _ & Efr & Ep).
  exists fr. eexists _, vmF. split; [exact Efr|].
  unfold RunTx.parseResults in Ep.
  apply bind_inv_ok in Ep as (? & ? & _ & Ep).
  apply bind_inv_ok in Ep as (? & ? & _ & Ep).
  apply bind_inv_ok in Ep as (? & ? & _ & Ep).
  apply bind_inv_ok in Ep as (? & ? & _ & Ep).
  apply bind_inv_ok in Ep as (? & ? & _ & Ep).
  inversion Ep. reflexivity.
Qed.

(** C3, amended.  For a transaction that reaches validation (the guard
    passed, the listener of beforeTx raised nothing, the sender is in the
    cache): [runTx] fails with the insufficient-funds error when the
    balance is below the upfront cost, and with the bad-nonce error when
    the balance covers the cost, [skipNonce] is off and the nonces differ.
    Either way the machine is left as the warming left it: the trie is
    the one before the call, the log has no flush, and the cache still
    holds the sender with the nonce that was checked. *)
Theorem validation_fails_without_mutation
        (opts : TxOpts) (vm : VM) (sender : Account) :
  let tx := opt_tx opts in
  tx_gasLimit tx <= gasLimit (blockOf opts) ->
  beforeTx H tx = None ->
  Cache.get (tx_from tx) (cache (warmed opts vm)) = Some sender ->
  (balance sender < getUpfrontCost tx ->
   RunTx.runTx H opts vm = (Fail ErrInsufficientFunds, warmed opts vm))
  /\ (getUpfrontCost tx <= balance sender ->
      opt_skipNonce opts = false ->
      nonce sender <> tx_nonce tx ->
      RunTx.runTx H opts vm = (Fail ErrBadNonce, warmed opts vm))
  /\ trie (warmed opts vm) = trie vm
  /\ log (warmed opts vm) = log vm
  /\ (EvCacheFlush ∉ drop (length (log vm)) (log (warmed opts vm)))
  /\ (nonce <$> Cache.get (tx_from tx) (cache (warmed opts vm)))
     = Some (nonce sender).
Proof.
  intros tx Hgas Hhook Hsender.
  destruct (populateCache_spec opts (blockOf opts) vm)
    as (vm1 & Ep & Ht & Hl & _).
  assert (warmed opts vm = vm1) as Hw by (unfold warmed; now rewrite Ep).
  rewrite Hw in *.
  assert (forall e,
            RunTx.runCall H opts (blockOf opts) vm1 = (Fail e, vm1) ->
            RunTx.runTx H opts vm = (Fail e, vm1)) as Hrun.
  { intros e Ee. unfold RunTx.runTx. fold (blockOf opts). fold tx.
    apply Z.ltb_ge in Hgas. rewrite Hgas.
    rewrite (bind_ok _ _ _ _ _ Ep).
    unfold RunTx.runTxHook. rewrite Hhook.
    rewrite (bind_ok (ret tt) _ vm1 tt vm1 eq_refl).
    now apply bind_fail. }
  repeat split; auto.
  - intros Hlt. apply Hrun. unfold RunTx.runCall. fold tx.
    rewrite (bind_ok _ _ _ _ _ (cacheGet_some _ _ _ Hsender)).
    apply Z.ltb_lt in Hlt. now rewrite Hlt.
  - intros Hge Hskip Hn. apply Hrun. unfold RunTx.runCall. fold tx.
    rewrite (bind_ok _ _ _ _ _ (cacheGet_some _ _ _ Hsender)).
    apply Z.ltb_ge in Hge. rewrite Hge, Hskip.
    apply Z.eqb_neq in Hn. now rewrite Hn.
  - rewrite Hl, drop_all. apply not_elem_of_nil.
  - now rewrite Hsender.
Qed.

End TxTheorems.

(** ** The state manager *)

Lemma getAccount_spec address vm :
  exists vm1,
    StateManager.getAccount address vm = (Ok (accountAt address vm), vm1)
    /\ accountAt address vm1 = accountAt address vm
    /\ trie vm1 = trie vm /\ log vm1 = log vm
    /\ storageTries vm1 = storageTries vm
    /\ Cache.checkpoints (cache vm1) = Cache.checkpoints (cache vm)
    /\ (forall a, a <> address ->
          Cache.table (cache vm1) !! a = Cache.table (cache vm) !! a)
    /\ (is_Some (Cache.table (cache vm) !! address) -> vm1 = vm).
Proof.
  unfold StateManager.getAccount, accountAt, Cache.getOrLoad.
  destruct (Cache.table (cache vm) !! address) as [e|] eqn:E; simpl.
  - exists vm. destruct vm as [[] ? ? ?]; simpl in *. rewrite E.
    repeat split; auto.
  - eexists; split; [reflexivity|]. simpl. rewrite lookup_insert_eq. simpl.
    repeat split; auto.
    + intros a Ha. now rewrite lookup_insert_ne.
    + intros [? ?]; discriminate.
Qed.

Lemma putAccountBalance_spec address account b vm :
  exists vm',
    StateManager.putAccountBalance address account b vm = (Ok tt, vm')
    /\ stored address (setBalance (accountAt address vm) b) vm vm'.
Proof.
  destruct (getAccount_spec address vm)
    as (vm1 & Hg & _ & Ht & Hl & Hs & Hc & Hk & _).
  unfold StateManager.putAccountBalance. rewrite (bind_ok _ _ _ _ _ Hg).
  unfold StateManager.putAccount.
  erewrite bind_ok by reflexivity.
  eexists. split; [reflexivity|].
  unfold stored. simpl. rewrite lookup_insert_eq, Ht, Hl, Hs, Hc.
  repeat split; auto.
  intros a Ha. rewrite lookup_insert_ne by auto. now apply Hk.
Qed.

Lemma stored_get address new vm vm' :
  stored address new vm vm' ->
  Cache.get address (cache vm') = Some new
  /\ Trie.get address (trie vm') = Some new
  /\ accountAt address vm' = new.
Proof.
  intros (Hc & _ & _ & Ht & _).
  unfold Cache.get, Trie.get, accountAt, Cache.getOrLoad.
  rewrite Hc, Ht, lookup_insert_eq. auto.
Qed.

Lemma stored_other address new vm vm' a :
  stored address new vm vm' -> a <> address ->
  Cache.table (cache vm') !! a = Cache.table (cache vm) !! a
  /\ Trie.get a (trie vm') = Trie.get a (trie vm)
  /\ accountAt a vm' = accountAt a vm.
Proof.
  intros (_ & Hk & _ & Ht & _) Ha.
  unfold Trie.get, accountAt, Cache.getOrLoad, Trie.get.
  rewrite (Hk a Ha), Ht, lookup_insert_ne by auto.
  repeat split; auto.
  destruct (Cache.table (cache vm) !! a); reflexivity.
Qed.

(** C9. [putAccountBalance] leaves, in the cache and in the trie, the
    account the state manager read at the address, with the new balance and
    with its nonce, storage root and code hash as they were; the account
    the caller hands in is never read. *)
Theorem putAccountBalance_keeps_other_fields
        (address : Address) (account : Account) (newBalance : Z) (vm : VM) :
  let old := accountAt address vm in
  let new := mkAccount (nonce old) newBalance (stateRoot old) (codeHash old) in
  exists vm',
    StateManager.putAccountBalance address account newBalance vm = (Ok tt, vm')
    /\ Cache.get address (cache vm') = Some new
    /\ Trie.get address (trie vm') = Some new
    /\ accountAt address vm' = new
    /\ forall account',
         StateManager.putAccountBalance address account' newBalance vm
         = (Ok tt, vm').
Proof.
  intros old new.
  destruct (putAccountBalance_spec address account newBalance vm)
    as (vm' & E & Hst).
  exists vm'. destruct (stored_get _ _ _ _ Hst) as (Hc & Ht & Ha).
  repeat split; auto.
Qed.

(** ** The call executor *)

Lemma calculateFromAccountBalance_spec caller account txValue vm :
  let account' :=
    setBalance account (bnToBuffer (balance account - txValue)) in
  exists vm1,
    RunCall.calculateFromAccountBalance caller account txValue vm
    = (Ok account', vm1)
    /\ stored caller
         (setBalance (accountAt caller vm)
                     (bnToBuffer (balance account - txValue))) vm vm1.
Proof.
  intros account'. unfold RunCall.calculateFromAccountBalance.
  destruct (putAccountBalance_spec caller account'
              (bnToBuffer (balance account - txValue)) vm) as (vm1 & E & Hs).
  exists vm1. rewrite (bind_ok _ _ _ _ _ E). auto.
Qed.

Lemma calculateToAccountBalance_spec toAddress toAccount txValue vm :
  let toAccount' :=
    setBalance toAccount (bnToBuffer (balance toAccount + txValue)) in
  exists vm1,
    RunCall.calculateToAccountBalance toAddress toAccount txValue vm
    = (Ok toAccount', vm1)
    /\ stored toAddress
         (setBalance (accountAt toAddress vm)
                     (bnToBuffer (balance toAccount + txValue))) vm vm1.
Proof.
  intros toAccount'. unfold RunCall.calculateToAccountBalance.
  destruct (putAccountBalance_spec toAddress toAccount'
              (bnToBuffer (balance toAccount + txValue)) vm) as (vm1 & E & Hs).
  exists vm1. rewrite (bind_ok _ _ _ _ _ E). auto.
Qed.

Lemma loadCode_supplied toAddress toAccount code isCompiled vm :
  RunCall.loadCode toAddress toAccount (Some code) isCompiled vm
  = (Ok (Some code, isCompiled), vm).
Proof. reflexivity. Qed.

Lemma loadCode_not_contract toAddress toAccount isCompiled vm :
  isContract toAccount toAddress = false ->
  RunCall.loadCode toAddress toAccount None isCompiled vm
  = (Ok (None, isCompiled), vm).
Proof. intros E. unfold RunCall.loadCode. rewrite E. reflexivity. Qed.

Lemma runCode_no_code I opts caller account txValue toAddress created
      toAccount txData isCompiled vm :
  RunCall.runCode I opts caller account txValue toAddress created toAccount
                  None txData isCompiled vm
  = (Ok (account, toAccount, emptyVmResults, 0),
     emit EvCacheCommit
       (withCache Cache.commit
          (emit EvTrieCheckpoint
             (withTrie Trie.checkpoint
                (emit EvCacheCheckpoint (withCache Cache.checkpoint vm)))))).
Proof. reflexivity. Qed.

Lemma runCode_with_code I opts caller account txValue toAddress created
      toAccount code txData isCompiled vm :
  RunCall.runCode I opts caller account txValue toAddress created toAccount
                  (Some code) txData isCompiled vm
  = let ro := mkRunCodeOpts code txData (o_gasLimit opts) (o_gasPrice opts)
                toAccount toAddress (o_origin opts) caller txValue
                (o_block opts) (o_depth opts) (o_suicides opts) in
    let '(rr, vmi) := codeRunner I isCompiled ro (beforeInterp vm) in
    match RunCall.parseRunResult I caller account txValue (o_gasLimit opts)
                                 created rr vmi with
    | (Ok (account', results), vm5) =>
        (Ok (account', r_account results, vmOfRun results, r_gasUsed results),
         vm5)
    | (Fail e, vm5) => (Fail e, vm5)
    end.
Proof.
  unfold RunCall.runCode, codeRunner, beforeInterp.
  erewrite bind_ok by reflexivity. erewrite bind_ok by reflexivity.
  unfold bind at 1. simpl.
  destruct isCompiled.
  - destruct (self_runJIT I _ _) as [rr vmi]. unfold bind.
    destruct (RunCall.parseRunResult _ _ _ _ _ _ _ _) as [[[a r]|e] v];
      reflexivity.
  - destruct (self_runCode I _ _) as [rr vmi]. unfold bind.
    destruct (RunCall.parseRunResult _ _ _ _ _ _ _ _) as [[[a r]|e] v];
      reflexivity.
Qed.

(** What the creation branch of [parseRunResult] makes of the results. *)
Lemma parseRunResult_creation I caller account txValue gasLimit created rr vmi :
  let fee := r_gasUsed rr
             + Z.of_nat (length (r_return rr)) * createDataGas I in
  let results :=
    if Z.leb fee gasLimit
    then mkRunResults (r_account rr) fee (r_gasRefund rr) (r_return rr)
                      (r_logs rr) (r_suicides rr) (r_exceptionError rr)
                      (r_exception rr) (r_balanceIs00 rr)
    else mkRunResults (r_account rr) (r_gasUsed rr) (r_gasRefund rr) []
                      (r_logs rr) (r_suicides rr) (r_exceptionError rr)
                      (r_exception rr) (r_balanceIs00 rr) in
  exists account' vm5,
    RunCall.parseRunResult I caller account txValue gasLimit (Some created)
                           rr vmi
    = (Ok (account', results), vm5)
    /\ (r_exceptionError rr = None ->
        account' = account
        /\ vm5 = emit EvTrieCommit
                   (withTrie Trie.commit
                      (emit EvCacheCommit (withCache Cache.commit vmi)))).
Proof.
  intros fee results. unfold RunCall.parseRunResult.
  fold fee.
  match goal with |- context [bind (bind ?m _)] =>
    assert (exists v, m vmi = (Ok tt, v)
                      /\ (r_exceptionError rr = None -> v = vmi))
      as (v & Ev & Hv)
  end.
  { destruct (r_exceptionError rr); simpl.
    - destruct (r_balanceIs00 rr); eexists; split; try reflexivity;
        discriminate.
    - eexists; split; reflexivity. }
  assert (r_exceptionError results = r_exceptionError rr) as Hex
    by (unfold results; destruct (Z.leb fee gasLimit); reflexivity).
  rewrite (bind_ok _ _ vmi results v).
  2:{ rewrite (bind_ok _ _ _ _ _ Ev). unfold results.
      destruct (Z.leb fee gasLimit); reflexivity. }
  rewrite Hex. destruct (r_exceptionError rr) as [e|].
  - eexists _, _. split; [reflexivity|discriminate].
  - eexists _, _. split; [reflexivity|].
    intros _. rewrite (Hv eq_refl). auto.
Qed.

(** C4. In a creation frame the interpreter runs on the transaction data
    at the derived address, from the state [vmb] in which both checkpoints
    have just been taken; with [fee] the gas it used plus the length of
    what it returned times [createDataGas], the frame's [gasUsed] becomes
    [fee] when [fee] is within the frame's gas limit, and stays what the
    interpreter used otherwise.  Without exception, in the first case
    returned code is stored under its hash and the account published at the
    created address carries that hash; in the second the return is
    emptied, no code is stored, and the frame reports no exception. *)
Theorem creation_return_fee
        (I : Interp) (opts : CallOpts) (account : Account) (data : Bytes)
        (vm : VM) :
  o_account opts = Some account ->
  o_to opts = None ->
  o_data opts = Some data ->
  let created := generateAddress I (o_caller opts) (nonce account) in
  let txValue := default 0 (o_value opts) in
  let ro :=
    mkRunCodeOpts (Bytecode data) None (o_gasLimit opts) (o_gasPrice opts)
      (setBalance newAccount (bnToBuffer (balance newAccount + txValue)))
      created (o_origin opts) (o_caller opts) txValue (o_block opts)
      (o_depth opts) (o_suicides opts) in
  exists vmb,
    log vmb = log vm ++ [EvCacheCheckpoint; EvTrieCheckpoint]
    /\ forall rr vmi,
        codeRunner I (o_compiled opts) ro vmb = (rr, vmi) ->
        let fee := r_gasUsed rr
                   + Z.of_nat (length (r_return rr)) * createDataGas I in
        exists res vm',
          RunCall.runCall I opts vm = (Ok res, vm')
          /\ cr_createdAddress res = Some created
          /\ (fee <= o_gasLimit opts ->
              cr_gasUsed res = fee
              /\ vm_return (cr_vm res) = Some (r_return rr)
              /\ (r_exceptionError rr = None -> r_return rr <> [] ->
                  let h := sha3 I (r_return rr) in
                  Trie.getRaw h (trie vm') = Some (r_return rr)
                  /\ cr_toAccount res = setCodeHash (r_account rr) h
                  /\ Cache.get created (cache vm')
                     = Some (setCodeHash (r_account rr) h)))
          /\ (o_gasLimit opts < fee ->
              cr_gasUsed res = r_gasUsed rr
              /\ vm_return (cr_vm res) = Some []
              /\ (r_exceptionError rr = None ->
                  vm_exceptionError (cr_vm res) = None
                  /\ vm_exception (cr_vm res)
                     = Some (default 1 (r_exception rr))
                  /\ Trie.raw (trie vm') = Trie.raw (trie vmi)
                  /\ cr_toAccount res = r_account rr
                  /\ Cache.get created (cache vm') = Some (r_account rr))).
Proof.
  intros Hacc Hto Hdata created txValue ro.
  destruct (calculateFromAccountBalance_spec (o_caller opts) account txValue vm)
    as (vm1 & E1 & Hs1).
  destruct (calculateToAccountBalance_spec created newAccount txValue vm1)
    as (vm3 & E3 & Hs3).
  exists (beforeInterp vm3). split.
  { destruct Hs1 as (_ & _ & _ & _ & _ & _ & Hl1 & _).
    destruct Hs3 as (_ & _ & _ & _ & _ & _ & Hl3 & _).
    simpl. now rewrite Hl3, Hl1, <- app_assoc. }
  clear Hs1 Hs3.
  intros rr vmi Hrun fee.
  unfold RunCall.runCall. fold txValue. rewrite Hacc, Hto, Hdata.
  rewrite (bind_ok _ _ _ _ _ E1).
  unfold RunCall.loadToAccount. simpl nonce. fold created.
  rewrite (bind_ok (ret _) _ vm1 _ vm1 eq_refl).
  change (Bytecode <$> Some data) with (Some (Bytecode data)).
  rewrite (bind_ok _ _ _ _ _ E3).
  rewrite (bind_ok _ _ _ _ _ (loadCode_supplied _ _ _ _ _)).
  unfold bind at 1. rewrite runCode_with_code. cbv zeta. fold ro.
  rewrite Hrun.
  destruct (parseRunResult_creation I (o_caller opts)
              (setBalance account (bnToBuffer (balance account - txValue)))
              txValue (o_gasLimit opts) created rr vmi)
    as (account' & vm5 & E5 & Hok).
  rewrite E5. clear E5. fold fee in Hok |- *.
  destruct (Z.leb_spec fee (o_gasLimit opts)) as [Hle|Hgt].
  - (* the fee fits *)
    destruct (r_exceptionError rr) as [e|] eqn:Hex.
    + unfold RunCall.saveCode, vmOfRun. simpl.
      rewrite (bind_ok (ret _) _ vm5 _ vm5 eq_refl).
      unfold RunCall.parseCallResult. simpl.
      erewrite (bind_ok (ret tt)) by reflexivity.
      eexists _, _. split; [reflexivity|]. simpl.
      repeat split; auto; try lia; discriminate.
    + destruct (Hok eq_refl) as [-> ->].
      unfold RunCall.saveCode, vmOfRun. simpl.
      destruct (r_return rr) as [|b bs] eqn:Hret.
      * rewrite (bind_ok (ret _) _ _ _ _ eq_refl).
        unfold RunCall.parseCallResult. simpl.
        erewrite bind_ok by reflexivity.
        eexists _, _. split; [reflexivity|]. simpl.
        repeat split; auto; try lia; congruence.
      * erewrite bind_ok by reflexivity.
        unfold RunCall.parseCallResult. simpl.
        erewrite bind_ok by reflexivity.
        eexists _, _. split; [reflexivity|]. simpl.
        repeat split; auto; try lia.
        -- unfold Trie.getRaw. simpl. now rewrite lookup_insert_eq.
        -- apply get_put_eq.
  - (* the fee exceeds the limit *)
    destruct (r_exceptionError rr) as [e|] eqn:Hex.
    + unfold RunCall.saveCode, vmOfRun. simpl.
      rewrite (bind_ok (ret _) _ vm5 _ vm5 eq_refl).
      unfold RunCall.parseCallResult. simpl.
      erewrite (bind_ok (ret tt)) by reflexivity.
      eexists _, _. split; [reflexivity|]. simpl.
      repeat split; auto; try lia; discriminate.
    + destruct (Hok eq_refl) as [-> ->].
      unfold RunCall.saveCode, vmOfRun. simpl.
      rewrite (bind_ok (ret _) _ _ _ _ eq_refl).
      unfold RunCall.parseCallResult. simpl.
      erewrite bind_ok by reflexivity.
      eexists _, _. split; [reflexivity|]. simpl.
      repeat split; auto; try lia.
      apply get_put_eq.
Qed.

(** ** [lib/runCall.js] as the frame of a transaction *)

Lemma get_accountAt a x vm :
  Cache.get a (cache vm) = Some x ->
  accountAt a vm = x /\ is_Some (Cache.table (cache vm) !! a).
Proof.
  unfold Cache.get, accountAt, Cache.getOrLoad.
  destruct (Cache.table (cache vm) !! a) as [e|]; [|discriminate].
  destruct (Cache.deleted e); [discriminate|].
  intros E. inversion E. simpl. eauto.
Qed.

Lemma stored_nonce caller address new vm vm' n :
  stored address new vm vm' ->
  (address = caller -> nonce new = n) ->
  nonce <$> Cache.get caller (cache vm) = Some n ->
  nonce <$> Cache.get caller (cache vm') = Some n.
Proof.
  intros Hs Hn Hc. destruct (decide (caller = address)) as [->|Hne].
  - destruct (stored_get _ _ _ _ Hs) as (-> & _). simpl. now rewrite Hn.
  - destruct (stored_other _ _ _ _ caller Hs Hne) as (Hk & _).
    unfold Cache.get in *. now rewrite Hk.
Qed.

Lemma loadCode_state toAddress toAccount code isCompiled vm :
  exists x, RunCall.loadCode toAddress toAccount code isCompiled vm = (Ok x, vm).
Proof.
  unfold RunCall.loadCode.
  destruct (bool_decide (is_Some code) || negb (isContract toAccount toAddress));
    [eexists; reflexivity|].
  destruct (isPrecompiled toAddress); [eexists; reflexivity|].
  unfold StateManager.getCode.
  destruct (N.eqb (codeHash toAccount) SHA3_NULL); eexists; reflexivity.
Qed.

Lemma saveCode_spec I created vmResults toAccount vm x vm' :
  RunCall.saveCode I created vmResults toAccount vm = (Ok x, vm') ->
  nonce x = nonce toAccount /\ cache vm' = cache vm.
Proof.
  unfold RunCall.saveCode.
  destruct (vm_exceptionError vmResults), created;
    try (intros E; inversion E; subst; auto; fail).
  destruct (vm_return vmResults) as [[|b bs]|];
    intros E; inversion E; subst; auto.
Qed.

Lemma parseRunResult_spec I caller account txValue gasLimit created rr vmi :
  exists account' results vm5,
    RunCall.parseRunResult I caller account txValue gasLimit created rr vmi
    = (Ok (account', results), vm5)
    /\ r_account results = r_account rr
    /\ r_exceptionError results = r_exceptionError rr
    /\ nonce account' = nonce account
    /\ (is_Some (r_exceptionError rr) ->
        Cache.get caller (cache vm5) = Some account')
    /\ (r_exceptionError rr = None ->
        Cache.table (cache vm5) = Cache.table (cache vmi)).
Proof.
  unfold RunCall.parseRunResult.
  match goal with |- context [bind ?m _] =>
    assert (exists results v,
              m vmi = (Ok results, v)
              /\ r_account results = r_account rr
              /\ r_exceptionError results = r_exceptionError rr
              /\ (r_exceptionError rr = None -> v = vmi))
      as (results & v & Em & Ha & Hex & Hv)
  end.
  { destruct created as [c|]; [|eexists _, _; repeat split; reflexivity].
    set (del := if _ && _ then cacheDel c else ret tt).
    assert (exists v, del vmi = (Ok tt, v)
                      /\ (r_exceptionError rr = None -> v = vmi))
      as (v & Ev & Hv).
    { unfold del. destruct (r_exceptionError rr); simpl.
      - destruct (r_balanceIs00 rr); eexists; split; try reflexivity;
          discriminate.
      - eexists; split; reflexivity. }
    rewrite (bind_ok _ _ _ _ _ Ev).
    destruct (Z.leb _ _); eexists _, v; repeat split; auto. }
  rewrite (bind_ok _ _ _ _ _ Em). rewrite Hex.
  destruct (r_exceptionError rr) as [e|].
  - eexists _, _, _. split; [reflexivity|]. simpl.
    repeat split; auto.
    + intros _. apply get_put_eq.
    + discriminate.
  - eexists _, _, _. split; [reflexivity|]. simpl.
    repeat split; auto.
    + intros [? ?]; discriminate.
    + intros _. now rewrite (Hv eq_refl).
Qed.

(** With an interpreter that leaves nonces alone, [lib/runCall.js] run on
    the caller's cached account never changes the caller's cached nonce. *)
Lemma runCall_keeps_caller_nonce (I : Interp) :
  interpKeepsNonce I -> keepsCallerNonce (frameWithCallerAccount I).
Proof.
  intros [Hinterp Hgen] o vm r vm'.
  unfold frameWithCallerAccount, frameOfRunCall.
  destruct (RunCall.runCall I _ vm) as [[res|e] v] eqn:E; [|discriminate].
  intros Er. inversion Er; subst res v; clear Er.
  unfold RunCall.runCall in E. simpl in E.
  destruct (Cache.get (o_caller o) (cache vm)) as [acc|] eqn:Hacc;
    [|discriminate].
  set (caller := o_caller o) in *. set (v := default 0 (o_value o)) in *.
  simpl. set (n := nonce acc).
  assert (forall w x, Cache.get caller (cache w) = Some x -> nonce x = n ->
                      nonce <$> Cache.get caller (cache w) = Some n) as Pin
    by (intros w x -> <-; reflexivity).
  (* the debit *)
  destruct (calculateFromAccountBalance_spec caller acc v vm)
    as (vm1 & E1 & Hs1).
  rewrite (bind_ok _ _ _ _ _ E1) in E.
  destruct (get_accountAt _ _ _ Hacc) as [Hat _]. rewrite Hat in Hs1.
  assert (nonce <$> Cache.get caller (cache vm1) = Some n) as P1.
  { destruct (stored_get _ _ _ _ Hs1) as (-> & _). reflexivity. }
  (* the recipient *)
  assert (exists toAddress createdAddress toAccount code txData vm2,
            RunCall.loadToAccount I caller
              (setBalance acc (bnToBuffer (balance acc - v)))
              (o_to o) (o_code o) (o_data o) vm1
            = (Ok (toAddress, createdAddress, toAccount, code, txData), vm2)
            /\ nonce <$> Cache.get caller (cache vm2) = Some n
            /\ (toAddress = caller -> nonce toAccount = n)
            /\ (toAddress = caller -> createdAddress = None))
    as (toAddress & created & toAccount & code & txData & vm2 & E2 & P2
        & Hto & Hcr).
  { unfold RunCall.loadToAccount. destruct (o_to o) as [to|].
    - destruct (getAccount_spec to vm1) as (vm2 & Eg & _ & _ & _ & _ & _ & Hk
                                            & Hsame).
      eexists _, _, _, _, _, vm2. rewrite (bind_ok _ _ _ _ _ Eg).
      split; [reflexivity|].
      destruct (decide (to = caller)) as [->|Hne].
      + destruct (Cache.get caller (cache vm1)) as [x|] eqn:Hx;
          [|discriminate].
        destruct (get_accountAt _ _ _ Hx) as [Hax Hsome].
        rewrite (Hsame Hsome), Hx, Hax. simpl in P1. inversion P1.
        repeat split; auto.
      + unfold Cache.get in *. rewrite (Hk caller) by auto.
        repeat split; auto; contradiction.
    - eexists _, _, _, _, _, vm1. split; [reflexivity|].
      repeat split; auto; intros Heq; exfalso; exact (Hgen _ _ Heq). }
  rewrite (bind_ok _ _ _ _ _ E2) in E.
  (* the credit *)
  destruct (calculateToAccountBalance_spec toAddress toAccount v vm2)
    as (vm3 & E3 & Hs3).
  rewrite (bind_ok _ _ _ _ _ E3) in E.
  assert (nonce <$> Cache.get caller (cache vm3) = Some n) as P3.
  { apply (stored_nonce _ _ _ _ _ _ Hs3); [|exact P2].
    intros ->. destruct (Cache.get caller (cache vm2)) as [x|] eqn:Hx;
      [|discriminate].
    destruct (get_accountAt _ _ _ Hx) as [-> _]. simpl in P2.
    now inversion P2. }
  set (toAccount3 := setBalance toAccount _) in *.
  (* the code *)
  destruct (loadCode_state toAddress toAccount3 code (o_compiled o) vm3)
    as ([code' compiled] & E4).
  rewrite (bind_ok _ _ _ _ _ E4) in E.
  apply bind_inv_ok in E as ([[[account5 toAccount5] vmRes] gasUsed] & vm5
                             & E5 & E).
  apply bind_inv_ok in E as (toAccount6 & vm6 & E6 & E).
  apply saveCode_spec in E6 as [Hn6 Hc6].
  unfold RunCall.parseCallResult in E.
  destruct code' as [c|].
  - (* the interpreter ran *)
    rewrite runCode_with_code in E5. cbv zeta in E5.
    cbn [o_gasLimit o_gasPrice o_origin o_block o_depth o_suicides] in E5.
    destruct (codeRunner I compiled _ _) as [rr vmi] eqn:Hrun.
    destruct (Hinterp _ _ _ _ _ Hrun) as [Hi1 Hi2]. simpl in Hi1, Hi2.
    destruct (parseRunResult_spec I caller
                (setBalance acc (bnToBuffer (balance acc - v))) v
                (o_gasLimit o) created rr vmi)
      as (account' & results & vm5' & Ep & Hra & Hrex & Hna & Hexc & Hok).
    rewrite Ep in E5. inversion E5; subst account5 toAccount5 vmRes gasUsed vm5'.
    clear E5. simpl in E. rewrite Hrex in E.
    destruct (r_exceptionError rr) as [e|] eqn:Hex.
    + erewrite bind_ok in E by reflexivity. inversion E; subst; clear E.
      rewrite Hc6. rewrite (Hexc (ex_intro _ e eq_refl)). simpl.
      now rewrite Hna.
    + erewrite bind_ok in E by reflexivity. inversion E; subst; clear E.
      simpl. destruct (decide (toAddress = caller)) as [->|Hne].
      * rewrite get_put_eq. simpl. rewrite Hn6, Hra, (Hi2 eq_refl).
        unfold toAccount3. simpl. now rewrite (Hto eq_refl).
      * rewrite get_put_ne by auto. rewrite Hc6.
        unfold Cache.get. rewrite (Hok eq_refl).
        fold (Cache.get caller (cache vmi)). rewrite Hi1. exact P3.
  - (* no code *)
    rewrite runCode_no_code in E5.
    inversion E5; subst account5 toAccount5 vmRes gasUsed vm5. clear E5.
    simpl in E. erewrite bind_ok in E by reflexivity.
    inversion E; subst; clear E. simpl.
    destruct (decide (toAddress = caller)) as [->|Hne].
    + rewrite get_put_eq. simpl. rewrite Hn6.
      unfold toAccount3. simpl. now rewrite (Hto eq_refl).
    + rewrite get_put_ne by auto. rewrite Hc6. exact P3.
Qed.

(** [lib/runTx.js] hands [lib/runCall.js] no [account]: run on the options
    of a transaction as they are, the frame raises on its first read. *)
Lemma runCall_without_account (I : Interp) tx block gasLimit vm :
  RunCall.runCall I (RunTx.callOptions tx block gasLimit) vm
  = (Fail ErrTypeError, vm)
  /\ frameOfRunCall I (RunTx.callOptions tx block gasLimit) vm = (None, vm).
Proof. split; reflexivity. Qed.

(** ** The frame without code, and the frame that faults *)

Lemma isContract_setBalance a b address :
  isContract (setBalance a b) address = isContract a address.
Proof. reflexivity. Qed.

(** X10.  A frame to an account without code runs no interpreter: it takes
    both checkpoints and commits the cache's only. *)
Lemma no_code_frame_leaves_trie_checkpoint
      (I : Interp) (opts : CallOpts) (account : Account) (to : Address)
      (vm : VM) :
  o_account opts = Some account ->
  o_to opts = Some to ->
  o_code opts = None ->
  isContract (accountAt to vm) to = false ->
  exists res vm',
    RunCall.runCall I opts vm = (Ok res, vm')
    /\ vm_exceptionError (cr_vm res) = None
    /\ log vm' = log vm ++ [EvCacheCheckpoint; EvTrieCheckpoint; EvCacheCommit]
    /\ Cache.checkpoints (cache vm') = Cache.checkpoints (cache vm)
    /\ length (Trie.checkpoints (trie vm'))
       = S (length (Trie.checkpoints (trie vm))).
Proof.
  intros Hacc Hto Hcode Hnc.
  set (v := default 0 (o_value opts)).
  unfold RunCall.runCall. fold v. rewrite Hacc, Hto, Hcode.
  destruct (calculateFromAccountBalance_spec (o_caller opts) account v vm)
    as (vm1 & E1 & Hs1).
  rewrite (bind_ok _ _ _ _ _ E1).
  assert (isContract (accountAt to vm1) to = false) as Hnc1.
  { destruct (decide (to = o_caller opts)) as [->|Hne].
    - destruct (stored_get _ _ _ _ Hs1) as (_ & _ & ->).
      now rewrite isContract_setBalance.
    - destruct (stored_other _ _ _ _ to Hs1 Hne) as (_ & _ & ->). exact Hnc. }
  unfold RunCall.loadToAccount.
  destruct (getAccount_spec to vm1)
    as (vm2 & E2 & Ha2 & Htr2 & Hl2 & _ & Hc2 & _).
  rewrite (bind_ok _ _ _ _ _ (bind_ok _ _ _ _ _ E2)).
  destruct (calculateToAccountBalance_spec to (accountAt to vm1) v vm2)
    as (vm3 & E3 & Hs3).
  rewrite (bind_ok _ _ _ _ _ E3).
  rewrite (bind_ok _ _ _ _ _
             (loadCode_not_contract to _ (o_compiled opts) vm3
                (eq_trans (isContract_setBalance _ _ _) Hnc1))).
  rewrite (bind_ok _ _ _ _ _ (runCode_no_code _ _ _ _ _ _ _ _ _ _ _)).
  erewrite (bind_ok (RunCall.saveCode I None emptyVmResults _)) by reflexivity.
  eexists _, _. split; [reflexivity|]. simpl.
  destruct Hs1 as (_ & _ & Hcp1 & _ & Htc1 & _ & Hl1 & _).
  destruct Hs3 as (_ & _ & Hcp3 & _ & Htc3 & _ & Hl3 & _).
  rewrite Hl3, Hl2, Hl1, Hcp3, Hc2, Hcp1, Htc3, Htr2, Htc1.
  repeat split; auto.
  now rewrite <- !app_assoc.
Qed.

Lemma parseRunResult_exception I caller account txValue gasLimit created
      rr vmi e :
  r_exceptionError rr = Some e ->
  let account' :=
    setBalance account (bnToBuffer (balance account + txValue)) in
  exists results vmd,
    RunCall.parseRunResult I caller account txValue gasLimit created rr vmi
    = (Ok (account', results),
       emit EvTrieRevert
         (withTrie Trie.revert
            (withCache (Cache.put caller account' false)
               (emit EvCacheRevert (withCache Cache.revert vmd)))))
    /\ r_exceptionError results = Some e
    /\ Cache.checkpoints (cache vmd) = Cache.checkpoints (cache vmi)
    /\ trie vmd = trie vmi.
Proof.
  intros Hex account'. unfold RunCall.parseRunResult.
  match goal with |- context [bind ?m _] =>
    assert (exists results vmd,
              m vmi = (Ok results, vmd)
              /\ r_exceptionError results = Some e
              /\ Cache.checkpoints (cache vmd) = Cache.checkpoints (cache vmi)
              /\ trie vmd = trie vmi)
      as (results & vmd & Em & Hr & Hc & Ht)
  end.
  { destruct created as [c|]; [|eexists _, _; repeat split; auto].
    set (del := if _ && _ then cacheDel c else ret tt).
    assert (exists vmd, del vmi = (Ok tt, vmd)
                        /\ Cache.checkpoints (cache vmd)
                           = Cache.checkpoints (cache vmi)
                        /\ trie vmd = trie vmi) as (vmd & Ed & Hc & Ht).
    { unfold del. destruct (_ && _); eexists; repeat split; reflexivity. }
    rewrite (bind_ok _ _ _ _ _ Ed).
    destruct (Z.leb _ _); eexists _, vmd; repeat split; auto. }
  rewrite (bind_ok _ _ _ _ _ Em), Hr.
  eexists results, vmd. repeat split; auto.
Qed.

(** When the interpreter faults, the frame ends in the state the credit
    stage left, but for the caller's entry in the cache, which is put
    again with the value back. *)
Lemma faulting_frame_restores_checkpoint
      (I : Interp) (opts : CallOpts) (account : Account) (vm : VM)
      vm1 toAddress created toAccount code txData vm2 toAccount3 vm3
      code' compiled :
  alwaysFaults I ->
  o_account opts = Some account ->
  let caller := o_caller opts in
  let v := default 0 (o_value opts) in
  let account1 := setBalance account (bnToBuffer (balance account - v)) in
  RunCall.calculateFromAccountBalance caller account v vm
  = (Ok account1, vm1) ->
  RunCall.loadToAccount I caller account1 (o_to opts) (o_code opts)
                        (o_data opts) vm1
  = (Ok (toAddress, created, toAccount, code, txData), vm2) ->
  RunCall.calculateToAccountBalance toAddress toAccount v vm2
  = (Ok toAccount3, vm3) ->
  RunCall.loadCode toAddress toAccount3 code (o_compiled opts) vm3
  = (Ok (Some code', compiled), vm3) ->
  exists res vm',
    RunCall.runCall I opts vm = (Ok res, vm')
    /\ is_Some (vm_exceptionError (cr_vm res))
    /\ Cache.table (cache vm')
       = <[caller := Cache.Entry
                       (setBalance account1
                                   (bnToBuffer (balance account1 + v)))
                       true false false]> (Cache.table (cache vm3))
    /\ Cache.checkpoints (cache vm') = Cache.checkpoints (cache vm3)
    /\ Trie.store (trie vm') = Trie.store (trie vm3)
    /\ Trie.checkpoints (trie vm') = Trie.checkpoints (trie vm3).
Proof.
  intros Hf Hacc caller v account1 E1 E2 E3 E4.
  unfold RunCall.runCall. fold caller v. rewrite Hacc.
  rewrite (bind_ok _ _ _ _ _ E1). fold account1.
  rewrite (bind_ok _ _ _ _ _ E2), (bind_ok _ _ _ _ _ E3),
    (bind_ok _ _ _ _ _ E4).
  unfold bind at 1. rewrite runCode_with_code. cbv zeta.
  match goal with |- context [codeRunner I compiled ?ro ?vmb] =>
    destruct (Hf compiled ro vmb) as ([e Hex] & Hcc & Htc);
    destruct (codeRunner I compiled ro vmb) as [rr vmi]
  end.
  simpl in Hex, Hcc, Htc.
  destruct (parseRunResult_exception I caller account1 v (o_gasLimit opts)
              created rr vmi e Hex) as (results & vmd & Ep & Hr & Hcd & Htd).
  rewrite Ep. clear Ep.
  destruct results as [ra rg rf rret rl rs rex rexc rz]. simpl in Hr.
  subst rex.
  eexists _, _. split; [reflexivity|]. simpl.
  unfold Cache.revert, Trie.revert. rewrite Hcd, Hcc, Htd, Htc. simpl.
  repeat split; eauto.
Qed.

Lemma parseRunResult_checkpoints I caller account txValue gasLimit created
      rr vmi :
  exists account' results vm5,
    RunCall.parseRunResult I caller account txValue gasLimit created rr vmi
    = (Ok (account', results), vm5)
    /\ Cache.checkpoints (cache vm5) = tail (Cache.checkpoints (cache vmi))
    /\ Trie.checkpoints (trie vm5) = tail (Trie.checkpoints (trie vmi)).
Proof.
  destruct (r_exceptionError rr) as [e|] eqn:Hex.
  - destruct (parseRunResult_exception I caller account txValue gasLimit
                created rr vmi e Hex) as (results & vmd & E & _ & Hc & Ht).
    eexists _, _, _. split; [exact E|]. simpl.
    unfold Cache.revert, Trie.revert. rewrite <- Hc, <- Ht.
    destruct (Cache.checkpoints (cache vmd)) eqn:Ec,
             (Trie.checkpoints (trie vmd)) eqn:Et; simpl;
      rewrite ?Ec, ?Et; auto.
  - destruct (parseRunResult_spec I caller account txValue gasLimit created
                rr vmi) as (account' & results & vm5 & E & _ & Hr & _).
    unfold RunCall.parseRunResult in *.
    match type of E with context [bind ?m _] =>
      assert (exists results', m vmi = (Ok results', vmi)
                               /\ r_exceptionError results' = None)
        as (results' & Em & Hr')
    end.
    { destruct created as [c|]; [|eexists; split; eauto].
      rewrite Hex. simpl bool_decide. cbv iota. simpl andb. cbv iota.
      rewrite (bind_ok (ret tt) _ vmi tt vmi eq_refl).
      destruct (Z.leb _ _); eexists; split; eauto. }
    rewrite (bind_ok _ _ _ _ _ Em), Hr'.
    eexists _, _, _. split; [reflexivity|]. auto.
Qed.

(** X11.  With code to run, and an interpreter that releases its own
    checkpoints, the frame releases both of its checkpoints, by a commit or by
    a revert. *)
Lemma frame_with_code_releases_checkpoints
      (I : Interp) (opts : CallOpts) (account : Account) (vm : VM) :
  keepsCheckpoints I ->
  o_account opts = Some account ->
  runsCode opts vm ->
  exists res vm',
    RunCall.runCall I opts vm = (Ok res, vm')
    /\ Cache.checkpoints (cache vm') = Cache.checkpoints (cache vm)
    /\ Trie.checkpoints (trie vm') = Trie.checkpoints (trie vm).
Proof.
  intros Hk Hacc Hruns.
  set (v := default 0 (o_value opts)).
  unfold RunCall.runCall. fold v. rewrite Hacc.
  destruct (calculateFromAccountBalance_spec (o_caller opts) account v vm)
    as (vm1 & E1 & Hs1).
  rewrite (bind_ok _ _ _ _ _ E1).
  set (account1 := setBalance account _).
  assert (exists toAddress created toAccount code vm2 txData,
            RunCall.loadToAccount I (o_caller opts) account1 (o_to opts)
                                  (o_code opts) (o_data opts) vm1
            = (Ok (toAddress, created, toAccount, code, txData), vm2)
            /\ Cache.checkpoints (cache vm2) = Cache.checkpoints (cache vm1)
            /\ trie vm2 = trie vm1
            /\ (is_Some code \/ isContract toAccount toAddress = true))
    as (toAddress & created & toAccount & code & vm2 & txData & E2 & Hc2
        & Ht2 & Hcode).
  { unfold RunCall.loadToAccount, runsCode in *.
    destruct (o_to opts) as [to|].
    - destruct (getAccount_spec to vm1) as (vm2 & Eg & _ & Ht & _ & _ & Hc & _).
      rewrite (bind_ok _ _ _ _ _ Eg).
      eexists _, _, _, _, _, _. split; [reflexivity|].
      repeat split; auto.
      destruct Hruns as [Hs|Hs]; [now left|right].
      destruct (decide (to = o_caller opts)) as [->|Hne].
      + destruct (stored_get _ _ _ _ Hs1) as (_ & _ & ->).
        now rewrite isContract_setBalance.
      + destruct (stored_other _ _ _ _ to Hs1 Hne) as (_ & _ & ->). exact Hs.
    - destruct Hruns as [data Hd]. rewrite Hd.
      eexists _, _, _, _, _, _. split; [reflexivity|].
      repeat split; auto; left; eauto. }
  rewrite (bind_ok _ _ _ _ _ E2).
  destruct (calculateToAccountBalance_spec toAddress toAccount v vm2)
    as (vm3 & E3 & Hs3).
  rewrite (bind_ok _ _ _ _ _ E3).
  set (toAccount3 := setBalance toAccount _).
  assert (exists code' compiled,
            RunCall.loadCode toAddress toAccount3 code (o_compiled opts) vm3
            = (Ok (Some code', compiled), vm3)) as (code' & compiled & E4).
  { unfold RunCall.loadCode. destruct code as [c|].
    - eexists _, _. reflexivity.
    - destruct Hcode as [[? ?]|Hc]; [discriminate|].
      unfold toAccount3. rewrite isContract_setBalance, Hc. simpl.
      destruct (isPrecompiled toAddress); [eexists _, _; reflexivity|].
      unfold StateManager.getCode.
      destruct (N.eqb _ _); eexists _, _; reflexivity. }
  rewrite (bind_ok _ _ _ _ _ E4).
  unfold bind at 1. rewrite runCode_with_code. cbv zeta.
  match goal with |- context [codeRunner I compiled ?ro ?vmb] =>
    destruct (Hk compiled ro vmb) as (Hcc & Htc);
    destruct (codeRunner I compiled ro vmb) as [rr vmi]
  end.
  simpl in Hcc, Htc.
  destruct (parseRunResult_checkpoints I (o_caller opts) account1 v
              (o_gasLimit opts) created rr vmi)
    as (account' & results & vm5 & E5 & Hc5 & Ht5).
  rewrite E5. rewrite Hcc in Hc5. rewrite Htc in Ht5. simpl in Hc5, Ht5.
  destruct Hs1 as (_ & _ & Hcp1 & _ & Htc1 & _).
  destruct Hs3 as (_ & _ & Hcp3 & _ & Htc3 & _).
  assert (exists toAccount6 vm6,
            RunCall.saveCode I created (vmOfRun results) (r_account results)
                             vm5 = (Ok toAccount6, vm6)
            /\ cache vm6 = cache vm5
            /\ Trie.checkpoints (trie vm6) = Trie.checkpoints (trie vm5))
    as (toAccount6 & vm6 & E6 & Hc6 & Ht6).
  { unfold RunCall.saveCode, vmOfRun. simpl.
    destruct (r_exceptionError results), created;
      try (eexists _, _; repeat split; reflexivity).
    destruct (r_return results); eexists _, _; repeat split; reflexivity. }
  rewrite (bind_ok _ _ _ _ _ E6).
  unfold RunCall.parseCallResult.
  destruct (vm_exceptionError (vmOfRun results));
    erewrite bind_ok by reflexivity;
    eexists _, _; (split; [reflexivity|]); simpl;
    rewrite ?Hc6, Ht6, Hc5, Ht5, Hcp3, Htc3, Hc2, Ht2, Hcp1, Htc1; auto.
Qed.

(** ** The interpreter's run of a frame *)

(** A frame with code to run is the interpreter's run of
    [interpreterInput], followed by [parseRunResult], [saveCode] and
    [parseCallResult]. *)
Lemma runCall_with_interpreter
      (I : Interp) (opts : CallOpts) (account : Account) (vm : VM)
      compiled created ro vmb rr vmi :
  o_account opts = Some account ->
  interpreterInput I opts vm = Some (compiled, created, ro, vmb) ->
  codeRunner I compiled ro vmb = (rr, vmi) ->
  let v := default 0 (o_value opts) in
  RunCall.runCall I opts vm
  = (do '(account', results) <-
       RunCall.parseRunResult I (o_caller opts)
         (setBalance account (bnToBuffer (balance account - v))) v
         (o_gasLimit opts) created rr;
     do toAccount <-
       RunCall.saveCode I created (vmOfRun results) (r_account results);
     RunCall.parseCallResult account' (rc_address ro) created toAccount
                             (vmOfRun results) (r_gasUsed results)) vmi.
Proof.
  intros Hacc Hin Hrun v.
  unfold interpreterInput in Hin. unfold RunCall.runCall.
  rewrite Hacc in *. fold v in Hin |- *.
  destruct (calculateFromAccountBalance_spec (o_caller opts) account v vm)
    as (vm1 & E1 & _).
  rewrite (bind_ok _ _ _ _ _ E1) in Hin. rewrite (bind_ok _ _ _ _ _ E1).
  destruct (RunCall.loadToAccount I (o_caller opts)
              (setBalance account (bnToBuffer (balance account - v)))
              (o_to opts) (o_code opts) (o_data opts) vm1)
    as [[[[[[toAddress created0] toAccount] code] txData]|e2] vm2] eqn:E2.
  2:{ rewrite (bind_fail _ _ _ _ _ E2) in Hin. discriminate. }
  rewrite (bind_ok _ _ _ _ _ E2) in Hin. rewrite (bind_ok _ _ _ _ _ E2).
  destruct (RunCall.calculateToAccountBalance toAddress toAccount v vm2)
    as [[toAccount3|e3] vm3] eqn:E3.
  2:{ rewrite (bind_fail _ _ _ _ _ E3) in Hin. discriminate. }
  rewrite (bind_ok _ _ _ _ _ E3) in Hin. rewrite (bind_ok _ _ _ _ _ E3).
  destruct (RunCall.loadCode toAddress toAccount3 code (o_compiled opts) vm3)
    as [[[code' isCompiled]|e4] vm4] eqn:E4.
  2:{ rewrite (bind_fail _ _ _ _ _ E4) in Hin. discriminate. }
  rewrite (bind_ok _ _ _ _ _ E4) in Hin. rewrite (bind_ok _ _ _ _ _ E4).
  unfold ret in Hin.
  destruct code' as [c|]; [|discriminate].
  inversion Hin; subst compiled created ro vmb; clear Hin.
  unfold bind at 1. rewrite runCode_with_code. cbv zeta.
  rewrite Hrun. unfold bind at 2. simpl rc_address.
  destruct (RunCall.parseRunResult I _ _ _ _ _ _ _) as [[[a r]|e] w];
    reflexivity.
Qed.

(** The stages of a CALL frame before [runCode]: the debit, the load of
    the recipient, the credit, which writes the recipient to the cache and
    to the trie whatever the value, and the choice of the code. *)
Lemma call_stages
      (I : Interp) (opts : CallOpts) (account : Account) (to : Address)
      (vm : VM) :
  o_account opts = Some account ->
  o_to opts = Some to ->
  let caller := o_caller opts in
  let v := default 0 (o_value opts) in
  let account1 := setBalance account (bnToBuffer (balance account - v)) in
  let recipient :=
    if decide (to = caller)
    then setBalance (accountAt to vm) (bnToBuffer (balance account - v))
    else accountAt to vm in
  let credited := setBalance recipient (bnToBuffer (balance recipient + v)) in
  exists vm1 vm2 vm3 code' compiled,
    RunCall.calculateFromAccountBalance caller account v vm
    = (Ok account1, vm1)
    /\ RunCall.loadToAccount I caller account1 (o_to opts) (o_code opts)
                             (o_data opts) vm1
       = (Ok (to, None, recipient, o_code opts, o_data opts), vm2)
    /\ RunCall.calculateToAccountBalance to recipient v vm2
       = (Ok credited, vm3)
    /\ RunCall.loadCode to credited (o_code opts) (o_compiled opts) vm3
       = (Ok (code', compiled), vm3)
    /\ (code' = None <-> o_code opts = None /\ isContract credited to = false)
    /\ Cache.table (cache vm3) !! to
       = Some (Cache.Entry credited true false false)
    /\ Trie.store (trie vm3) !! to = Some credited
    /\ interpreterInput I opts vm
       = match code' with
         | Some c =>
             Some (compiled, None,
                   mkRunCodeOpts c (o_data opts) (o_gasLimit opts)
                     (o_gasPrice opts) credited to (o_origin opts) caller v
                     (o_block opts) (o_depth opts) (o_suicides opts),
                   beforeInterp vm3)
         | None => None
         end.
Proof.
  intros Hacc Hto caller v account1 recipient credited.
  destruct (calculateFromAccountBalance_spec caller account v vm)
    as (vm1 & E1 & Hs1).
  fold account1 in E1.
  assert (accountAt to vm1 = recipient) as Hrec.
  { unfold recipient. destruct (decide (to = caller)) as [->|Hne].
    - now destruct (stored_get _ _ _ _ Hs1) as (_ & _ & ->).
    - now destruct (stored_other _ _ _ _ to Hs1 Hne) as (_ & _ & ->). }
  destruct (getAccount_spec to vm1) as (vm2 & E2 & Ha2 & _).
  rewrite Hrec in E2, Ha2.
  destruct (calculateToAccountBalance_spec to recipient v vm2)
    as (vm3 & E3 & Hs3).
  rewrite Ha2 in Hs3. fold credited in E3, Hs3.
  destruct (loadCode_state to credited (o_code opts) (o_compiled opts) vm3)
    as ([code' compiled] & E4).
  assert (RunCall.loadToAccount I caller account1 (o_to opts) (o_code opts)
                                (o_data opts) vm1
          = (Ok (to, None, recipient, o_code opts, o_data opts), vm2)) as E2'.
  { unfold RunCall.loadToAccount. rewrite Hto.
    now rewrite (bind_ok _ _ _ _ _ E2). }
  exists vm1, vm2, vm3, code', compiled.
  split; [exact E1|]. split; [exact E2'|]. split; [exact E3|].
  split; [exact E4|].
  destruct Hs3 as (Hc3 & _ & _ & Ht3 & _).
  split; [|split; [exact Hc3|split; [rewrite Ht3; apply lookup_insert_eq|]]].
  - unfold RunCall.loadCode in E4.
    destruct (o_code opts) as [c|]; simpl in E4.
    + inversion E4. split; [discriminate|]. intros [? _]. discriminate.
    + destruct (isContract credited to); simpl in E4.
      * split; [|intros [_ ?]; discriminate].
        intros ->. exfalso.
        destruct (isPrecompiled to); [discriminate|].
        unfold StateManager.getCode in E4.
        destruct (N.eqb _ _); discriminate.
      * inversion E4. split; auto.
  - unfold interpreterInput. rewrite Hacc. fold caller v.
    rewrite (bind_ok _ _ _ _ _ E1). fold account1.
    rewrite (bind_ok _ _ _ _ _ E2'), (bind_ok _ _ _ _ _ E3),
      (bind_ok _ _ _ _ _ E4).
    destruct code'; reflexivity.
Qed.

(** A frame whose interpreter run reports an exception and hands back the
    two checkpoint stacks as it found them ends in the state the credit
    stage left, but for the caller's entry in the cache, which is put
    again with the value back. *)
Lemma faulting_run_restores_checkpoint
      (I : Interp) (opts : CallOpts) (account : Account) (vm : VM)
      compiled created ro vm3 rr vmi e :
  o_account opts = Some account ->
  interpreterInput I opts vm = Some (compiled, created, ro, beforeInterp vm3) ->
  codeRunner I compiled ro (beforeInterp vm3) = (rr, vmi) ->
  r_exceptionError rr = Some e ->
  Cache.checkpoints (cache vmi) = Cache.checkpoints (cache (beforeInterp vm3)) ->
  Trie.checkpoints (trie vmi) = Trie.checkpoints (trie (beforeInterp vm3)) ->
  let caller := o_caller opts in
  let v := default 0 (o_value opts) in
  let account1 := setBalance account (bnToBuffer (balance account - v)) in
  exists res vm',
    RunCall.runCall I opts vm = (Ok res, vm')
    /\ vm_exceptionError (cr_vm res) = Some e
    /\ cr_createdAddress res = created
    /\ Cache.table (cache vm')
       = <[caller := Cache.Entry
                       (setBalance account1
                                   (bnToBuffer (balance account1 + v)))
                       true false false]> (Cache.table (cache vm3))
    /\ Cache.checkpoints (cache vm') = Cache.checkpoints (cache vm3)
    /\ Trie.store (trie vm') = Trie.store (trie vm3)
    /\ Trie.checkpoints (trie vm') = Trie.checkpoints (trie vm3).
Proof.
  intros Hacc Hin Hrun Hex Hcc Htc caller v account1.
  rewrite (runCall_with_interpreter I opts account vm _ _ _ _ _ _
             Hacc Hin Hrun).
  fold v caller account1.
  destruct (parseRunResult_exception I caller account1 v (o_gasLimit opts)
              created rr vmi e Hex) as (results & vmd & Ep & Hr & Hcd & Htd).
  rewrite (bind_ok _ _ _ _ _ Ep). clear Ep.
  destruct results as [ra rg rf rret rl rs rex rexc rz]. simpl in Hr.
  subst rex.
  eexists _, _. split; [reflexivity|]. simpl.
  unfold Cache.revert, Trie.revert. rewrite Hcd, Hcc, Htd, Htc. simpl.
  repeat split; eauto.
Qed.

(** The interpreter starts right after the two checkpoints. *)
Lemma interpreterInput_start I opts vm compiled created ro vmb :
  interpreterInput I opts vm = Some (compiled, created, ro, vmb) ->
  exists vm3, vmb = beforeInterp vm3.
Proof.
  unfold interpreterInput. destruct (o_account opts); [|discriminate].
  match goal with |- context [match ?m with _ => _ end] =>
    destruct m as [[[[[[[? ?] ?] [c|]] ?] ?]|?] vm3]
  end; try discriminate.
  intros E. inversion E. eauto.
Qed.

Lemma parseRunResult_call_ok I caller account txValue gasLimit rr vmi :
  r_exceptionError rr = None ->
  RunCall.parseRunResult I caller account txValue gasLimit None rr vmi
  = (Ok (account, rr),
     emit EvTrieCommit
       (withTrie Trie.commit
          (emit EvCacheCommit (withCache Cache.commit vmi)))).
Proof.
  intros Hex. unfold RunCall.parseRunResult.
  rewrite (bind_ok (ret rr) _ vmi rr vmi eq_refl). now rewrite Hex.
Qed.

Lemma saveCode_call I vmResults toAccount vm :
  RunCall.saveCode I None vmResults toAccount vm = (Ok toAccount, vm).
Proof.
  unfold RunCall.saveCode. destruct (vm_exceptionError vmResults); reflexivity.
Qed.

(** C10. Every CALL frame credits the recipient through the state manager
    before anything runs, whatever the value, an absent value counting as
    zero: the credit writes the recipient to the cache and to the trie, and
    for an address that neither knows and no value the account written is
    a fresh one.  When the frame has no code to run that account is in the
    cache and in the trie after the frame.  When it has, the interpreter is
    started on that account, with the account in the cache and in the
    trie; if it reports no exception the frame puts the account the
    interpreter reports in the cache at the recipient's address and leaves
    the trie as the interpreter left it; if it reports one, and hands back
    the checkpoint stacks as it found them, the trie holds the credited
    account after the frame and the cache has an account there. *)
Theorem zero_value_call_materialises_recipient
        (I : Interp) (opts : CallOpts) (account : Account) (to : Address)
        (vm : VM) :
  o_account opts = Some account ->
  o_to opts = Some to ->
  let caller := o_caller opts in
  let v := default 0 (o_value opts) in
  let recipient :=
    if decide (to = caller)
    then setBalance (accountAt to vm) (bnToBuffer (balance account - v))
    else accountAt to vm in
  let credited := setBalance recipient (bnToBuffer (balance recipient + v)) in
  let written := Some (Cache.Entry credited true false false) in
  (to <> caller ->
   Cache.table (cache vm) !! to = None -> Trie.get to (trie vm) = None ->
   o_value opts = None \/ o_value opts = Some 0 ->
   credited = newAccount)
  /\ (interpreterInput I opts vm = None
      <-> o_code opts = None /\ isContract credited to = false)
  /\ (interpreterInput I opts vm = None ->
      exists res vm',
        RunCall.runCall I opts vm = (Ok res, vm')
        /\ cr_toAccount res = credited
        /\ Cache.table (cache vm') !! to = written
        /\ Trie.get to (trie vm') = Some credited)
  /\ (forall compiled created ro vmb rr vmi,
        interpreterInput I opts vm = Some (compiled, created, ro, vmb) ->
        codeRunner I compiled ro vmb = (rr, vmi) ->
        (rc_address ro = to /\ rc_account ro = credited /\ rc_value ro = v
         /\ Cache.table (cache vmb) !! to = written
         /\ Trie.get to (trie vmb) = Some credited)
        /\ exists res vm',
             RunCall.runCall I opts vm = (Ok res, vm')
             /\ (r_exceptionError rr = None ->
                 cr_toAccount res = r_account rr
                 /\ Cache.table (cache vm') !! to
                    = Some (Cache.Entry (r_account rr) true false false)
                 /\ Trie.get to (trie vm') = Trie.get to (trie vmi))
             /\ (is_Some (r_exceptionError rr) ->
                 Cache.checkpoints (cache vmi)
                 = Cache.checkpoints (cache vmb) ->
                 Trie.checkpoints (trie vmi)
                 = Trie.checkpoints (trie vmb) ->
                 Trie.get to (trie vm') = Some credited
                 /\ is_Some (Cache.get to (cache vm'))
                 /\ (to <> caller ->
                     Cache.table (cache vm') !! to = written))).
Proof.
  intros Hacc Hto caller v recipient credited written.
  destruct (call_stages I opts account to vm Hacc Hto)
    as (vm1 & vm2 & vm3 & code' & compiled0 & E1 & E2 & E3 & E4 & Hnone
        & Hc3 & Ht3 & Hin).
  fold caller v recipient credited written in E1, E2, E3, E4, Hnone, Hc3,
    Ht3, Hin.
  split; [|split; [|split]].
  - intros Hne Hc Ht Hv. unfold credited, recipient.
    destruct (decide (to = caller)) as [?|_]; [contradiction|].
    assert (v = 0) as -> by (unfold v; destruct Hv as [-> | ->]; reflexivity).
    unfold accountAt, Cache.getOrLoad. rewrite Hc, Ht. reflexivity.
  - rewrite Hin, <- Hnone. destruct code'; split; congruence.
  - intros Hno. rewrite Hin in Hno.
    destruct code' as [c|]; [discriminate|].
    unfold RunCall.runCall. rewrite Hacc. fold v caller.
    rewrite (bind_ok _ _ _ _ _ E1), (bind_ok _ _ _ _ _ E2),
      (bind_ok _ _ _ _ _ E3), (bind_ok _ _ _ _ _ E4).
    rewrite (bind_ok _ _ _ _ _ (runCode_no_code _ _ _ _ _ _ _ _ _ _ _)).
    erewrite (bind_ok (RunCall.saveCode I None emptyVmResults _))
      by reflexivity.
    eexists _, _. split; [reflexivity|]. simpl.
    rewrite lookup_insert_eq. unfold Trie.get. simpl. auto.
  - intros compiled created ro vmb rr vmi Hsome Hrun.
    rewrite Hin in Hsome. destruct code' as [c|]; [|discriminate].
    inversion Hsome; subst compiled created ro vmb; clear Hsome.
    split.
    { simpl. unfold Trie.get. simpl. auto. }
    pose proof (runCall_with_interpreter I opts account vm _ _ _ _ _ _
                  Hacc Hin Hrun) as Erun.
    cbv zeta in Erun. fold v caller in Erun. simpl rc_address in Erun.
    destruct (r_exceptionError rr) as [e|] eqn:Hex.
    + destruct (parseRunResult_exception I caller
                  (setBalance account (bnToBuffer (balance account - v))) v
                  (o_gasLimit opts) None rr vmi e Hex)
        as (results & vmd & Ep & Hr & Hcd & Htd).
      rewrite (bind_ok _ _ _ _ _ Ep) in Erun.
      destruct results as [ra rg rf rret rl rs rex rexc rz]. simpl in Hr.
      subst rex.
      eexists _, _. split; [exact Erun|]. split; [discriminate|].
      intros _ Hcc Htc. simpl.
      unfold Cache.revert, Trie.revert, Cache.get, Trie.get.
      rewrite Hcd, Hcc, Htd, Htc. simpl.
      split; [exact Ht3|].
      fold caller.
      destruct (decide (caller = to)) as [Eq|Hne].
      * rewrite Eq, lookup_insert_eq. simpl. split; [eauto|].
        intros N. exfalso. now apply N.
      * rewrite lookup_insert_ne, Hc3 by exact Hne. simpl.
        split; [eauto|]. intros _. reflexivity.
    + rewrite (bind_ok _ _ _ _ _
                 (parseRunResult_call_ok I caller _ v (o_gasLimit opts) rr vmi
                    Hex)) in Erun.
      rewrite (bind_ok _ _ _ _ _ (saveCode_call I _ _ _)) in Erun.
      unfold RunCall.parseCallResult in Erun. simpl in Erun.
      rewrite Hex in Erun.
      erewrite bind_ok in Erun by reflexivity.
      eexists _, _. split; [exact Erun|]. split.
      * intros _. simpl. rewrite lookup_insert_eq. unfold Trie.get. simpl.
        repeat split.
      * intros [? ?]. discriminate.
Qed.

(** The stages of a creation frame before [runCode]: the debit, the
    derived address with a fresh account, the credit, which writes the
    account stored at that address with the value as its balance, and the
    choice of the code. *)
Lemma creation_stages
      (I : Interp) (opts : CallOpts) (account : Account) (vm : VM) :
  o_account opts = Some account ->
  o_to opts = None ->
  let caller := o_caller opts in
  let v := default 0 (o_value opts) in
  let created := generateAddress I caller (nonce account) in
  let credited := setBalance newAccount (bnToBuffer (balance newAccount + v)) in
  exists vm1 vm3 code' compiled,
    stored caller
      (setBalance (accountAt caller vm) (bnToBuffer (balance account - v)))
      vm vm1
    /\ stored created
         (setBalance (accountAt created vm1)
                     (bnToBuffer (balance newAccount + v))) vm1 vm3
    /\ interpreterInput I opts vm
       = match code' with
         | Some c =>
             Some (compiled, Some created,
                   mkRunCodeOpts c None (o_gasLimit opts) (o_gasPrice opts)
                     credited created (o_origin opts) caller v (o_block opts)
                     (o_depth opts) (o_suicides opts),
                   beforeInterp vm3)
         | None => None
         end.
Proof.
  intros Hacc Hto caller v created credited.
  destruct (calculateFromAccountBalance_spec caller account v vm)
    as (vm1 & E1 & Hs1).
  destruct (calculateToAccountBalance_spec created newAccount v vm1)
    as (vm3 & E3 & Hs3).
  fold credited in E3.
  destruct (loadCode_state created credited (Bytecode <$> o_data opts)
              (o_compiled opts) vm3) as ([code' compiled] & E4).
  exists vm1, vm3, code', compiled.
  split; [exact Hs1|]. split; [exact Hs3|].
  unfold interpreterInput. rewrite Hacc. fold caller v.
  rewrite (bind_ok _ _ _ _ _ E1).
  unfold RunCall.loadToAccount. rewrite Hto. simpl nonce. fold created.
  rewrite (bind_ok (ret _) _ vm1 _ vm1 eq_refl).
  rewrite (bind_ok _ _ _ _ _ E3), (bind_ok _ _ _ _ _ E4).
  destruct code'; reflexivity.
Qed.

(** X12.  When the interpreter's run in a call to another account reports an
    exception and hands back the two checkpoint stacks as it found them, the
    recipient is still credited after the frame, in the cache and in the trie:
    the credit was written before the checkpoints were taken. The caller's
    cached balance has the value added back. *)
Theorem faulting_call_keeps_credit
        (I : Interp) (opts : CallOpts) (account : Account) (to : Address)
        (vm : VM) compiled created ro vmb rr vmi e :
  o_account opts = Some account ->
  o_to opts = Some to ->
  to <> o_caller opts ->
  interpreterInput I opts vm = Some (compiled, created, ro, vmb) ->
  codeRunner I compiled ro vmb = (rr, vmi) ->
  r_exceptionError rr = Some e ->
  Cache.checkpoints (cache vmi) = Cache.checkpoints (cache vmb) ->
  Trie.checkpoints (trie vmi) = Trie.checkpoints (trie vmb) ->
  let v := default 0 (o_value opts) in
  let credited :=
    setBalance (accountAt to vm) (bnToBuffer (balance (accountAt to vm) + v)) in
  exists res vm',
    RunCall.runCall I opts vm = (Ok res, vm')
    /\ vm_exceptionError (cr_vm res) = Some e
    /\ Cache.get to (cache vm') = Some credited
    /\ Trie.get to (trie vm') = Some credited
    /\ balance <$> Cache.get (o_caller opts) (cache vm')
       = Some (bnToBuffer (bnToBuffer (balance account - v) + v)).
Proof.
  intros Hacc Hto Hne Hsome Hrun Hex Hcc Htc v credited.
  destruct (call_stages I opts account to vm Hacc Hto)
    as (vm1 & vm2 & vm3 & code' & compiled0 & _ & _ & _ & _ & _
        & Hc3 & Ht3 & Hin).
  fold v in Hc3, Ht3, Hin.
  destruct (decide (to = o_caller opts)) as [?|_]; [contradiction|].
  fold credited in Hc3, Ht3, Hin.
  rewrite Hin in Hsome. destruct code' as [c|]; [|discriminate].
  inversion Hsome; subst compiled created ro vmb; clear Hsome.
  destruct (faulting_run_restores_checkpoint I opts account vm _ _ _ vm3
              rr vmi e Hacc Hin Hrun Hex Hcc Htc)
    as (res & vm' & E & Hx & _ & Hc & _ & Ht & _).
  exists res, vm'. split; [exact E|]. split; [exact Hx|].
  unfold Cache.get, Trie.get. rewrite Hc, Ht, Ht3.
  rewrite lookup_insert_ne, Hc3, lookup_insert_eq by auto.
  repeat split; reflexivity.
Qed.

(** X13.  When the interpreter's run in a creation reports an exception and
    hands back the two checkpoint stacks as it found them, the account the
    credit stage wrote at the created address (the account stored there, with
    the value as its balance) is still in the trie after the frame, whatever
    else the interpreter did; and unless the balance it reports is the byte
    [00], so that the frame deletes the address from the cache, the cache
    still holds that account too, live and dirty. The created address is taken
    to differ from the caller's. *)
Theorem faulting_creation_keeps_entry
        (I : Interp) (opts : CallOpts) (account : Account) (vm : VM)
        compiled created' ro vmb rr vmi e :
  o_account opts = Some account ->
  o_to opts = None ->
  let created := generateAddress I (o_caller opts) (nonce account) in
  created <> o_caller opts ->
  interpreterInput I opts vm = Some (compiled, created', ro, vmb) ->
  codeRunner I compiled ro vmb = (rr, vmi) ->
  r_exceptionError rr = Some e ->
  Cache.checkpoints (cache vmi) = Cache.checkpoints (cache vmb) ->
  Trie.checkpoints (trie vmi) = Trie.checkpoints (trie vmb) ->
  let v := default 0 (o_value opts) in
  let written :=
    setBalance (accountAt created vm) (bnToBuffer (balance newAccount + v)) in
  exists res vm',
    RunCall.runCall I opts vm = (Ok res, vm')
    /\ vm_exceptionError (cr_vm res) = Some e
    /\ cr_createdAddress res = Some created
    /\ rc_address ro = created
    /\ Trie.get created (trie vm') = Some written
    /\ (r_balanceIs00 rr = false ->
        Cache.table (cache vm') !! created
        = Some (Cache.Entry written true false false)).
Proof.
  intros Hacc Hto created Hne Hsome Hrun Hex Hcc Htc v written.
  destruct (creation_stages I opts account vm Hacc Hto)
    as (vm1 & vm3 & code' & compiled0 & Hs1 & Hs3 & Hin).
  fold v created in Hs1, Hs3, Hin.
  destruct (stored_other _ _ _ _ created Hs1 Hne) as (_ & _ & Ha1).
  rewrite Ha1 in Hs3. fold written in Hs3.
  rewrite Hin in Hsome. destruct code' as [c|]; [|discriminate].
  inversion Hsome; subst compiled created' ro vmb; clear Hsome.
  destruct (faulting_run_restores_checkpoint I opts account vm _ _ _ vm3
              rr vmi e Hacc Hin Hrun Hex Hcc Htc)
    as (res & vm' & E & Hx & Hcr & Hc & _ & Ht & _).
  exists res, vm'. split; [exact E|]. split; [exact Hx|].
  split; [exact Hcr|]. split; [reflexivity|].
  destruct Hs3 as (Hc3 & _ & _ & Ht3 & _).
  split.
  - unfold Trie.get. rewrite Ht, Ht3. apply lookup_insert_eq.
  - intros _. rewrite Hc, lookup_insert_ne; [exact Hc3|].
    intros Eq. apply Hne. symmetry. exact Eq.
Qed.

(** ** The examples *)

Lemma example_interp_keeps_nonce : interpKeepsNonce Example.interp.
Proof.
  split.
  - intros c o vm rr vm' E. destruct c; inversion E; subst; auto.
  - intros a n. unfold Example.interp, Example.address. simpl. lia.
Qed.

(** C2, at a failing input.  [A] calls the contract [B] with a value of
    10 and the code faults.  The frame reports the exception and leaves [A]
    with its 100 in the cache, yet [B], which held 5, holds 15 in the cache
    and in the trie: the credit was written before the checkpoint, so the
    revert keeps it. *)
Theorem faulting_call_keeps_recipient_credit :
  let vm := Example.worldWithContract in
  let out := RunCall.runCall Example.faulty Example.callWithValue vm in
  (vm_exceptionError <$> (cr_vm <$> (match fst out with
                                      | Ok res => Some res
                                      | Fail _ => None
                                      end)) = Some (Some 1%N))
  /\ balance <$> Cache.get Example.A (cache vm) = Some 100
  /\ balance <$> Cache.get Example.B (cache vm) = Some 5
  /\ balance <$> Cache.get Example.A (cache (snd out)) = Some 100
  /\ balance <$> Cache.get Example.B (cache (snd out)) = Some 15
  /\ balance <$> Trie.get Example.B (trie (snd out)) = Some 15
  /\ log (snd out)
     = [EvCacheCheckpoint; EvTrieCheckpoint; EvCacheRevert; EvTrieRevert].
Proof. vm_compute. repeat split; reflexivity. Qed.

(** The same fault under a transaction: the sender pays the gas and no
    more, the miner is paid the gas, and the contract keeps the 1000 all the
    same: the balances, a million before, add up to 1001000. *)
Example faulting_transaction_mints_value :
  let out := RunTx.runTx (Example.hooks Example.faulty) Example.callTxOpts
                         Example.worldWithContractStored in
  let after a := balance <$> Trie.get a (trie (snd out)) in
  (res_gasUsed <$> (match fst out with Ok res => Some res | Fail _ => None end)
   = Some 50000)
  /\ after Example.A = Some (1000000 - 50000 * 1)
  /\ after Example.B = Some 1000
  /\ after Example.C = Some 50000.
Proof. vm_compute. repeat split; reflexivity. Qed.

(** C5, at a failing input.  [A] sends 10 to the plain account [C]: no code
    runs.  The frame takes both checkpoints and commits the cache's only, so
    the trie is left with one more open checkpoint than it had. *)
Theorem plain_transfer_leaves_trie_checkpoint :
  let vm := Example.worldWithContract in
  let out := RunCall.runCall Example.interp Example.plainTransfer vm in
  (vm_exceptionError <$> (cr_vm <$> (match fst out with
                                      | Ok res => Some res
                                      | Fail _ => None
                                      end)) = Some None)
  /\ log (snd out) = [EvCacheCheckpoint; EvTrieCheckpoint; EvCacheCommit]
  /\ length (Cache.checkpoints (cache (snd out)))
     = length (Cache.checkpoints (cache vm))
  /\ length (Trie.checkpoints (trie (snd out)))
     = S (length (Trie.checkpoints (trie vm))).
Proof. vm_compute. repeat split; reflexivity. Qed.

(** C8, at a failing input.  [A] creates a contract without value and the
    init code faults, so the created account has no balance.  After the
    frame the cache holds a live, dirty entry for the created address and
    the trie holds the account: the credit stage had written it before the
    checkpoints were taken, the zero balance is the empty buffer and not
    the byte [00] the frame tests for, so [cache.del] is not called, and
    the reverts go back to those checkpoints. *)
Theorem faulting_creation_keeps_account :
  let vm := Example.worldWithContract in
  let out := RunCall.runCall Example.faulty Example.createFrame vm in
  (match fst out with
   | Ok res =>
       cr_createdAddress res = Some Example.created
       /\ vm_exceptionError (cr_vm res) = Some 1%N
       /\ balance <$> vm_account (cr_vm res) = Some 0
   | Fail _ => False
   end)
  /\ Cache.table (cache vm) !! Example.created = None
  /\ Trie.get Example.created (trie vm) = None
  /\ Cache.table (cache (snd out)) !! Example.created
     = Some (Cache.Entry newAccount true false false)
  /\ Cache.get Example.created (cache (snd out)) = Some newAccount
  /\ Trie.get Example.created (trie (snd out)) = Some newAccount.
Proof. vm_compute. repeat split; reflexivity. Qed.

(** C3, as stated, fails: [B] holds nothing and sends with nonce 5 while its
    nonce is 0, [skipNonce] being off; [runTx] fails with the
    insufficient-funds error, not with the bad-nonce error. *)
Lemma bad_nonce_behind_insufficient_funds :
  let opts := Example.poorBadNonceOpts in
  let out := RunTx.runTx (Example.hooks Example.interp) opts Example.world in
  opt_skipNonce opts = false
  /\ nonce <$> Cache.get (tx_from (opt_tx opts))
                         (cache (warmed opts Example.world)) = Some 0
  /\ tx_nonce (opt_tx opts) = 5
  /\ fst out = Fail ErrInsufficientFunds
  /\ fst out <> Fail ErrBadNonce.
Proof. vm_compute. repeat split; try reflexivity. discriminate. Qed.

(** Scenario 6 of the specification: with a reported refund of all the
    gas used (24001 with the base fee), half of it, rounded down, comes off,
    and the miner is paid for the other 12001. *)
Example refund_cap_scenario :
  let vm := warmed Example.transferOpts Example.world in
  let out := RunTx.parseResults (Example.hooks Example.interp)
               Example.transfer Example.block 21000
               Example.frameWithFullRefund vm in
  (res_gasUsed <$> (match fst out with Ok res => Some res | Fail _ => None end)
   = Some 12001)
  /\ balance <$> Cache.get Example.C (cache (snd out)) = Some 12001.
Proof. vm_compute. split; reflexivity. Qed.

(** ** Witnesses *)

Lemma refund_is_min_of_half_witness :
  let tx := Example.transfer in
  let vm := warmed Example.transferOpts Example.world in
  vm_gasRefund (cr_vm Example.frameWithRefund) = Some 1000
  /\ 0 <= cr_gasUsed Example.frameWithRefund + 21000
  /\ is_Some (Cache.get (tx_from tx) (cache vm))
  /\ is_Some (Cache.get (coinbase Example.block) (cache vm))
  /\ exists res vm',
       RunTx.parseResults (Example.hooks Example.interp) tx Example.block
                          21000 Example.frameWithRefund vm = (Ok res, vm')
       /\ res_gasUsed res = 24000 - Z.min 1000 (24000 / 2)
       /\ Z.min 1000 (24000 / 2) <= 24000 / 2
       /\ res_amountSpent res = res_gasUsed res * tx_gasPrice tx.
Proof.
  intros tx vm.
  assert (vm_gasRefund (cr_vm Example.frameWithRefund) = Some 1000) as H1
    by reflexivity.
  assert (0 <= cr_gasUsed Example.frameWithRefund + 21000) as H2
    by (vm_compute; discriminate).
  assert (is_Some (Cache.get (tx_from tx) (cache vm))) as H3
    by (eexists; vm_compute; reflexivity).
  assert (is_Some (Cache.get (coinbase Example.block) (cache vm))) as H4
    by (eexists; vm_compute; reflexivity).
  repeat split; auto.
  exact (refund_is_min_of_half (Example.hooks Example.interp) tx Example.block
           21000 Example.frameWithRefund 1000 vm H1 H2 H3 H4).
Defined.

Lemma validation_fails_without_mutation_witness :
  let opts := Example.badNonceOpts in
  let H := Example.hooks Example.interp in
  let vm := Example.world in
  RunTx.runTx H opts vm = (Fail ErrBadNonce, warmed opts vm)
  /\ trie (warmed opts vm) = trie vm
  /\ log (warmed opts vm) = log vm.
Proof.
  intros opts H vm.
  assert (tx_gasLimit (opt_tx opts) <= gasLimit (blockOf opts)) as H1
    by (vm_compute; discriminate).
  assert (beforeTx H (opt_tx opts) = None) as H2 by reflexivity.
  assert (Cache.get (tx_from (opt_tx opts)) (cache (warmed opts vm))
          = Some (Example.eoa 0 1000000)) as H3 by (vm_compute; reflexivity).
  destruct (validation_fails_without_mutation H opts vm
              (Example.eoa 0 1000000) H1 H2 H3)
    as (_ & Hbad & Ht & Hl & _).
  split; [|split; [exact Ht|exact Hl]].
  apply Hbad.
  - vm_compute; discriminate.
  - reflexivity.
  - vm_compute; discriminate.
Defined.

Lemma creation_return_fee_witness :
  o_account Example.createFrame = Some (Example.eoa 1 100)
  /\ o_to Example.createFrame = None
  /\ o_data Example.createFrame = Some [Byte.x60]
  /\ exists res vm',
       RunCall.runCall Example.interp Example.createFrame
                       Example.worldWithContract = (Ok res, vm')
       /\ cr_gasUsed res = 1000 + 10 * 200
       /\ Cache.get Example.created (cache vm')
          = Some (setCodeHash newAccount
                              (Example.hash (replicate 10 Byte.x60))).
Proof.
  assert (o_account Example.createFrame = Some (Example.eoa 1 100)) as H1
    by reflexivity.
  assert (o_to Example.createFrame = None) as H2 by reflexivity.
  assert (o_data Example.createFrame = Some [Byte.x60]) as H3 by reflexivity.
  repeat split; auto.
  destruct (creation_return_fee Example.interp Example.createFrame
              (Example.eoa 1 100) [Byte.x60] Example.worldWithContract
              H1 H2 H3) as (vmb & _ & Hrun).
  destruct (Hrun _ vmb eq_refl) as (res & vm' & Er & _ & Hfit & _).
  exists res, vm'. split; [exact Er|].
  destruct Hfit as (Hg & _ & Hinst); [vm_compute; discriminate|].
  split; [exact Hg|].
  destruct Hinst as (_ & _ & Hc); [reflexivity|discriminate|].
  exact Hc.
Defined.

(** * Further properties *)

(** ** The state manager *)

(** What [putAccount] makes of the machine. *)
Lemma putAccount_state address account vm :
  StateManager.putAccount address account vm
  = (Ok tt,
     mkVM (Cache.Make
             (<[address := Cache.Entry account true false false]>
                (Cache.table (cache vm)))
             (Cache.checkpoints (cache vm)))
          (Trie.Make (<[address := account]> (Trie.store (trie vm)))
                     (Trie.checkpoints (trie vm)) (Trie.raw (trie vm)))
          (storageTries vm) (log vm)).
Proof. reflexivity. Qed.

(** What [putAccountBalance] makes of the machine: the entry that a read
    may have loaded is overwritten by the write. *)
Lemma putAccountBalance_state address account b vm :
  StateManager.putAccountBalance address account b vm
  = (Ok tt,
     mkVM (Cache.Make
             (<[address := Cache.Entry (setBalance (accountAt address vm) b)
                                       true false false]>
                (Cache.table (cache vm)))
             (Cache.checkpoints (cache vm)))
          (Trie.Make (<[address := setBalance (accountAt address vm) b]>
                        (Trie.store (trie vm)))
                     (Trie.checkpoints (trie vm)) (Trie.raw (trie vm)))
          (storageTries vm) (log vm)).
Proof.
  unfold StateManager.putAccountBalance, StateManager.getAccount, accountAt,
    Cache.getOrLoad, bind.
  destruct (Cache.table (cache vm) !! address) as [e|]; simpl.
  - reflexivity.
  - rewrite putAccount_state. simpl. now rewrite insert_insert_eq.
Qed.

Lemma accountAt_cached address e vm :
  Cache.table (cache vm) !! address = Some e ->
  Cache.deleted e = false ->
  accountAt address vm = Cache.account e.
Proof.
  intros E D. unfold accountAt, Cache.getOrLoad. now rewrite E, D.
Qed.

(** X1.  The round trip of [putAccount] and [getAccount]: the account put is
    the account read, the read changes nothing, the trie holds the account at
    once, and no other address reads differently. *)
Theorem putAccount_getAccount
        (address : Address) (account : Account) (vm : VM) :
  exists vm1,
    StateManager.putAccount address account vm = (Ok tt, vm1)
    /\ StateManager.getAccount address vm1 = (Ok account, vm1)
    /\ Trie.get address (trie vm1) = Some account
    /\ Cache.get address (cache vm1) = Some account
    /\ forall a, a <> address -> accountAt a vm1 = accountAt a vm.
Proof.
  rewrite putAccount_state. eexists. split; [reflexivity|].
  repeat split.
  - unfold StateManager.getAccount, Cache.getOrLoad. simpl.
    rewrite lookup_insert_eq. reflexivity.
  - unfold Trie.get. simpl. now rewrite lookup_insert_eq.
  - unfold Cache.get. simpl. now rewrite lookup_insert_eq.
  - intros a Ha. unfold accountAt, Cache.getOrLoad, Trie.get. simpl.
    rewrite !lookup_insert_ne by congruence.
    destruct (Cache.table (cache vm) !! a); reflexivity.
Qed.

(** X2.  Two balance writes compose as one would hope: on one address the last
    one wins, and the machine is the one a single write gives; on two
    addresses the order does not matter. *)
Theorem putAccountBalance_compose
        (a1 a2 : Address) (x1 x2 : Account) (b1 b2 : Z) (vm : VM) :
  let put a x b := StateManager.putAccountBalance a x b in
  (run put a1 x1 b1; put a1 x2 b2) vm = put a1 x2 b2 vm
  /\ (a1 <> a2 ->
      (run put a1 x1 b1; put a2 x2 b2) vm
      = (run put a2 x2 b2; put a1 x1 b1) vm).
Proof.
  intros put. unfold put. split.
  - rewrite (bind_ok _ _ _ _ _ (putAccountBalance_state a1 x1 b1 vm)).
    rewrite !putAccountBalance_state. simpl.
    erewrite accountAt_cached;
      [| simpl; apply lookup_insert_eq | reflexivity].
    simpl. now rewrite !insert_insert_eq.
  - intros Hne.
    rewrite (bind_ok _ _ _ _ _ (putAccountBalance_state a1 x1 b1 vm)).
    rewrite (bind_ok _ _ _ _ _ (putAccountBalance_state a2 x2 b2 vm)).
    rewrite !putAccountBalance_state. simpl.
    assert (forall a a' y (w : VM),
              a <> a' ->
              accountAt a
                (mkVM (Cache.Make
                         (<[a' := Cache.Entry y true false false]>
                            (Cache.table (cache w)))
                         (Cache.checkpoints (cache w)))
                      (Trie.Make (<[a' := y]> (Trie.store (trie w)))
                                 (Trie.checkpoints (trie w))
                                 (Trie.raw (trie w)))
                      (storageTries w) (log w))
              = accountAt a w) as Hat.
    { intros a a' y w Ha. unfold accountAt, Cache.getOrLoad, Trie.get. simpl.
      rewrite !lookup_insert_ne by congruence.
      destruct (Cache.table (cache w) !! a); reflexivity. }
    rewrite !Hat by auto.
    rewrite (insert_insert_ne _ a1 a2) by auto.
    rewrite (insert_insert_ne (Trie.store (trie vm)) a1 a2) by auto.
    reflexivity.
Qed.

(** X3.  The round trip of a balance: after [putAccountBalance] the balance
    [getAccountBalance] reads at the address is the one written, and the
    balance it reads at any other address is the one it read before. *)
Theorem putAccountBalance_getAccountBalance
        (address : Address) (account : Account) (b : Z) (vm : VM) :
  exists vm1,
    StateManager.putAccountBalance address account b vm = (Ok tt, vm1)
    /\ StateManager.getAccountBalance address vm1 = (Ok b, vm1)
    /\ forall a, a <> address ->
         fst (StateManager.getAccountBalance a vm1)
         = fst (StateManager.getAccountBalance a vm).
Proof.
  rewrite putAccountBalance_state. eexists. split; [reflexivity|].
  unfold StateManager.getAccountBalance, StateManager.getAccount,
    Cache.getOrLoad, Trie.get, bind. simpl. split.
  - rewrite lookup_insert_eq. reflexivity.
  - intros a Ha. rewrite !lookup_insert_ne by congruence.
    destruct (Cache.table (cache vm) !! a); reflexivity.
Qed.

(** X4.  The round trip of code: [putContractCode] leaves the account it was
    handed, under the hash of the code, in the cache and in the trie (the
    stored account is not read again: its other fields are the caller's), and
    [getContractCodeByAddress] then reads the code back. *)
Theorem putContractCode_getContractCode
        (I : Interp) (address : Address) (account : Account) (value : Bytes)
        (vm : VM) :
  sha3 I value <> SHA3_NULL ->
  let stored := setCodeHash account (sha3 I value) in
  exists vm1,
    StateManager.putContractCode I address account value vm = (Ok tt, vm1)
    /\ Cache.get address (cache vm1) = Some stored
    /\ Trie.get address (trie vm1) = Some stored
    /\ StateManager.getContractCodeByAddress address vm1 = (Ok value, vm1)
    /\ StateManager.getContractCode stored vm1 = (Ok value, vm1).
Proof.
  intros Hh stored.
  unfold StateManager.putContractCode, StateManager.setCode.
  erewrite bind_ok by reflexivity.
  rewrite putAccount_state. eexists. split; [reflexivity|].
  assert (N.eqb (sha3 I value) SHA3_NULL = false) as Hne
    by now apply N.eqb_neq.
  repeat split.
  - unfold Cache.get. simpl. now rewrite lookup_insert_eq.
  - unfold Trie.get. simpl. now rewrite lookup_insert_eq.
  - unfold StateManager.getContractCodeByAddress, StateManager.getAccount,
      Cache.getOrLoad, bind. simpl. rewrite lookup_insert_eq. simpl.
    unfold StateManager.getContractCode, StateManager.getCode. simpl.
    rewrite Hne. unfold gets, Trie.getRaw. simpl.
    now rewrite lookup_insert_eq.
  - unfold StateManager.getContractCode, StateManager.getCode. simpl.
    rewrite Hne. unfold gets, Trie.getRaw. simpl.
    now rewrite lookup_insert_eq.
Qed.

Lemma eachSeries_warmOne_table l : forall vm,
  exists vm',
    StateManager.eachSeries StateManager.warmOne l vm = (Ok tt, vm')
    /\ trie vm' = trie vm /\ log vm' = log vm
    /\ storageTries vm' = storageTries vm
    /\ Cache.checkpoints (cache vm') = Cache.checkpoints (cache vm)
    /\ (forall a, a ∈ l ->
          Cache.table (cache vm') !! a
          = Some (Cache.Entry (default newAccount (Trie.get a (trie vm)))
                              false false true))
    /\ (forall a, a ∉ l ->
          Cache.table (cache vm') !! a = Cache.table (cache vm) !! a).
Proof.
  induction l as [|x l IH]; intros vm; simpl.
  - exists vm. repeat split; auto. intros a Ha. inversion Ha.
  - set (vm1 := withCache (Cache.put x (default newAccount
                                          (Trie.get x (trie vm))) true) vm).
    destruct (IH vm1) as (vm' & E & Ht & Hl & Hs & Hc & Hin & Hout).
    exists vm'. rewrite (bind_ok (StateManager.warmOne x) _ vm tt vm1 eq_refl).
    repeat split; auto.
    + intros a Ha. destruct (decide (a ∈ l)) as [Hl'|Hl'].
      * now apply Hin.
      * apply elem_of_cons in Ha as [->|Ha]; [|contradiction].
        rewrite (Hout x Hl'). unfold vm1. simpl.
        now rewrite lookup_insert_eq.
    + intros a Ha. apply not_elem_of_cons in Ha as [Hne Hnl].
      rewrite (Hout a Hnl). unfold vm1. simpl.
      now rewrite lookup_insert_ne.
Qed.

(** X5.  [warmCache] leaves the trie alone and makes the entry of every
    address of the set the account the trie holds (a fresh one for an unknown
    address), clean, whatever the cache held there: a pending change of a
    warmed address is dropped. No other entry moves. *)
Theorem warmCache_overwrites
        (addresses : list (option Address)) (vm : VM) :
  exists vm',
    StateManager.warmCache addresses vm = (Ok tt, vm')
    /\ trie vm' = trie vm
    /\ (forall a, Some a ∈ addresses ->
          Cache.table (cache vm') !! a
          = Some (Cache.Entry (default newAccount (Trie.get a (trie vm)))
                              false false true))
    /\ (forall a, Some a ∉ addresses ->
          Cache.table (cache vm') !! a = Cache.table (cache vm) !! a).
Proof.
  unfold StateManager.warmCache.
  destruct (eachSeries_warmOne_table (omap id addresses) vm)
    as (vm' & E & Ht & _ & _ & _ & Hin & Hout).
  exists vm'. repeat split; auto.
  - intros a Ha. apply Hin. apply list_elem_of_omap. eauto.
  - intros a Ha. apply Hout. intros Hin'.
    apply list_elem_of_omap in Hin' as (o & Ho & Eo).
    simpl in Eo. subst o. contradiction.
Qed.

(** X6.  A flush after a warming writes nothing at a warmed address, and
    nothing at all when the cache held no dirty entry. *)
Theorem warmCache_flush_keeps_trie
        (addresses : list (option Address)) (vm : VM) :
  exists vm',
    (run StateManager.warmCache addresses; cacheFlush) vm = (Ok tt, vm')
    /\ (forall a, Some a ∈ addresses ->
          Trie.get a (trie vm') = Trie.get a (trie vm))
    /\ (allClean (cache vm) -> Trie.store (trie vm') = Trie.store (trie vm)).
Proof.
  unfold StateManager.warmCache.
  destruct (eachSeries_warmOne_table (omap id addresses) vm)
    as (vm1 & E & Ht & _ & _ & _ & Hin & Hout).
  assert (forall a, a ∈ omap id addresses <-> Some a ∈ addresses) as Hmem.
  { intros a. rewrite list_elem_of_omap. split.
    - intros (o & Ho & Eo). simpl in Eo. now subst o.
    - intros Ha. eauto. }
  rewrite (bind_ok _ _ _ _ _ E). eexists. split; [reflexivity|].
  unfold Trie.get. simpl. split.
  - intros a Ha. apply Hmem in Ha. rewrite lookup_merge, (Hin a Ha), Ht.
    simpl. destruct (Trie.store (trie vm) !! a); reflexivity.
  - intros Hclean. apply map_eq. intros a. rewrite lookup_merge, Ht.
    destruct (decide (a ∈ omap id addresses)) as [Ha|Ha].
    + rewrite (Hin a Ha). simpl.
      destruct (Trie.store (trie vm) !! a); reflexivity.
    + rewrite (Hout a Ha).
      destruct (Cache.table (cache vm) !! a) as [e|] eqn:Ee; simpl.
      * rewrite (Hclean a e Ee).
        destruct (Trie.store (trie vm) !! a); reflexivity.
      * destruct (Trie.store (trie vm) !! a); reflexivity.
Qed.

(** X7.  [getStateRoot] yields the trie with the pending entries of the cache
    applied: an account put is in the root, an address deleted is not; and
    asking again yields the same root. *)
Theorem getStateRoot_applies_cache (vm : VM) :
  exists root vm1,
    StateManager.getStateRoot vm = (Ok root, vm1)
    /\ Trie.store (trie vm1) = root
    /\ allClean (cache vm1)
    /\ fst (StateManager.getStateRoot vm1) = Ok root
    /\ (forall a x,
          fst ((run cachePut a x; StateManager.getStateRoot) vm)
          = Ok (<[a := x]> root))
    /\ (forall a,
          fst ((run cacheDel a; StateManager.getStateRoot) vm)
          = Ok (delete a root)).
Proof.
  unfold StateManager.getStateRoot.
  eexists _, _. split; [reflexivity|]. simpl.
  split; [reflexivity|]. split; [|split; [|split]].
  - intros a e. simpl. rewrite lookup_fmap.
    destruct (Cache.table (cache vm) !! a); simpl; [|discriminate].
    intros E. now inversion E.
  - f_equal. unfold Trie.root. simpl. apply map_eq. intros a.
    rewrite lookup_merge, lookup_fmap, lookup_merge.
    destruct (Cache.table (cache vm) !! a) as [e|],
             (Trie.store (trie vm) !! a); simpl; try reflexivity;
      destruct (Cache.dirty e), (Cache.deleted e); reflexivity.
  - intros a x. simpl. f_equal. unfold Trie.root. simpl.
    apply map_eq. intros k. rewrite lookup_merge.
    destruct (decide (a = k)) as [->|Hne].
    + rewrite !lookup_insert_eq. simpl.
      destruct (Trie.store (trie vm) !! k); reflexivity.
    + rewrite !lookup_insert_ne, lookup_merge by congruence. reflexivity.
  - intros a. simpl. f_equal. unfold Trie.root. simpl.
    apply map_eq. intros k. rewrite lookup_merge.
    destruct (decide (a = k)) as [->|Hne].
    + rewrite lookup_insert_eq, lookup_delete_eq. simpl.
      destruct (Trie.store (trie vm) !! k); reflexivity.
    + rewrite lookup_insert_ne, lookup_delete_ne, lookup_merge by congruence.
      reflexivity.
Qed.

(** ** The call executor without code to run *)

(** The machine and the results a call to another account without code
    leaves. *)
Lemma plain_transfer_state
      (I : Interp) (opts : CallOpts) (account : Account) (to : Address)
      (vm : VM) :
  o_account opts = Some account ->
  o_to opts = Some to ->
  o_code opts = None ->
  to <> o_caller opts ->
  isContract (accountAt to vm) to = false ->
  let v := default 0 (o_value opts) in
  let caller := o_caller opts in
  let debited :=
    setBalance (accountAt caller vm) (bnToBuffer (balance account - v)) in
  let credited :=
    setBalance (accountAt to vm)
               (bnToBuffer (balance (accountAt to vm) + v)) in
  exists vm',
    RunCall.runCall I opts vm
    = (Ok (mkCallResults 0
             (setBalance account (bnToBuffer (balance account - v)))
             credited None
             (mkVmResults None None None None None None None (Some 1))),
       vm')
    /\ Cache.table (cache vm') !! caller
       = Some (Cache.Entry debited true false false)
    /\ Cache.table (cache vm') !! to
       = Some (Cache.Entry credited true false false)
    /\ (forall a, a <> caller -> a <> to ->
          Cache.table (cache vm') !! a = Cache.table (cache vm) !! a)
    /\ Trie.store (trie vm')
       = <[to := credited]> (<[caller := debited]> (Trie.store (trie vm)))
    /\ log vm'
       = log vm ++ [EvCacheCheckpoint; EvTrieCheckpoint; EvCacheCommit].
Proof.
  intros Hacc Hto Hcode Hne Hnc v caller debited credited.
  unfold RunCall.runCall. fold v caller. rewrite Hacc, Hto, Hcode.
  destruct (calculateFromAccountBalance_spec caller account v vm)
    as (vm1 & E1 & Hs1).
  rewrite (bind_ok _ _ _ _ _ E1).
  destruct (stored_other _ _ _ _ to Hs1 Hne) as (_ & _ & Ha1).
  unfold RunCall.loadToAccount.
  destruct (getAccount_spec to vm1)
    as (vm2 & E2 & Ha2 & Htr2 & Hl2 & _ & _ & Hk2 & _).
  rewrite (bind_ok _ _ _ _ _ (bind_ok _ _ _ _ _ E2)).
  destruct (calculateToAccountBalance_spec to (accountAt to vm1) v vm2)
    as (vm3 & E3 & Hs3).
  rewrite (bind_ok _ _ _ _ _ E3).
  rewrite Ha2 in Hs3. rewrite Ha1 in *. fold credited in Hs3, E3 |- *.
  rewrite (bind_ok _ _ _ _ _
             (loadCode_not_contract to credited (o_compiled opts) vm3
                (eq_trans (isContract_setBalance (accountAt to vm) _ to)
                          Hnc))).
  rewrite (bind_ok _ _ _ _ _ (runCode_no_code _ _ _ _ _ _ _ _ _ _ _)).
  erewrite (bind_ok (RunCall.saveCode I None emptyVmResults _)) by reflexivity.
  eexists. split; [reflexivity|]. simpl.
  assert (caller <> to) as Hne' by (intros E; apply Hne; now rewrite <- E).
  destruct Hs1 as (Hc1 & Hk1 & _ & Ht1 & _ & _ & Hl1 & _).
  destruct Hs3 as (Hc3 & Hk3 & _ & Ht3 & _ & _ & Hl3 & _).
  fold debited in Hc1, Ht1.
  split; [|split; [|split; [|split]]].
  - rewrite lookup_insert_ne by congruence.
    now rewrite (Hk3 caller Hne'), (Hk2 caller Hne').
  - now rewrite lookup_insert_eq.
  - intros a Hac Hat. rewrite lookup_insert_ne by congruence.
    now rewrite (Hk3 a Hat), (Hk2 a Hat), (Hk1 a Hac).
  - now rewrite Ht3, Htr2, Ht1.
  - rewrite Hl3, Hl2, Hl1. now rewrite <- !app_assoc.
Qed.

(** X8.  A call to another account that has no code moves the value and runs
    no interpreter: the caller's stored account gets the balance of the
    account handed in, less the value; the recipient gets the value on top;
    both are written to the cache and to the trie; no gas is used, the results
    carry the exception flag 1 and no created address; no other account of the
    trie moves. With a value within the caller's balance the two balances add
    up to what they were. *)
Theorem plain_transfer_moves_value
        (I : Interp) (opts : CallOpts) (account : Account) (to : Address)
        (vm : VM) :
  o_account opts = Some account ->
  o_to opts = Some to ->
  o_code opts = None ->
  to <> o_caller opts ->
  isContract (accountAt to vm) to = false ->
  let v := default 0 (o_value opts) in
  let caller := o_caller opts in
  let recipient := accountAt to vm in
  let debited := bnToBuffer (balance account - v) in
  let credited := bnToBuffer (balance recipient + v) in
  exists res vm',
    RunCall.runCall I opts vm = (Ok res, vm')
    /\ cr_gasUsed res = 0
    /\ cr_createdAddress res = None
    /\ cr_vm res
       = mkVmResults None None None None None None None (Some 1)
    /\ cr_fromAccount res = setBalance account debited
    /\ cr_toAccount res = setBalance recipient credited
    /\ Cache.get caller (cache vm')
       = Some (setBalance (accountAt caller vm) debited)
    /\ Trie.get caller (trie vm')
       = Some (setBalance (accountAt caller vm) debited)
    /\ Cache.get to (cache vm') = Some (setBalance recipient credited)
    /\ Trie.get to (trie vm') = Some (setBalance recipient credited)
    /\ (forall a, a <> caller -> a <> to ->
          Trie.get a (trie vm') = Trie.get a (trie vm))
    /\ (0 <= v <= balance account -> 0 <= balance recipient ->
        debited + credited = balance account + balance recipient).
Proof.
  intros Hacc Hto Hcode Hne Hnc v caller recipient debited credited.
  destruct (plain_transfer_state I opts account to vm Hacc Hto Hcode Hne Hnc)
    as (vm' & E & Hc & Ht & _ & Hs & _).
  assert (caller <> to) as Hne' by (intros E'; apply Hne; now rewrite <- E').
  eexists _, vm'. split; [exact E|]. simpl.
  unfold Cache.get, Trie.get. fold v caller in Hc, Ht, Hs.
  rewrite Hc, Ht, Hs. simpl.
  rewrite lookup_insert_eq, lookup_insert_ne, lookup_insert_eq by congruence.
  repeat split; try reflexivity.
  - intros a Hac Hat. now rewrite !lookup_insert_ne by congruence.
  - unfold debited, credited, bnToBuffer. lia.
Qed.

(** X9.  A call to the caller itself, without code: the value goes off and
    comes back on, so with a value within the balance the account ends with
    the balance it had, in the cache and in the trie, and the results carry it
    as [toAccount]; no gas is used. *)
Theorem self_transfer_keeps_balance
        (I : Interp) (opts : CallOpts) (account : Account) (vm : VM) :
  let caller := o_caller opts in
  let v := default 0 (o_value opts) in
  let debited := bnToBuffer (balance account - v) in
  let final := setBalance (accountAt caller vm) (bnToBuffer (debited + v)) in
  o_account opts = Some account ->
  o_to opts = Some caller ->
  o_code opts = None ->
  isContract (accountAt caller vm) caller = false ->
  exists res vm',
    RunCall.runCall I opts vm = (Ok res, vm')
    /\ cr_gasUsed res = 0
    /\ cr_toAccount res = final
    /\ Cache.get caller (cache vm') = Some final
    /\ Trie.get caller (trie vm') = Some final
    /\ (0 <= v <= balance account -> balance final = balance account).
Proof.
  intros caller v debited final Hacc Hto Hcode Hnc.
  unfold RunCall.runCall. fold v caller. rewrite Hacc, Hto, Hcode.
  destruct (calculateFromAccountBalance_spec caller account v vm)
    as (vm1 & E1 & Hs1).
  rewrite (bind_ok _ _ _ _ _ E1). fold debited in E1, Hs1 |- *.
  destruct (stored_get _ _ _ _ Hs1) as (_ & _ & Ha1).
  unfold RunCall.loadToAccount.
  destruct (getAccount_spec caller vm1) as (vm2 & E2 & Ha2 & _).
  rewrite (bind_ok _ _ _ _ _ (bind_ok _ _ _ _ _ E2)).
  destruct (calculateToAccountBalance_spec caller (accountAt caller vm1) v vm2)
    as (vm3 & E3 & Hs3).
  rewrite (bind_ok _ _ _ _ _ E3).
  rewrite Ha2 in Hs3. rewrite Ha1 in *.
  change (setBalance (setBalance (accountAt caller vm) debited)
            (bnToBuffer
               (balance (setBalance (accountAt caller vm) debited) + v)))
    with final in *.
  rewrite (bind_ok _ _ _ _ _
             (loadCode_not_contract caller final (o_compiled opts) vm3
                (eq_trans (isContract_setBalance (accountAt caller vm) _
                                                 caller) Hnc))).
  rewrite (bind_ok _ _ _ _ _ (runCode_no_code _ _ _ _ _ _ _ _ _ _ _)).
  erewrite (bind_ok (RunCall.saveCode I None emptyVmResults _)) by reflexivity.
  eexists _, _. split; [reflexivity|]. simpl.
  destruct (stored_get _ _ _ _ Hs3) as (_ & Hg3 & _).
  unfold Cache.get, Trie.get in *. simpl. rewrite lookup_insert_eq, Hg3.
  repeat split.
  intros Hv. unfold debited, bnToBuffer. lia.
Qed.

(** ** The call executor with code to run *)

(** The stages before the interpreter, for a frame that has code to run:
    they always complete, and none of them asks for an interpreter. *)
Lemma stages_before_interpreter
      (I : Interp) (opts : CallOpts) (account : Account) (vm : VM) :
  runsCode opts vm ->
  let caller := o_caller opts in
  let v := default 0 (o_value opts) in
  let account1 := setBalance account (bnToBuffer (balance account - v)) in
  exists vm1 toAddress created toAccount code txData vm2 toAccount3 vm3
         code' compiled,
    RunCall.calculateFromAccountBalance caller account v vm
    = (Ok account1, vm1)
    /\ RunCall.loadToAccount I caller account1 (o_to opts) (o_code opts)
                             (o_data opts) vm1
       = (Ok (toAddress, created, toAccount, code, txData), vm2)
    /\ RunCall.calculateToAccountBalance toAddress toAccount v vm2
       = (Ok toAccount3, vm3)
    /\ RunCall.loadCode toAddress toAccount3 code (o_compiled opts) vm3
       = (Ok (Some code', compiled), vm3).
Proof.
  intros Hruns caller v account1.
  destruct (calculateFromAccountBalance_spec caller account v vm)
    as (vm1 & E1 & Hs1).
  assert (exists toAddress created toAccount code vm2 txData,
            RunCall.loadToAccount I caller account1 (o_to opts)
                                  (o_code opts) (o_data opts) vm1
            = (Ok (toAddress, created, toAccount, code, txData), vm2)
            /\ (is_Some code \/ isContract toAccount toAddress = true))
    as (toAddress & created & toAccount & code & vm2 & txData & E2 & Hcode).
  { unfold RunCall.loadToAccount, runsCode in *.
    destruct (o_to opts) as [to|].
    - destruct (getAccount_spec to vm1) as (vm2 & Eg & _).
      rewrite (bind_ok _ _ _ _ _ Eg).
      eexists _, _, _, _, _, _. split; [reflexivity|].
      destruct Hruns as [Hs|Hs]; [now left|right].
      destruct (decide (to = caller)) as [->|Hne].
      + destruct (stored_get _ _ _ _ Hs1) as (_ & _ & ->).
        now rewrite isContract_setBalance.
      + destruct (stored_other _ _ _ _ to Hs1 Hne) as (_ & _ & ->). exact Hs.
    - destruct Hruns as [data Hd]. rewrite Hd.
      eexists _, _, _, _, _, _. split; [reflexivity|]. left; eauto. }
  destruct (calculateToAccountBalance_spec toAddress toAccount v vm2)
    as (vm3 & E3 & Hs3).
  set (toAccount3 := setBalance toAccount _) in *.
  assert (exists code' compiled,
            RunCall.loadCode toAddress toAccount3 code (o_compiled opts) vm3
            = (Ok (Some code', compiled), vm3)) as (code' & compiled & E4).
  { unfold RunCall.loadCode. destruct code as [c|].
    - eexists _, _. reflexivity.
    - destruct Hcode as [[? ?]|Hc]; [discriminate|].
      unfold toAccount3. rewrite isContract_setBalance, Hc. simpl.
      destruct (isPrecompiled toAddress); [eexists _, _; reflexivity|].
      unfold StateManager.getCode.
      destruct (N.eqb _ _); eexists _, _; reflexivity. }
  eexists vm1, toAddress, created, toAccount, code, txData, vm2, toAccount3,
    vm3, code', compiled.
  auto.
Qed.

(** X14.  When the interpreter reports an exception, nothing it did to the
    accounts survives the frame: run with any two interpreters that fault, the
    frame ends with the same cache table, the same accounts in the trie and
    the same open checkpoints. *)
Theorem faulting_frame_discards_interpreter_writes
        (I : Interp) (rc rj : RunCodeOpts -> VM -> RunResults * VM)
        (opts : CallOpts) (account : Account) (vm : VM) :
  let I' := withRunJIT (withRunCode I rc) rj in
  alwaysFaults I ->
  alwaysFaults I' ->
  o_account opts = Some account ->
  runsCode opts vm ->
  exists res vm1 res' vm2,
    RunCall.runCall I opts vm = (Ok res, vm1)
    /\ RunCall.runCall I' opts vm = (Ok res', vm2)
    /\ is_Some (vm_exceptionError (cr_vm res))
    /\ is_Some (vm_exceptionError (cr_vm res'))
    /\ Cache.table (cache vm1) = Cache.table (cache vm2)
    /\ Cache.checkpoints (cache vm1) = Cache.checkpoints (cache vm2)
    /\ Trie.store (trie vm1) = Trie.store (trie vm2)
    /\ Trie.checkpoints (trie vm1) = Trie.checkpoints (trie vm2).
Proof.
  intros I' Hf Hf' Hacc Hruns.
  destruct (stages_before_interpreter I opts account vm Hruns)
    as (vm1 & toAddress & created & toAccount & code & txData & vm2
        & toAccount3 & vm3 & code' & compiled & E1 & E2 & E3 & E4).
  destruct (faulting_frame_restores_checkpoint I opts account vm vm1
              toAddress created toAccount code txData vm2 toAccount3 vm3
              code' compiled Hf Hacc E1 E2 E3 E4)
    as (res & w & E & Hex & Hc & Hcc & Ht & Htc).
  destruct (faulting_frame_restores_checkpoint I' opts account vm vm1
              toAddress created toAccount code txData vm2 toAccount3 vm3
              code' compiled Hf' Hacc E1 E2 E3 E4)
    as (res' & w' & E' & Hex' & Hc' & Hcc' & Ht' & Htc').
  exists res, w, res', w'.
  rewrite Hc, Hc', Hcc, Hcc', Ht, Ht', Htc, Htc'. repeat split; auto.
Qed.

(** X15.  A frame run on the account the cache holds for the caller leaves the
    caller's nonce in the cache as it was, whatever it ran, as long as the
    interpreter leaves nonces alone: the nonce is the transaction executor's
    to bump. *)
Theorem frame_keeps_caller_nonce
        (I : Interp) (opts : CallOpts) (account : Account) (vm : VM)
        (res : CallResults) (vm' : VM) :
  interpKeepsNonce I ->
  o_account opts = Some account ->
  Cache.get (o_caller opts) (cache vm) = Some account ->
  RunCall.runCall I opts vm = (Ok res, vm') ->
  nonce <$> Cache.get (o_caller opts) (cache vm') = Some (nonce account).
Proof.
  intros Hk Hacc Hc E.
  pose proof (runCall_keeps_caller_nonce I Hk opts vm res vm') as Hn.
  rewrite Hc in Hn. apply Hn.
  unfold frameWithCallerAccount, frameOfRunCall. rewrite Hc, <- Hacc.
  destruct opts. simpl in *. now rewrite E.
Qed.




(** ** The transaction executor, further *)

Lemma eachSeries_cacheDel_marks l : forall vm vm',
  StateManager.eachSeries cacheDel l vm = (Ok tt, vm') ->
  forall a, a ∈ l ->
    exists acct,
      Cache.table (cache vm') !! a = Some (Cache.Entry acct true true false).
Proof.
  induction l as [|x l IH]; intros vm vm' E a Ha; [inversion Ha|].
  simpl in E.
  rewrite (bind_ok (cacheDel x) _ vm tt (withCache (Cache.del x) vm) eq_refl)
    in E.
  destruct (decide (a ∈ l)) as [Hl|Hl]; [exact (IH _ _ E a Hl)|].
  apply elem_of_cons in Ha as [->|Ha]; [|contradiction].
  destruct (eachSeries_cacheDel l (withCache (Cache.del x) vm))
    as (vm'' & E' & _ & _ & _ & _ & Hk).
  rewrite E in E'. inversion E'; subst vm''.
  rewrite (Hk x Hl). simpl. rewrite lookup_insert_eq. eauto.
Qed.

Section TxFurther.
Variable H : Hooks.

(** X17.  The bloom of a transaction gets each log's address and then its
    topics, in the order of the logs, and nothing of their data; without logs
    it is the empty bloom. *)
Theorem txLogsBloom_items (logs : option (list LogEntry)) :
  RunTx.txLogsBloom H logs
  = fold_left (bloomAdd H) (concat (map logItems (default [] logs))) 0
  /\ forall logs',
       map logItems (default [] logs) = map logItems (default [] logs') ->
       RunTx.txLogsBloom H logs = RunTx.txLogsBloom H logs'.
Proof.
  assert (forall l, RunTx.txLogsBloom H l
                    = fold_left (bloomAdd H)
                                (concat (map logItems (default [] l))) 0)
    as Hitems.
  { intros [l|]; [|reflexivity]. unfold RunTx.txLogsBloom. simpl.
    generalize 0. induction l as [|x l IH]; intros z; [reflexivity|].
    simpl. rewrite fold_left_app. apply IH. }
  split; [apply Hitems|].
  intros logs' E. now rewrite !Hitems, E.
Qed.

(** What [parseResults] makes of the machine. *)
Lemma parseResults_run tx block basefee fr vm fa ma :
  let g := RunTx.refundGas (cr_gasUsed fr) basefee (vm_gasRefund (cr_vm fr)) in
  let fa' :=
    setBalance fa (bnToBuffer ((tx_gasLimit tx - g) * tx_gasPrice tx
                               + balance fa)) in
  let vm1 := withCache (Cache.put (tx_from tx) fa' false) vm in
  let ma' := setBalance ma (bnToBuffer (balance ma + g * tx_gasPrice tx)) in
  let vm2 := withCache (Cache.put (coinbase block) ma' false) vm1 in
  Cache.get (tx_from tx) (cache vm) = Some fa ->
  Cache.get (coinbase block) (cache vm1) = Some ma ->
  exists res vm',
    RunTx.parseResults H tx block basefee fr vm = (Ok res, vm')
    /\ StateManager.eachSeries cacheDel (default [] (vm_suicides (cr_vm fr)))
                               vm2 = (Ok tt, vm')
    /\ res_gasUsed res = g
    /\ res_amountSpent res = g * tx_gasPrice tx
    /\ vm_suicides (res_vm res) = Some (default [] (vm_suicides (cr_vm fr))).
Proof.
  intros g fa' vm1 ma' vm2 Ef Em. unfold RunTx.parseResults.
  rewrite (bind_ok _ _ vm fa vm (cacheGet_some _ _ _ Ef)).
  erewrite bind_ok by reflexivity.
  fold g fa' vm1.
  rewrite (bind_ok _ _ vm1 ma vm1 (cacheGet_some _ _ _ Em)).
  erewrite bind_ok by reflexivity.
  fold ma' vm2.
  destruct (eachSeries_cacheDel (default [] (vm_suicides (cr_vm fr))) vm2)
    as (vm' & E & _).
  rewrite (bind_ok _ _ _ _ _ E). unfold ret.
  eexists _, vm'. split; [reflexivity|]. simpl. auto.
Qed.

(** X18.  How the gas is settled when the frame is back. The sender gets back
    the gas that was not used, the coinbase gets the gas that was, both in the
    cache only. When the gas used is within the limit the two amounts add up
    to the charge taken up front; a sender that is the coinbase ends with the
    whole charge back. *)
Theorem gas_settlement
        (tx : Tx) (block : BlockHeader) (basefee : Z) (fr : CallResults)
        (vm : VM) (fa ma : Account) :
  let g := RunTx.refundGas (cr_gasUsed fr) basefee (vm_gasRefund (cr_vm fr)) in
  let p := tx_gasPrice tx in
  Cache.get (tx_from tx) (cache vm) = Some fa ->
  Cache.get (coinbase block) (cache vm) = Some ma ->
  tx_from tx ∉ default [] (vm_suicides (cr_vm fr)) ->
  coinbase block ∉ default [] (vm_suicides (cr_vm fr)) ->
  0 <= g <= tx_gasLimit tx -> 0 <= p ->
  0 <= balance fa -> 0 <= balance ma ->
  exists res vm',
    RunTx.parseResults H tx block basefee fr vm = (Ok res, vm')
    /\ trie vm' = trie vm
    /\ (tx_from tx <> coinbase block ->
        Cache.get (tx_from tx) (cache vm')
        = Some (setBalance fa (balance fa + (tx_gasLimit tx - g) * p))
        /\ Cache.get (coinbase block) (cache vm')
           = Some (setBalance ma (balance ma + g * p)))
    /\ (tx_from tx = coinbase block ->
        Cache.get (tx_from tx) (cache vm')
        = Some (setBalance fa (balance fa + tx_gasLimit tx * p))).
Proof.
  intros g p Ef Em Hsf Hsm Hg Hp Hbf Hbm.
  set (fa' := setBalance fa (bnToBuffer ((tx_gasLimit tx - g) * p
                                         + balance fa))).
  assert (exists ma0,
            Cache.get (coinbase block)
              (cache (withCache (Cache.put (tx_from tx) fa' false) vm))
            = Some ma0
            /\ (tx_from tx <> coinbase block -> ma0 = ma)
            /\ (tx_from tx = coinbase block -> ma0 = fa'))
    as (ma0 & Em0 & Hne & Heq).
  { simpl. destruct (decide (tx_from tx = coinbase block)) as [E|N].
    - rewrite <- E, get_put_eq. eexists. split; [reflexivity|].
      split; [contradiction|reflexivity].
    - rewrite get_put_ne by auto. exists ma. split; [exact Em|].
      split; [reflexivity|contradiction]. }
  destruct (parseResults_run tx block basefee fr vm fa ma0 Ef Em0)
    as (res & vm' & E & Ed & _).
  match type of Ed with StateManager.eachSeries _ ?l ?w = _ =>
    destruct (eachSeries_cacheDel l w) as (vm'' & Ed' & Ht & _ & _ & _ & Hk)
  end.
  rewrite Ed' in Ed. inversion Ed; subst vm''. clear Ed.
  exists res, vm'. split; [exact E|]. split; [exact Ht|].
  fold g p in Hk. fold p.
  assert (0 <= (tx_gasLimit tx - g) * p) as Hrest by nia.
  assert (0 <= g * p) as Hspent by nia.
  unfold Cache.get. split.
  - intros N. rewrite (Hk _ Hsf), (Hk _ Hsm). simpl.
    rewrite lookup_insert_ne, !lookup_insert_eq by congruence. simpl.
    rewrite (Hne N). unfold fa', bnToBuffer.
    rewrite !Z.abs_eq by lia.
    split; do 2 f_equal; lia.
  - intros Ec. rewrite (Hk _ Hsf). simpl. rewrite Ec, lookup_insert_eq.
    simpl. rewrite (Heq Ec). unfold fa', bnToBuffer. simpl.
    rewrite !Z.abs_eq by (rewrite ?Z.abs_eq; lia).
    do 2 f_equal. lia.
Qed.

(** X19.  [lib/runTx.js] hands the frame no [account], and [lib/runCall.js]
    reads the balance of [opts.account] first. So with [self.runCall] bound to
    [lib/runCall.js] as it is, every transaction that passes validation stops
    at the frame: the trie is as it was, nothing is flushed, and the sender
    stays in the cache with the nonce bumped and the gas charged. *)
Theorem transaction_without_account_stops
        (I : Interp) (opts : TxOpts) (vm : VM) (sender : Account) :
  let tx := opt_tx opts in
  self_runCall H = frameOfRunCall I ->
  tx_gasLimit tx <= gasLimit (blockOf opts) ->
  beforeTx H tx = None ->
  Cache.get (tx_from tx) (cache (warmed opts vm)) = Some sender ->
  getUpfrontCost tx <= balance sender ->
  (opt_skipNonce opts = false -> nonce sender = tx_nonce tx) ->
  exists vm',
    RunTx.runTx H opts vm = (Fail ErrFrame, vm')
    /\ trie vm' = trie vm
    /\ log vm' = log vm
    /\ Cache.table (cache vm') !! tx_from tx
       = Some (Cache.Entry (precharged tx sender) true false false).
Proof.
  intros tx Hframe Hgas Hhook Hsender Hfunds Hnonce.
  destruct (populateCache_spec opts (blockOf opts) vm)
    as (vm1 & Ep & Ht & Hl & _).
  assert (warmed opts vm = vm1) as Hw by (unfold warmed; now rewrite Ep).
  rewrite Hw in *.
  eexists. split.
  - unfold RunTx.runTx. fold (blockOf opts). fold tx.
    apply Z.ltb_ge in Hgas. rewrite Hgas.
    rewrite (bind_ok _ _ _ _ _ Ep).
    unfold RunTx.runTxHook. rewrite Hhook.
    rewrite (bind_ok (ret tt) _ vm1 tt vm1 eq_refl).
    apply bind_fail. unfold RunTx.runCall. fold tx.
    rewrite (bind_ok _ _ _ _ _ (cacheGet_some _ _ _ Hsender)).
    apply Z.ltb_ge in Hfunds. rewrite Hfunds.
    assert (negb (opt_skipNonce opts)
            && negb (Z.eqb (nonce sender) (tx_nonce tx)) = false) as ->.
    { destruct (opt_skipNonce opts); [reflexivity|].
      rewrite (Hnonce eq_refl), Z.eqb_refl. reflexivity. }
    erewrite bind_ok by reflexivity.
    apply bind_fail. rewrite Hframe.
    rewrite (proj2 (runCall_without_account I _ _ _ _)). reflexivity.
  - simpl. rewrite lookup_insert_eq. auto.
Qed.

(** X20.  An error of the beforeTx listener ends the transaction before the
    sender is looked at: whatever the balance and the nonce, the error is the
    listener's, the trie is untouched and nothing is flushed; only the warming
    of the cache has happened. *)
Theorem before_hook_error_aborts (opts : TxOpts) (vm : VM) (e : N) :
  tx_gasLimit (opt_tx opts) <= gasLimit (blockOf opts) ->
  beforeTx H (opt_tx opts) = Some e ->
  RunTx.runTx H opts vm = (Fail (ErrHook e), warmed opts vm)
  /\ trie (warmed opts vm) = trie vm
  /\ log (warmed opts vm) = log vm.
Proof.
  intros Hgas Hhook.
  destruct (populateCache_spec opts (blockOf opts) vm)
    as (vm1 & Ep & Ht & Hl & _).
  assert (warmed opts vm = vm1) as Hw by (unfold warmed; now rewrite Ep).
  rewrite Hw. repeat split; auto.
  unfold RunTx.runTx. fold (blockOf opts).
  apply Z.ltb_ge in Hgas. rewrite Hgas.
  rewrite (bind_ok _ _ _ _ _ Ep).
  apply bind_fail. unfold RunTx.runTxHook. now rewrite Hhook.
Qed.

(** X21.  An error of the afterTx listener ends the transaction after the
    frame and the settlement, and before the flush: the cache keeps its
    pending entries and its warmed ones, the trie is as the frame left it, and
    the storage tries have been committed. *)
Theorem after_hook_error_skips_flush
        (opts : TxOpts) (vm : VM) (res : TxResults) (vm2 : VM) (e : N) :
  tx_gasLimit (opt_tx opts) <= gasLimit (blockOf opts) ->
  beforeTx H (opt_tx opts) = None ->
  RunTx.runCall H opts (blockOf opts) (warmed opts vm) = (Ok res, vm2) ->
  afterTx H res = Some e ->
  exists vm',
    RunTx.runTx H opts vm = (Fail (ErrHook e), vm')
    /\ cache vm' = cache vm2
    /\ trie vm' = trie vm2
    /\ log vm' = log vm2
    /\ EvCacheFlush ∉ drop (length (log vm2)) (log vm').
Proof.
  intros Hgas Hhook Er Hafter.
  destruct (populateCache_spec opts (blockOf opts) vm)
    as (vm1 & Ep & _).
  assert (warmed opts vm = vm1) as Hw by (unfold warmed; now rewrite Ep).
  rewrite Hw in Er.
  eexists. split.
  - unfold RunTx.runTx. fold (blockOf opts).
    apply Z.ltb_ge in Hgas. rewrite Hgas.
    rewrite (bind_ok _ _ _ _ _ Ep).
    unfold RunTx.runTxHook. rewrite Hhook.
    rewrite (bind_ok (ret tt) _ vm1 tt vm1 eq_refl).
    rewrite (bind_ok _ _ _ _ _ Er).
    erewrite bind_ok by reflexivity.
    apply bind_fail. unfold RunTx.runAfterTxHook. now rewrite Hafter.
  - simpl. repeat split. rewrite drop_all. apply not_elem_of_nil.
Qed.

(** The machine a completed transaction leaves, from the one its stage
    [runCall] left. *)
Lemma runTx_completed opts vm res vm' :
  RunTx.runTx H opts vm = (Ok res, vm') ->
  exists vm2,
    RunTx.runCall H opts (blockOf opts) (warmed opts vm) = (Ok res, vm2)
    /\ afterTx H res = None
    /\ let flushed :=
         mkVM (Cache.flushed (cache vm2))
              (Trie.Make (merge Cache.flushEntry (Cache.table (cache vm2))
                                (Trie.store (trie vm2)))
                         (Trie.checkpoints (trie vm2)) (Trie.raw (trie vm2)))
              ∅ (log vm2 ++ [EvCacheFlush]) in
       vm' = if default true (opt_populateCache opts)
             then emit EvCacheClear (withCache Cache.clear flushed)
             else flushed.
Proof.
  unfold RunTx.runTx. fold (blockOf opts). intros E.
  destruct (Z.ltb _ _); [discriminate|].
  unfold warmed.
  destruct (populateCache_spec opts (blockOf opts) vm) as (vm1 & Ep & _).
  rewrite Ep. simpl.
  rewrite (bind_ok _ _ _ _ _ Ep) in E.
  unfold RunTx.runTxHook in E.
  destruct (beforeTx H (opt_tx opts)); [discriminate|].
  rewrite (bind_ok (ret tt) _ vm1 tt vm1 eq_refl) in E.
  apply bind_inv_ok in E as (res' & vm2 & Er & E).
  erewrite bind_ok in E by reflexivity.
  unfold RunTx.runAfterTxHook in E.
  destruct (afterTx H res') eqn:Ha; [discriminate|].
  erewrite bind_ok in E by reflexivity.
  erewrite bind_ok in E by reflexivity.
  exists vm2.
  destruct (default true (opt_populateCache opts));
    erewrite bind_ok in E by reflexivity;
    inversion E; subst; auto.
Qed.

(** X22.  After a completed transaction the cache holds no pending change: it
    is empty, or, when the warming was switched off, it is kept with every
    entry clean. The state is to be read from the trie. *)
Theorem completed_transaction_leaves_cache_clean
        (opts : TxOpts) (vm : VM) (res : TxResults) (vm' : VM) :
  RunTx.runTx H opts vm = (Ok res, vm') ->
  allClean (cache vm')
  /\ (opt_populateCache opts <> Some false -> Cache.table (cache vm') = ∅)
  /\ (opt_populateCache opts = Some false ->
      exists vm2,
        RunTx.runCall H opts (blockOf opts) vm = (Ok res, vm2)
        /\ forall a, Cache.get a (cache vm') = Cache.get a (cache vm2))
  /\ last (log vm')
     = Some (if default true (opt_populateCache opts)
             then EvCacheClear else EvCacheFlush).
Proof.
  intros E.
  apply runTx_completed in E as (vm2 & Er & _ & Hvm). cbv zeta in Hvm.
  assert (allClean (Cache.flushed (cache vm2))) as Hclean.
  { intros a e. simpl. rewrite lookup_fmap.
    destruct (Cache.table (cache vm2) !! a); simpl; [|discriminate].
    intros E. now inversion E. }
  split; [|split; [|split]].
  - subst vm'. destruct (default true (opt_populateCache opts)).
    + intros a e. simpl. now rewrite lookup_empty.
    + exact Hclean.
  - intros Hp. subst vm'.
    destruct (opt_populateCache opts) as [[|]|]; try reflexivity.
    congruence.
  - intros Hp. exists vm2. split.
    + destruct (populateCache_spec opts (blockOf opts) vm)
        as (vm1 & Ep & _ & _ & Hid & _).
      unfold warmed in Er. rewrite Ep, (Hid Hp) in Er. exact Er.
    + intros a. subst vm'. rewrite Hp. unfold Cache.get. simpl.
      rewrite lookup_fmap.
      destruct (Cache.table (cache vm2) !! a); reflexivity.
  - subst vm'. destruct (default true (opt_populateCache opts)); simpl;
      now rewrite last_snoc.
Qed.

(** X23.  After a completed transaction every account the frame reported as
    self-destructed is gone: the trie holds nothing at its address and the
    cache yields nothing there. *)
Theorem suicides_leave_the_state
        (opts : TxOpts) (vm : VM) (res : TxResults) (vm' : VM) (a : Address) :
  RunTx.runTx H opts vm = (Ok res, vm') ->
  a ∈ default [] (vm_suicides (res_vm res)) ->
  Trie.get a (trie vm') = None /\ Cache.get a (cache vm') = None.
Proof.
  intros E Ha.
  apply runTx_completed in E as (vm2 & Er & _ & Hvm). cbv zeta in Hvm.
  apply runCall_stage_inv in Er as (fa & fr & vmF & _ & _ & _ & _ & Ep).
  pose proof Ep as Ep0.
  unfold RunTx.parseResults in Ep.
  apply bind_inv_ok in Ep as (fa2 & v1 & Eg1 & Ep).
  apply cacheGet_inv in Eg1 as [-> Ef2].
  erewrite bind_ok in Ep by reflexivity.
  apply bind_inv_ok in Ep as (ma & v2 & Eg2 & _).
  apply cacheGet_inv in Eg2 as [_ Em].
  destruct (parseResults_run (opt_tx opts) (blockOf opts)
              (getBaseFee H (opt_tx opts)) fr vmF fa2 ma Ef2 Em)
    as (res2 & vm2' & Ep' & Ed & _ & _ & Hsu).
  rewrite Ep0 in Ep'. inversion Ep'; subst res2 vm2'; clear Ep'.
  rewrite Hsu in Ha. simpl in Ha.
  destruct (eachSeries_cacheDel_marks _ _ _ Ed a Ha) as (acct & Hmark).
  subst vm'. unfold Trie.get, Cache.get.
  destruct (default true (opt_populateCache opts)); simpl.
  - rewrite lookup_merge, Hmark, lookup_empty. split; [|reflexivity].
    destruct (Trie.store (trie vm2) !! a); reflexivity.
  - rewrite lookup_merge, lookup_fmap, Hmark. split; [|reflexivity].
    destruct (Trie.store (trie vm2) !! a); reflexivity.
Qed.

End TxFurther.

(** ** A transfer, from the transaction to the trie *)

(** What the warming of a transaction leaves in the cache. *)
Lemma populateCache_table opts block vm :
  opt_populateCache opts <> Some false ->
  let tx := opt_tx opts in
  let listed a :=
    a = tx_from tx \/ Some a = tx_to tx \/ a = coinbase block in
  exists vm1,
    RunTx.populateCache opts block vm = (Ok tt, vm1)
    /\ trie vm1 = trie vm /\ log vm1 = log vm
    /\ storageTries vm1 = storageTries vm
    /\ (forall a, listed a ->
          Cache.table (cache vm1) !! a
          = Some (Cache.Entry (default newAccount (Trie.get a (trie vm)))
                              false false true))
    /\ (forall a, ~ listed a ->
          Cache.table (cache vm1) !! a = Cache.table (cache vm) !! a).
Proof.
  intros Hp tx listed. unfold RunTx.populateCache, StateManager.warmCache.
  fold tx.
  match goal with |- context [StateManager.eachSeries _ ?l] =>
    destruct (eachSeries_warmOne_table l vm)
      as (vm1 & E & Ht & Hl & Hs & _ & Hin & Hout);
    assert (forall a, a ∈ l <-> listed a) as Hmem
  end.
  { intros a. rewrite list_elem_of_omap. unfold listed. split.
    - intros (o & Ho & Eo). simpl in Eo. subst o.
      apply elem_of_setAdd in Ho as [Ho|Ho].
      + apply elem_of_setAdd in Ho as [Ho|Ho].
        * apply elem_of_setAdd in Ho as [Ho|Ho]; [inversion Ho|].
          left. now inversion Ho.
        * right; left. exact Ho.
      + right; right. now inversion Ho.
    - intros Ha. exists (Some a). split; [|reflexivity].
      apply elem_of_setAdd. destruct Ha as [->|[Ha| ->]].
      + left. apply elem_of_setAdd. left. apply elem_of_setAdd. now right.
      + left. apply elem_of_setAdd. now right.
      + now right. }
  exists vm1.
  destruct (opt_populateCache opts) as [[|]|]; try congruence;
    (split; [exact E|]); repeat split; auto;
    intros a Ha; [apply Hin|apply Hout|apply Hin|apply Hout];
    rewrite Hmem; exact Ha.
Qed.

Section Transfer.
Variable H : Hooks.
Variable I : Interp.

(** X24.  A transfer end to end. With [self.runCall] bound to [lib/runCall.js]
    run on the sender's cached account, a transaction that sends a value to an
    account without code, from a sender that can pay, completes; the gas used
    is the base fee; and the trie then holds the sender with the nonce bumped
    and the value and the fee off its balance, the recipient with the value on
    top, the coinbase with the fee on top, and every other account as before.
    The cache is empty. *)
Theorem transfer_end_to_end (opts : TxOpts) (vm : VM) (to : Address) :
  let tx := opt_tx opts in
  let block := blockOf opts in
  let sender := default newAccount (Trie.get (tx_from tx) (trie vm)) in
  let recipient := default newAccount (Trie.get to (trie vm)) in
  let miner := default newAccount (Trie.get (coinbase block) (trie vm)) in
  let fee := getBaseFee H tx * tx_gasPrice tx in
  self_runCall H = frameWithCallerAccount I ->
  beforeTx H tx = None ->
  (forall r, afterTx H r = None) ->
  opt_populateCache opts <> Some false ->
  allClean (cache vm) ->
  tx_to tx = Some to ->
  tx_from tx <> to /\ tx_from tx <> coinbase block /\ to <> coinbase block ->
  isContract recipient to = false ->
  tx_gasLimit tx <= gasLimit block ->
  (opt_skipNonce opts = false -> nonce sender = tx_nonce tx) ->
  0 <= tx_value tx ->
  0 <= tx_gasPrice tx ->
  0 <= getBaseFee H tx <= tx_gasLimit tx ->
  getUpfrontCost tx <= balance sender ->
  0 <= balance recipient ->
  0 <= balance miner ->
  exists res vm',
    RunTx.runTx H opts vm = (Ok res, vm')
    /\ res_gasUsed res = getBaseFee H tx
    /\ res_amountSpent res = fee
    /\ Trie.get (tx_from tx) (trie vm')
       = Some (mkAccount (nonce sender + 1)
                         (balance sender - tx_value tx - fee)
                         (stateRoot sender) (codeHash sender))
    /\ Trie.get to (trie vm')
       = Some (setBalance recipient (balance recipient + tx_value tx))
    /\ Trie.get (coinbase block) (trie vm')
       = Some (setBalance miner (balance miner + fee))
    /\ (forall a, a <> tx_from tx -> a <> to -> a <> coinbase block ->
          Trie.get a (trie vm') = Trie.get a (trie vm))
    /\ Cache.table (cache vm') = ∅.
Proof.
  intros tx block sender recipient miner fee Hframe Hbefore Hafter Hp Hclean
    Hto (Hft & Hfc & Htc) Hnc Hgas Hnonce Hv Hprice Hfee Hfunds Hbr Hbm.
  set (from := tx_from tx) in *. set (cb := coinbase block) in *.
  set (gl := tx_gasLimit tx) in *. set (p := tx_gasPrice tx) in *.
  set (bf := getBaseFee H tx) in *. set (v := tx_value tx) in *.
  assert (0 <= gl * p) as Hcharge by nia.
  assert (0 <= (gl - bf) * p) as Hrest by nia.
  assert (0 <= bf * p) as Hspent by nia.
  unfold getUpfrontCost in Hfunds. fold gl p v in Hfunds.
  (* the warming *)
  destruct (populateCache_table opts block vm Hp)
    as (vm1 & Ep & Ht1 & _ & _ & Hin & Hout).
  fold tx from cb in Hin, Hout. rewrite Hto in Hin, Hout.
  pose proof (Hin from (or_introl eq_refl)) as Hfrom1.
  pose proof (Hin to (or_intror (or_introl eq_refl))) as Hto1.
  pose proof (Hin cb (or_intror (or_intror eq_refl))) as Hcb1.
  fold sender in Hfrom1. fold recipient in Hto1. fold miner in Hcb1.
  (* the charge *)
  set (charged := precharged tx sender).
  set (vmP := withCache (Cache.put from charged false) vm1).
  (* the frame *)
  set (o := mkCallOpts (Some charged) (Some block) from None
                       (Some (tx_data tx)) (gl - bf) p None (Some to)
                       (Some v) false None None).
  assert (accountAt to vmP = recipient) as Hrec.
  { unfold accountAt, Cache.getOrLoad, vmP. simpl.
    rewrite lookup_insert_ne by congruence. now rewrite Hto1. }
  assert (accountAt from vmP = charged) as Hsend.
  { unfold accountAt, Cache.getOrLoad, vmP. simpl.
    now rewrite lookup_insert_eq. }
  destruct (plain_transfer_state I o charged to vmP eq_refl eq_refl eq_refl
              ltac:(simpl; congruence)
              ltac:(rewrite Hrec; exact Hnc))
    as (vmF & Ef & HcF & HtF & HkF & HsF & _).
  cbv zeta in Ef, HcF, HtF, HkF, HsF. simpl in Ef, HcF, HtF, HkF, HsF.
  rewrite Hrec in *. rewrite Hsend in *.
  set (debited := setBalance charged (bnToBuffer (balance charged - v))) in *.
  set (credited := setBalance recipient (bnToBuffer (balance recipient + v)))
    in *.
  (* the settlement *)
  set (fr := mkCallResults 0 debited credited None
               (mkVmResults None None None None None None None (Some 1))).
  assert (Cache.get from (cache vmF) = Some debited) as Hg1
    by (unfold Cache.get; now rewrite HcF).
  set (refunded :=
         setBalance debited
           (bnToBuffer ((gl - RunTx.refundGas 0 bf None) * p
                        + balance debited))).
  assert (Cache.get cb
            (cache (withCache (Cache.put from refunded false) vmF))
          = Some miner) as Hg2.
  { unfold Cache.get. simpl. rewrite lookup_insert_ne by congruence.
    rewrite HkF by congruence. unfold vmP. simpl.
    rewrite lookup_insert_ne by congruence. now rewrite Hcb1. }
  destruct (parseResults_run H tx block bf fr vmF debited miner Hg1 Hg2)
    as (res & vm2 & Epr & Ed & Hgu & Has & _).
  simpl in Ed. inversion Ed as [Hvm2]. clear Ed.
  fold gl p cb from in Hvm2. fold refunded in Hvm2.
  set (paid := setBalance miner
                 (bnToBuffer (balance miner + RunTx.refundGas 0 bf None * p)))
    in *.
  assert (RunTx.runCall H opts block vm1 = (Ok res, vm2)) as Estage.
  { unfold RunTx.runCall. fold tx from.
    rewrite (bind_ok _ _ vm1 sender vm1);
      [|apply cacheGet_some; unfold Cache.get; now rewrite Hfrom1].
    unfold getUpfrontCost. fold gl p v.
    assert (Z.ltb (balance sender) (gl * p + v) = false) as ->
      by (apply Z.ltb_ge; lia).
    assert (negb (opt_skipNonce opts)
            && negb (Z.eqb (nonce sender) (tx_nonce tx)) = false) as ->.
    { destruct (opt_skipNonce opts); [reflexivity|].
      rewrite (Hnonce eq_refl), Z.eqb_refl. reflexivity. }
    erewrite bind_ok by reflexivity.
    fold bf charged vmP.
    rewrite (bind_ok _ _ vmP fr vmF).
    - exact Epr.
    - rewrite Hframe. unfold frameWithCallerAccount, frameOfRunCall.
      simpl o_caller. fold from.
      replace (Cache.get from (cache vmP)) with (Some charged)
        by (unfold Cache.get, vmP; simpl; now rewrite lookup_insert_eq).
      unfold RunTx.callOptions. simpl. fold o. fold from gl p v.
      rewrite Hto. fold o. now rewrite Ef. }
  (* the flush *)
  eexists res, _. split.
  { unfold RunTx.runTx. fold (blockOf opts). fold block tx gl.
    apply Z.ltb_ge in Hgas. rewrite Hgas.
    rewrite (bind_ok _ _ _ _ _ Ep).
    unfold RunTx.runTxHook. rewrite Hbefore.
    rewrite (bind_ok (ret tt) _ vm1 tt vm1 eq_refl).
    rewrite (bind_ok _ _ _ _ _ Estage).
    erewrite bind_ok by reflexivity.
    unfold RunTx.runAfterTxHook. rewrite Hafter.
    erewrite bind_ok by reflexivity.
    erewrite bind_ok by reflexivity.
    assert (default true (opt_populateCache opts) = true) as ->
      by (destruct (opt_populateCache opts) as [[|]|] eqn:Eo;
          [reflexivity|congruence|reflexivity]).
    erewrite bind_ok by reflexivity. reflexivity. }
  assert (RunTx.refundGas 0 bf None = bf) as Hg by (unfold RunTx.refundGas; lia).
  change (RunTx.refundGas (cr_gasUsed fr) bf (vm_gasRefund (cr_vm fr)))
    with (RunTx.refundGas 0 bf None) in Hgu, Has.
  rewrite Hg in Hgu, Has.
  split; [exact Hgu|]. split; [exact Has|].
  unfold Trie.get. simpl. subst vm2. simpl. rewrite HsF.
  unfold vmP. simpl. rewrite Ht1.
  assert (cb <> from /\ to <> from /\ cb <> to) as (Hcf & Htf & Hct)
    by (repeat split; intros E; symmetry in E; contradiction).
  repeat split.
  - rewrite lookup_merge.
    rewrite (lookup_insert_ne _ cb from) by assumption.
    rewrite lookup_insert_eq.
    rewrite (lookup_insert_ne _ to from) by assumption.
    rewrite lookup_insert_eq. simpl.
    f_equal. unfold debited, charged, precharged, bnToBuffer.
    simpl. fold gl p.
    unfold setBalance, setNonce. simpl. f_equal.
    rewrite (Z.abs_eq (balance sender - gl * p)) by lia.
    rewrite (Z.abs_eq (balance sender - gl * p - v)) by lia.
    rewrite Z.abs_eq by lia. unfold fee. lia.
  - rewrite lookup_merge.
    rewrite (lookup_insert_ne _ cb to) by assumption.
    rewrite (lookup_insert_ne _ from to) by assumption.
    rewrite HtF, lookup_insert_eq. simpl.
    f_equal. unfold credited, bnToBuffer. f_equal.
    rewrite Z.abs_eq by lia. reflexivity.
  - rewrite lookup_merge, lookup_insert_eq. simpl.
    f_equal. unfold bnToBuffer. f_equal.
    rewrite Z.abs_eq by lia. unfold fee. lia.
  - intros a Haf Hat Hac.
    rewrite lookup_merge.
    rewrite (lookup_insert_ne _ cb a) by congruence.
    rewrite (lookup_insert_ne _ from a) by congruence.
    rewrite (lookup_insert_ne _ to a) by congruence.
    rewrite (lookup_insert_ne _ from a) by congruence.
    rewrite HkF by assumption.
    rewrite (lookup_insert_ne _ from a) by congruence.
    rewrite Hout by (intros [?|[?|?]]; congruence).
    destruct (Cache.table (cache vm) !! a) as [e|] eqn:Ee; simpl.
    + rewrite (Hclean a e Ee).
      destruct (Trie.store (trie vm) !! a); reflexivity.
    + destruct (Trie.store (trie vm) !! a); reflexivity.
Qed.

End Transfer.

(** ** The sender's nonce *)

Section SenderNonce.
Variable H : Hooks.


End SenderNonce.

(** ** Witnesses of the state manager's properties *)

Lemma putContractCode_getContractCode_witness :
  exists vm1,
    StateManager.putContractCode Example.interp Example.C (Example.eoa 3 7)
                                 [Byte.xfe] Example.world = (Ok tt, vm1)
    /\ Trie.get Example.C (trie vm1)
       = Some (mkAccount 3 7 SHA3_RLP (Example.hash [Byte.xfe]))
    /\ StateManager.getContractCodeByAddress Example.C vm1
       = (Ok [Byte.xfe], vm1).
Proof.
  destruct (putContractCode_getContractCode Example.interp Example.C
              (Example.eoa 3 7) [Byte.xfe] Example.world
              ltac:(vm_compute; discriminate))
    as (vm1 & E & _ & Ht & Hg & _).
  exists vm1. split; [exact E|]. split; [exact Ht|exact Hg].
Defined.

Lemma warmCache_overwrites_witness :
  exists vm',
    StateManager.warmCache [Some Example.A; None] Example2.worldWithPending
    = (Ok tt, vm')
    /\ Cache.get Example.A (cache Example2.worldWithPending)
       = Some (Example.eoa 1 42)
    /\ Cache.get Example.A (cache vm') = Some (Example.eoa 1 100)
    /\ trie vm' = trie Example2.worldWithPending.
Proof.
  destruct (warmCache_overwrites [Some Example.A; None]
              Example2.worldWithPending) as (vm' & E & Ht & Hin & _).
  exists vm'. split; [exact E|]. split; [reflexivity|].
  split; [|exact Ht].
  unfold Cache.get. rewrite (Hin Example.A ltac:(constructor)). reflexivity.
Defined.

(** ** The examples' interpreters *)

Lemma example_faulty_always_faults : alwaysFaults Example.faulty.
Proof. intros [|] o vm; simpl; eauto. Qed.

Lemma example_scribbler_always_faults :
  alwaysFaults (withRunJIT (withRunCode Example.faulty Example2.scribbling)
                           Example2.scribbling).
Proof. intros [|] o vm; simpl; eauto. Qed.

Lemma example_interp_keeps_checkpoints : keepsCheckpoints Example.interp.
Proof. intros [|] o vm; simpl; auto. Qed.

(** ** Witnesses of the call executor's properties *)

Lemma plain_transfer_moves_value_witness :
  let vm := Example.worldWithContract in
  exists res vm',
    RunCall.runCall Example.interp Example.plainTransfer vm = (Ok res, vm')
    /\ balance <$> Trie.get Example.A (trie vm') = Some 90
    /\ balance <$> Trie.get Example.C (trie vm') = Some 10
    /\ Trie.get Example.B (trie vm') = Some (Example.contract 5)
    /\ 90 + 10 = 100 + 0.
Proof.
  intros vm.
  destruct (plain_transfer_moves_value Example.interp Example.plainTransfer
              (Example.eoa 1 100) Example.C vm
              eq_refl eq_refl eq_refl ltac:(vm_compute; discriminate) eq_refl)
    as (res & vm' & E & _ & _ & _ & _ & _ & _ & Ha & _ & Hc & Hb & Hsum).
  exists res, vm'. split; [exact E|].
  split; [exact (f_equal (fmap balance) Ha)|].
  split; [exact (f_equal (fmap balance) Hc)|].
  split.
  - exact (Hb Example.B ltac:(vm_compute; discriminate)
              ltac:(vm_compute; discriminate)).
  - exact (Hsum ltac:(vm_compute; split; discriminate)
                ltac:(vm_compute; discriminate)).
Defined.

Lemma self_transfer_keeps_balance_witness :
  let vm := Example.worldWithContract in
  exists res vm',
    RunCall.runCall Example.interp Example2.selfCall vm = (Ok res, vm')
    /\ cr_toAccount res = Example.eoa 1 100
    /\ Trie.get Example.A (trie vm') = Some (Example.eoa 1 100).
Proof.
  intros vm.
  destruct (self_transfer_keeps_balance Example.interp Example2.selfCall
              (Example.eoa 1 100) vm eq_refl eq_refl eq_refl eq_refl)
    as (res & vm' & E & _ & Hf & _ & Ht & _).
  exists res, vm'. split; [exact E|]. split; [exact Hf|exact Ht].
Defined.

Lemma no_code_frame_leaves_trie_checkpoint_witness :
  let vm := Example.worldWithContract in
  exists res vm',
    RunCall.runCall Example.interp Example.emptyCall vm = (Ok res, vm')
    /\ Cache.checkpoints (cache vm') = []
    /\ length (Trie.checkpoints (trie vm')) = 1%nat.
Proof.
  intros vm.
  destruct (no_code_frame_leaves_trie_checkpoint Example.interp
              Example.emptyCall (Example.eoa 1 100) Example.C vm
              eq_refl eq_refl eq_refl eq_refl)
    as (res & vm' & E & _ & _ & Hc & Ht).
  exists res, vm'. split; [exact E|]. split; [exact Hc|exact Ht].
Defined.

Lemma frame_with_code_releases_checkpoints_witness :
  let vm := Example.worldWithContract in
  exists res vm',
    RunCall.runCall Example.interp Example.callWithValue vm = (Ok res, vm')
    /\ Cache.checkpoints (cache vm') = []
    /\ Trie.checkpoints (trie vm') = [].
Proof.
  intros vm.
  exact (frame_with_code_releases_checkpoints Example.interp
           Example.callWithValue (Example.eoa 1 100) vm
           example_interp_keeps_checkpoints eq_refl (or_intror eq_refl)).
Defined.

Lemma faulting_frame_discards_interpreter_writes_witness :
  let vm := Example.worldWithContract in
  exists res vm1 res' vm2,
    RunCall.runCall Example.faulty Example.callWithValue vm = (Ok res, vm1)
    /\ RunCall.runCall Example2.scribbler Example.callWithValue vm
       = (Ok res', vm2)
    /\ Cache.table (cache vm1) = Cache.table (cache vm2)
    /\ Trie.store (trie vm1) = Trie.store (trie vm2)
    /\ Trie.get 0x99%N (trie vm2) = None.
Proof.
  intros vm.
  destruct (faulting_frame_discards_interpreter_writes Example.faulty
              Example2.scribbling Example2.scribbling Example.callWithValue
              (Example.eoa 1 100) vm example_faulty_always_faults
              example_scribbler_always_faults eq_refl (or_intror eq_refl))
    as (res & vm1 & res' & vm2 & E & E' & _ & _ & Hc & _ & Ht & _).
  exists res, vm1, res', vm2.
  split; [exact E|]. split; [exact E'|]. split; [exact Hc|].
  split; [exact Ht|].
  assert (vm1 = snd (RunCall.runCall Example.faulty Example.callWithValue vm))
    as Hv by (rewrite E; reflexivity).
  unfold Trie.get. rewrite <- Ht, Hv. vm_compute. reflexivity.
Defined.

Lemma frame_keeps_caller_nonce_witness :
  let vm := Example.worldWithContract in
  let out := RunCall.runCall Example.interp Example.callWithValue vm in
  nonce <$> Cache.get Example.A (cache (snd out)) = Some 1
  /\ nonce <$> Cache.get Example.A (cache vm) = Some 1.
Proof.
  intros vm out. split; [|vm_compute; reflexivity].
  destruct out as [[res|e] vm'] eqn:E.
  - exact (frame_keeps_caller_nonce Example.interp Example.callWithValue
             (Example.eoa 1 100) vm res vm' example_interp_keeps_nonce
             eq_refl ltac:(vm_compute; reflexivity) E).
  - exfalso. subst out. vm_compute in E. discriminate.
Defined.


(** ** Witnesses of the transaction executor's properties *)

Lemma txLogsBloom_items_witness :
  let H := Example.hooks Example.interp in
  RunTx.txLogsBloom H (Some Example2.logs1)
  = RunTx.txLogsBloom H (Some Example2.logs2)
  /\ RunTx.txLogsBloom H (Some Example2.logs1) = 15
  /\ RunTx.txLogsBloom H None = 0.
Proof.
  intros H.
  split; [|split].
  - exact (proj2 (txLogsBloom_items H (Some Example2.logs1))
             (Some Example2.logs2) eq_refl).
  - rewrite (proj1 (txLogsBloom_items H (Some Example2.logs1))).
    vm_compute. reflexivity.
  - rewrite (proj1 (txLogsBloom_items H None)). reflexivity.
Defined.

Lemma gas_settlement_witness :
  let vm := warmed Example.callTxOpts Example.worldWithContractStored in
  exists res vm',
    RunTx.parseResults (Example.hooks Example.interp) Example.callTx
                       Example.block 21000 Example.frameWithRefund vm
    = (Ok res, vm')
    /\ Cache.get Example.A (cache vm') = Some (Example.eoa 0 1027000)
    /\ Cache.get Example.C (cache vm') = Some (Example.eoa 0 23000).
Proof.
  intros vm.
  destruct (gas_settlement (Example.hooks Example.interp) Example.callTx
              Example.block 21000 Example.frameWithRefund vm
              (Example.eoa 0 1000000) (Example.eoa 0 0)
              ltac:(vm_compute; reflexivity) ltac:(vm_compute; reflexivity)
              ltac:(apply not_elem_of_nil) ltac:(apply not_elem_of_nil)
              ltac:(vm_compute; split; discriminate)
              ltac:(vm_compute; discriminate)
              ltac:(vm_compute; discriminate)
              ltac:(vm_compute; discriminate))
    as (res & vm' & E & _ & Hne & _).
  exists res, vm'. split; [exact E|].
  exact (Hne ltac:(vm_compute; discriminate)).
Defined.

Lemma transaction_without_account_stops_witness :
  exists vm',
    RunTx.runTx Example2.literalHooks Example.transferOpts Example.world
    = (Fail ErrFrame, vm')
    /\ trie vm' = trie Example.world
    /\ Cache.get Example.A (cache vm') = Some (Example.eoa 1 979000).
Proof.
  destruct (transaction_without_account_stops Example2.literalHooks
              Example.interp Example.transferOpts Example.world
              (Example.eoa 0 1000000) eq_refl
              ltac:(vm_compute; discriminate) eq_refl
              ltac:(vm_compute; reflexivity)
              ltac:(vm_compute; discriminate) ltac:(reflexivity))
    as (vm' & E & Ht & _ & Hc).
  exists vm'. split; [exact E|]. split; [exact Ht|].
  unfold Cache.get.
  change (tx_from (opt_tx Example.transferOpts)) with Example.A in Hc.
  rewrite Hc. reflexivity.
Defined.

Lemma before_hook_error_aborts_witness :
  RunTx.runTx Example2.vetoHooks Example.poorBadNonceOpts Example.world
  = (Fail (ErrHook 7), warmed Example.poorBadNonceOpts Example.world)
  /\ trie (warmed Example.poorBadNonceOpts Example.world)
     = trie Example.world.
Proof.
  destruct (before_hook_error_aborts Example2.vetoHooks
              Example.poorBadNonceOpts Example.world 7%N
              ltac:(vm_compute; discriminate) eq_refl)
    as (E & Ht & _).
  split; [exact E|exact Ht].
Defined.

Lemma after_hook_error_skips_flush_witness :
  exists vm',
    RunTx.runTx Example2.auditHooks Example.transferOpts Example.world
    = (Fail (ErrHook 9), vm')
    /\ balance <$> Cache.get Example.C (cache vm') = Some 21000
    /\ balance <$> Trie.get Example.C (trie vm') = Some 0.
Proof.
  destruct (RunTx.runCall Example2.auditHooks Example.transferOpts
              (blockOf Example.transferOpts)
              (warmed Example.transferOpts Example.world))
    as [[res|e] vm2] eqn:Er.
  - destruct (after_hook_error_skips_flush Example2.auditHooks
                Example.transferOpts Example.world res vm2 9%N
                ltac:(vm_compute; discriminate) eq_refl Er eq_refl)
      as (vm' & E & Hc & Ht & _).
    exists vm'. split; [exact E|]. rewrite Hc, Ht.
    vm_compute in Er. inversion Er. subst vm2.
    split; vm_compute; reflexivity.
  - exfalso. vm_compute in Er. discriminate.
Defined.

Lemma completed_transaction_leaves_cache_clean_witness :
  let out := RunTx.runTx (Example.hooks Example.interp) Example.transferOpts
                         Example.world in
  fst out = Ok Example.transferResults
  /\ Cache.table (cache (snd out)) = ∅
  /\ last (log (snd out)) = Some EvCacheClear.
Proof.
  intros out.
  assert (out = (Ok Example.transferResults, snd out)) as Hrun
    by (vm_compute; reflexivity).
  destruct (completed_transaction_leaves_cache_clean
              (Example.hooks Example.interp) Example.transferOpts
              Example.world Example.transferResults (snd out) Hrun)
    as (_ & Hempty & _ & Hlast).
  split; [now rewrite Hrun|].
  split; [apply Hempty; discriminate|exact Hlast].
Defined.

Lemma suicides_leave_the_state_witness :
  let out := RunTx.runTx (Example.hooks Example2.destructor)
                         Example.callTxOpts Example.worldWithContractStored in
  (vm_suicides <$> (res_vm <$> (match fst out with
                                | Ok res => Some res
                                | Fail _ => None
                                end)) = Some (Some [Example.B]))
  /\ Trie.get Example.B (trie (snd out)) = None
  /\ Cache.get Example.B (cache (snd out)) = None.
Proof.
  intros out.
  destruct out as [[res|e] vm'] eqn:E.
  - assert (vm_suicides (res_vm res) = Some [Example.B]) as Hs.
    { subst out. vm_compute in E. inversion E. reflexivity. }
    split; [simpl; now rewrite Hs|].
    apply (suicides_leave_the_state (Example.hooks Example2.destructor)
             Example.callTxOpts Example.worldWithContractStored res vm'
             Example.B E).
    rewrite Hs. apply list_elem_of_singleton. reflexivity.
  - exfalso. subst out. vm_compute in E. discriminate.
Defined.

Lemma transfer_end_to_end_witness :
  exists res vm',
    RunTx.runTx (Example.hooks Example.interp) Example.transferOpts
                Example.world = (Ok res, vm')
    /\ res_gasUsed res = 21000
    /\ Trie.get Example.A (trie vm') = Some (Example.eoa 1 978000)
    /\ Trie.get Example.B (trie vm') = Some (Example.eoa 0 1000)
    /\ Trie.get Example.C (trie vm') = Some (Example.eoa 0 21000)
    /\ 978000 + 1000 + 21000 = 1000000.
Proof.
  destruct (transfer_end_to_end (Example.hooks Example.interp) Example.interp
              Example.transferOpts Example.world Example.B
              eq_refl eq_refl (fun _ => eq_refl)
              ltac:(discriminate)
              ltac:(intros a e Hl; vm_compute in Hl; discriminate)
              eq_refl
              ltac:(vm_compute; repeat split; discriminate)
              eq_refl
              ltac:(vm_compute; discriminate)
              ltac:(reflexivity)
              ltac:(vm_compute; discriminate)
              ltac:(vm_compute; discriminate)
              ltac:(vm_compute; split; discriminate)
              ltac:(vm_compute; discriminate)
              ltac:(vm_compute; discriminate)
              ltac:(vm_compute; discriminate))
    as (res & vm' & E & Hg & _ & Ha & Hb & Hc & _).
  exists res, vm'. repeat split; [exact E|exact Hg|exact Ha|exact Hb|exact Hc].
Defined.

(** ** The amended claims at concrete inputs *)



Lemma zero_value_call_materialises_recipient_witness :
  let vm := Example.worldWithContract in
  (Cache.table (cache vm) !! Example.C = None
   /\ Trie.get Example.C (trie vm) = None
   /\ exists res vm',
        RunCall.runCall Example.interp Example.emptyCall vm = (Ok res, vm')
        /\ Cache.table (cache vm') !! Example.C
           = Some (Cache.Entry newAccount true false false)
        /\ Trie.get Example.C (trie vm') = Some newAccount)
  /\ (Cache.table (cache vm) !! 2%N = None
      /\ Trie.get 2%N (trie vm) = None
      /\ exists res vm',
           RunCall.runCall Example.interp Example2.precompileCall vm
           = (Ok res, vm')
           /\ Cache.table (cache vm') !! 2%N
              = Some (Cache.Entry newAccount true false false)
           /\ Trie.get 2%N (trie vm') = Some newAccount).
Proof.
  intros vm. split.
  - split; [reflexivity|]. split; [reflexivity|].
    destruct (zero_value_call_materialises_recipient Example.interp
                Example.emptyCall (Example.eoa 1 100) Example.C vm
                eq_refl eq_refl) as (Hnew & _ & Hno & _).
    destruct (Hno ltac:(vm_compute; reflexivity))
      as (res & vm' & E & _ & Hc & Ht).
    exists res, vm'. split; [exact E|].
    rewrite Hc, Ht.
    rewrite (Hnew ltac:(vm_compute; discriminate) eq_refl eq_refl
                  (or_introl eq_refl)).
    split; reflexivity.
  - split; [reflexivity|]. split; [reflexivity|].
    destruct (zero_value_call_materialises_recipient Example.interp
                Example2.precompileCall (Example.eoa 1 100) 2%N vm
                eq_refl eq_refl) as (Hnew & _ & _ & Hrun).
    destruct (interpreterInput Example.interp Example2.precompileCall vm)
      as [[[[compiled created] ro] vmb]|] eqn:Hin.
    2:{ exfalso. vm_compute in Hin. discriminate. }
    destruct (codeRunner Example.interp compiled ro vmb) as [rr vmi] eqn:Er.
    destruct (Hrun compiled created ro vmb rr vmi eq_refl Er)
      as (_ & res & vm' & E & Hok & _).
    exists res, vm'. split; [exact E|].
    vm_compute in Hin. inversion Hin; subst compiled created ro vmb.
    vm_compute in Er. inversion Er; subst rr vmi.
    destruct (Hok eq_refl) as (_ & Hc & Ht).
    split; [exact Hc|]. rewrite Ht. vm_compute. reflexivity.
Defined.

Lemma faulting_call_keeps_credit_witness :
  let vm := Example.worldWithContract in
  exists res vm',
    RunCall.runCall Example.faulty Example.callWithValue vm = (Ok res, vm')
    /\ vm_exceptionError (cr_vm res) = Some 1%N
    /\ Cache.get Example.B (cache vm') = Some (Example.contract 15)
    /\ Trie.get Example.B (trie vm') = Some (Example.contract 15)
    /\ balance <$> Cache.get Example.A (cache vm') = Some 100.
Proof.
  intros vm.
  destruct (interpreterInput Example.faulty Example.callWithValue vm)
    as [[[[compiled created] ro] vmb]|] eqn:Hin.
  2:{ exfalso. vm_compute in Hin. discriminate. }
  destruct (codeRunner Example.faulty compiled ro vmb) as [rr vmi] eqn:Er.
  assert (r_exceptionError rr = Some 1%N
          /\ Cache.checkpoints (cache vmi) = Cache.checkpoints (cache vmb)
          /\ Trie.checkpoints (trie vmi) = Trie.checkpoints (trie vmb))
    as (Hex & Hcc & Htc).
  { destruct compiled; inversion Er; subst rr vmi; auto. }
  exact (faulting_call_keeps_credit Example.faulty Example.callWithValue
           (Example.eoa 1 100) Example.B vm compiled created ro vmb rr vmi
           1%N eq_refl eq_refl ltac:(vm_compute; discriminate) Hin Er Hex
           Hcc Htc).
Defined.

Lemma faulting_creation_keeps_entry_witness :
  let vm := Example.worldWithContract in
  exists res vm',
    RunCall.runCall Example.faulty Example.createFrame vm = (Ok res, vm')
    /\ vm_exceptionError (cr_vm res) = Some 1%N
    /\ cr_createdAddress res = Some Example.created
    /\ Trie.get Example.created (trie vm') = Some newAccount
    /\ Cache.table (cache vm') !! Example.created
       = Some (Cache.Entry newAccount true false false).
Proof.
  intros vm.
  destruct (interpreterInput Example.faulty Example.createFrame vm)
    as [[[[compiled created] ro] vmb]|] eqn:Hin.
  2:{ exfalso. vm_compute in Hin. discriminate. }
  destruct (codeRunner Example.faulty compiled ro vmb) as [rr vmi] eqn:Er.
  assert (r_exceptionError rr = Some 1%N
          /\ r_balanceIs00 rr = false
          /\ Cache.checkpoints (cache vmi) = Cache.checkpoints (cache vmb)
          /\ Trie.checkpoints (trie vmi) = Trie.checkpoints (trie vmb))
    as (Hex & Hz & Hcc & Htc).
  { destruct compiled; inversion Er; subst rr vmi; auto. }
  destruct (faulting_creation_keeps_entry Example.faulty Example.createFrame
              (Example.eoa 1 100) vm compiled created ro vmb rr vmi 1%N
              eq_refl eq_refl ltac:(vm_compute; discriminate) Hin Er Hex
              Hcc Htc)
    as (res & vm' & E & Hx & Hcr & _ & Ht & Hc).
  exists res, vm'. split; [exact E|]. split; [exact Hx|].
  split; [exact Hcr|]. split; [exact Ht|exact (Hc Hz)].
Defined.
